(** * AR-Architecture-App: pose tracking, smoothing and placement

    A shallow embedding of the tracking and placement core of the
    application:

    - [src/ar/KalmanFilter.js]    : [KalmanFilter], [PoseKalmanFilter],
                                    and [KalmanFilter64], the scalar filter
                                    over binary64
    - [src/ar/WebXREngine.js]     : [WebXREngine] (hit-test tracker)
    - [src/ar/AREngine.js]        : the visual plane tracker, in its two
                                    copies: [AREngine], which keeps
                                    [planeConfidence], and [AREnginePlain],
                                    the file [main.js] imports, which does
                                    not
    - [src/ar/ARLocationEngine.js]: [ARLocationEngine] (geodetic tracker),
                                    and [ARLocationEngine64], the haversine
                                    distance over binary64
    - [src/ar/SceneManager.js]    : [SceneManager] (placing, anchoring and
                                    resetting the model)
    - [src/ar/UIController.js]    : [UIController] (GPS target panel and
                                    overlay)
    - [src/main.js]               : the three per-frame loops, the status
                                    indicator, [placeModel], [resetModel]

    Numbers.  A JavaScript [Number] is an IEEE-754 binary64 value.  The
    development reads the arithmetic of the source over the real numbers
    [R]: [+ - * /] are the exact operations, [Math.min] and [Math.max] are
    [Rmin] and [Rmax], [Math.sin], [Math.cos], [Math.sqrt] are [sin],
    [cos], [sqrt], and [Math.atan2] and [%] are written out in [JSMath]
    below.  Rounding, overflow, [NaN] and signed zeros are outside that
    reading.  In two places rounding changes what the code does, and the
    same source text is read a second time over binary64 ([PrimFloat]):
    the covariance update of the scalar Kalman filter, where [1 - K[0]]
    can round to 0, and the haversine distance, where the term under the
    square roots can round to a number above 1.  Where the source itself
    tests for [NaN] or [null] (the input fields of the GPS panel, an
    altitude that may be missing), the value is an [option].

    Effects.  Every class is a record of its fields and every method is a
    function from the old object to the new object (and a result).  What
    the platform supplies during a call (OpenCV results, WebXR frames,
    Three.js ray casting) is an explicit argument.  A call that may throw
    returns an [outcome]; the loops of [main.js] are traces of what one
    iteration does, up to an exception that ends it. *)

From Stdlib Require Import Reals Lra Lia Psatz List Bool ZArith.
From Stdlib Require String PrimFloat.
Import ListNotations.

Local Open Scope R_scope.

(** ** JavaScript arithmetic read over the reals *)

Module JSMath.

(** Comparison operators [>], [>=], [<], [<=] as booleans. *)
Definition gtb (a b : R) : bool := if Rlt_dec b a then true else false.
Definition geb (a b : R) : bool := if Rle_dec b a then true else false.
Definition ltb (a b : R) : bool := if Rlt_dec a b then true else false.
Definition leb (a b : R) : bool := if Rle_dec a b then true else false.

(** [Math.min(a, b)] and [Math.max(a, b)]. *)
Definition min (a b : R) : R := Rmin a b.
Definition max (a b : R) : R := Rmax a b.

(** Truncation toward zero, the integer quotient that [%] uses. *)
Definition trunc (r : R) : Z :=
    if Rle_dec 0 r then Int_part r else (- Int_part (- r))%Z.

(** [a % b]: the remainder has the sign of the dividend. *)
Definition rem (a b : R) : R := a - b * IZR (trunc (a / b)).

(** [Math.atan2(y, x)], by quadrant. *)
Definition atan2 (y x : R) : R :=
    if Rlt_dec 0 x then atan (y / x)
    else if Rlt_dec x 0 then
      (if Rle_dec 0 y then atan (y / x) + PI else atan (y / x) - PI)
    else
      (if Rlt_dec 0 y then PI / 2
       else if Rlt_dec y 0 then - (PI / 2)
       else 0).

End JSMath.

Infix ">?" := JSMath.gtb (at level 70, no associativity) : R_scope.
Infix ">=?" := JSMath.geb (at level 70, no associativity) : R_scope.
Infix "<?" := JSMath.ltb (at level 70, no associativity) : R_scope.
Infix "<=?" := JSMath.leb (at level 70, no associativity) : R_scope.

(** ** Shared data: vectors, poses, tracking results *)

Record Vector2 := mkVector2 { v2x : R; v2y : R }.
Record Vector3 := mkVector3 { v3x : R; v3y : R; v3z : R }.

(** The pose objects built by the three engines.  They are plain object
    literals with a common core ([position], [rotation]) and per-engine
    extras; absent properties are [None]. *)
Record Pose := mkPose {
  position    : Vector3;
  rotation    : Vector3;
  rotationW   : option R;        (* rotation.w, WebXR only *)
  planeCenter : option Vector2;  (* visual tracker only *)
  confidence  : option R;
  gpsDistance : option R;        (* distance, geodetic tracker only *)
  gpsBearing  : option R;        (* bearing,  geodetic tracker only *)
  gpsAccuracy : option R         (* accuracy, geodetic tracker only *)
}.

(** A rigid transform of the WebXR Device API: position and orientation
    quaternion (the [matrix] property is not read by the application). *)
Record XRRigidTransform := mkXRRigidTransform {
  xrPosition : Vector3;
  xrOrientationX : R; xrOrientationY : R;
  xrOrientationZ : R; xrOrientationW : R
}.

(** Device orientation angles, in degrees. *)
Record Orientation := mkOrientation { alpha : R; beta : R; gamma : R }.

(** A geolocation fix as [updateLocation] stores it; [altitude] may be
    [null]. *)
Record LocationFix := mkLocationFix {
  latitude  : R;
  longitude : R;
  altitude  : option R;
  accuracy  : R;
  timestamp : R
}.

Record TargetLocation := mkTargetLocation {
  targetLatitude  : R;
  targetLongitude : R;
  targetAltitude  : R
}.

(** The [gpsData] payload of the geodetic tracker's result. *)
Record GpsData := mkGpsData {
  gpsCurrentLocation : option LocationFix;
  gpsTargetLocation  : option TargetLocation;
  distance           : option R;
  bearing            : option R
}.

(** The object returned by every [processFrame].  [hitTestResult] and
    [viewerTransform] are set by the hit-test tracker only, [gpsData] by
    the geodetic tracker only. *)
Record TrackingResult := mkTrackingResult {
  isTracking      : bool;
  hasFeatures     : bool;
  featureCount    : nat;
  planeCount      : nat;
  pose            : option Pose;
  hitTestResult   : option XRRigidTransform;
  viewerTransform : option XRRigidTransform;
  gpsData         : option GpsData
}.

(** The literal every [processFrame] starts from. *)
Definition emptyResult : TrackingResult :=
  mkTrackingResult false false 0 0 None None None None.

(** ** Platform calls that may throw

    A call into OpenCV.js or the WebXR API either returns a value or
    throws; the [try]/[catch] blocks of the source decide what a throw
    does. *)
Inductive outcome (A : Type) : Type :=
| Returns (a : A)
| Throws.
Arguments Returns {A} a.
Arguments Throws {A}.

(** One tick either leaves the confidence alone, or raises it by 0.15 up
    to the cap 1.0, or lowers it by 0.10 down to the floor 0. *)
Definition confidenceStep (c c' : R) : Prop :=
  c' = c \/ c' = JSMath.min 1.0 (c + 0.15) \/ c' = JSMath.max 0 (c - 0.1).

(** ** src/ar/KalmanFilter.js *)

Module KalmanFilter.

Record t := mk {
    x : R;                (* estimated value *)
    v : R;                (* estimated velocity *)
    P00 : R; P01 : R;     (* covariance matrix P *)
    P10 : R; P11 : R;
    processNoise : R;     (* this.Q *)
    measurementNoise : R; (* this.R *)
    dt : R
  }.

(** [constructor(processNoise = 0.01, measurementNoise = 0.1)] *)
Definition new (processNoise measurementNoise : R) : t :=
    mk 0 0 1 0 0 1 processNoise measurementNoise (1 / 30).

Definition default : t := new 0.01 0.1.

Definition predict (k : t) : t :=
    mk (x k + v k * dt k) (v k)
       (P00 k + processNoise k) (P01 k + 0)
       (P10 k + 0) (P11 k + processNoise k)
       (processNoise k) (measurementNoise k) (dt k).

(** [update(measurement)]: the new filter and the returned [this.x],
    read over the reals; [KalmanFilter64.update] below is the binary64
    reading. *)
Definition update (measurement : R) (k : t) : t * R :=
    let y := measurement - x k in
    let S := P00 k + measurementNoise k in
    let K0 := P00 k / S in
    let K1 := P10 k / S in
    let x' := x k + K0 * y in
    let v' := v k + K1 * y in
    (mk x' v'
        ((1 - K0) * P00 k) ((1 - K0) * P01 k)
        (P10 k - K1 * P00 k) (P11 k - K1 * P01 k)
        (processNoise k) (measurementNoise k) (dt k),
     x').

Definition filter (measurement : R) (k : t) : t * R :=
    update measurement (predict k).

Definition reset (k : t) : t :=
    mk 0 0 1 0 0 1 (processNoise k) (measurementNoise k) (dt k).

(** The innovation covariance [S] that [update] divides by. *)
Definition innovationCovariance (k : t) : R := P00 k + measurementNoise k.

(** A call on the filter object, for arbitrary call sequences. *)
Inductive call :=
  | Predict
  | Update (measurement : R)
  | Filter (measurement : R)
  | Reset.

Definition step (k : t) (c : call) : t :=
    match c with
    | Predict => predict k
    | Update z => fst (update z k)
    | Filter z => fst (filter z k)
    | Reset => reset k
    end.

Definition run (cs : list call) (k : t) : t := fold_left step cs k.





End KalmanFilter.

Module PoseKalmanFilter.

Record t := mk {
    posX : KalmanFilter.t; posY : KalmanFilter.t; posZ : KalmanFilter.t;
    rotX : KalmanFilter.t; rotY : KalmanFilter.t; rotZ : KalmanFilter.t
  }.

Definition new (processNoise measurementNoise : R) : t :=
    mk (KalmanFilter.new processNoise measurementNoise)
       (KalmanFilter.new processNoise measurementNoise)
       (KalmanFilter.new processNoise measurementNoise)
       (KalmanFilter.new (processNoise * 0.5) (measurementNoise * 0.5))
       (KalmanFilter.new (processNoise * 0.5) (measurementNoise * 0.5))
       (KalmanFilter.new (processNoise * 0.5) (measurementNoise * 0.5)).

Definition default : t := new 0.01 0.1.

(** [filter(pose)]: [null] for a missing pose; otherwise a fresh object
      with the six filtered coordinates, [planeCenter] and [confidence]
      copied over and every other property dropped. *)
Definition filter (p : option Pose) (b : t) : t * option Pose :=
    match p with
    | None => (b, None)
    | Some p =>
        let '(px, fx) := KalmanFilter.filter (v3x (position p)) (posX b) in
        let '(py, fy) := KalmanFilter.filter (v3y (position p)) (posY b) in
        let '(pz, fz) := KalmanFilter.filter (v3z (position p)) (posZ b) in
        let '(rx, gx) := KalmanFilter.filter (v3x (rotation p)) (rotX b) in
        let '(ry, gy) := KalmanFilter.filter (v3y (rotation p)) (rotY b) in
        let '(rz, gz) := KalmanFilter.filter (v3z (rotation p)) (rotZ b) in
        (mk px py pz rx ry rz,
         Some (mkPose (mkVector3 fx fy fz) (mkVector3 gx gy gz)
                      None (planeCenter p) (confidence p) None None None))
    end.

Definition reset (b : t) : t :=
    mk (KalmanFilter.reset (posX b)) (KalmanFilter.reset (posY b))
       (KalmanFilter.reset (posZ b)) (KalmanFilter.reset (rotX b))
       (KalmanFilter.reset (rotY b)) (KalmanFilter.reset (rotZ b)).

(** The bank after a sequence of [filter(pose)] calls. *)
Definition run (poses : list (option Pose)) (b : t) : t :=
    fold_left (fun b p => fst (filter p b)) poses b.

End PoseKalmanFilter.

(** *** The scalar filter over binary64

    The same four methods with every [Number] an IEEE-754 binary64 value
    and [+ - * /] the correctly rounded operations. *)

Module KalmanFilter64.
Import PrimFloat.
Local Open Scope float_scope.
Local Set Warnings "-inexact-float".

Record t := mk {
    x : float;                (* estimated value *)
    v : float;                (* estimated velocity *)
    P00 : float; P01 : float; (* covariance matrix P *)
    P10 : float; P11 : float;
    processNoise : float;     (* this.Q *)
    measurementNoise : float; (* this.R *)
    dt : float
  }.

Definition new (processNoise measurementNoise : float) : t :=
    mk 0 0 1 0 0 1 processNoise measurementNoise (1 / 30).

Definition predict (k : t) : t :=
    mk (x k + v k * dt k) (v k)
       (P00 k + processNoise k) (P01 k + 0)
       (P10 k + 0) (P11 k + processNoise k)
       (processNoise k) (measurementNoise k) (dt k).

Definition update (measurement : float) (k : t) : t * float :=
    let y := measurement - x k in
    let S := P00 k + measurementNoise k in
    let K0 := P00 k / S in
    let K1 := P10 k / S in
    let x' := x k + K0 * y in
    let v' := v k + K1 * y in
    (mk x' v'
        ((1 - K0) * P00 k) ((1 - K0) * P01 k)
        (P10 k - K1 * P00 k) (P11 k - K1 * P01 k)
        (processNoise k) (measurementNoise k) (dt k),
     x').

Definition filter (measurement : float) (k : t) : t * float :=
    update measurement (predict k).

Definition innovationCovariance (k : t) : float :=
    P00 k + measurementNoise k.

End KalmanFilter64.

(** ** src/ar/WebXREngine.js (hit-test tracker) *)

Module WebXREngine.

(** What the session hands to [processFrame]. *)
Record XRViewerPose := mkXRViewerPose { views : list XRRigidTransform }.

(** A hit-test result; [getPose] is [hit.getPose(refSpace)]. *)
Record XRHitTestResult := mkXRHitTestResult {
  getPose : outcome (option XRRigidTransform)
}.

Record XRFrame := mkXRFrame {
  getViewerPose     : outcome (option XRViewerPose);
  getHitTestResults : outcome (list XRHitTestResult)
}.

Record t := mk {
  isSupported     : bool;
  isSessionActive : bool;
  xrHitTestSource : bool;          (* is a hit-test source attached? *)
  isTrackingField : bool;          (* this.isTracking *)
  currentPose     : option Pose;
  hitTestResults  : list XRHitTestResult;
  viewerPose      : option XRViewerPose;
  planeConfidence : R
}.

(** [constructor()] *)
Definition new : t := mk false false false false None [] None 0.

Definition set_viewerPose (vp : option XRViewerPose) (e : t) : t :=
  mk (isSupported e) (isSessionActive e) (xrHitTestSource e)
     (isTrackingField e) (currentPose e) (hitTestResults e) vp
     (planeConfidence e).

Definition set_hitTestResults (hs : list XRHitTestResult) (e : t) : t :=
  mk (isSupported e) (isSessionActive e) (xrHitTestSource e)
     (isTrackingField e) (currentPose e) hs (viewerPose e)
     (planeConfidence e).

Definition set_planeConfidence (c : R) (e : t) : t :=
  mk (isSupported e) (isSessionActive e) (xrHitTestSource e)
     (isTrackingField e) (currentPose e) (hitTestResults e) (viewerPose e) c.

Definition set_currentPose (p : option Pose) (e : t) : t :=
  mk (isSupported e) (isSessionActive e) (xrHitTestSource e)
     (isTrackingField e) p (hitTestResults e) (viewerPose e)
     (planeConfidence e).

Definition set_isTracking (b : bool) (e : t) : t :=
  mk (isSupported e) (isSessionActive e) (xrHitTestSource e)
     b (currentPose e) (hitTestResults e) (viewerPose e)
     (planeConfidence e).

(** The pose literal built from the top hit. *)
Definition poseOfHit (hitPose : XRRigidTransform) (conf : R) : Pose :=
  mkPose (mkVector3 (v3x (xrPosition hitPose)) (v3y (xrPosition hitPose))
                    (v3z (xrPosition hitPose)))
         (mkVector3 (xrOrientationX hitPose) (xrOrientationY hitPose)
                    (xrOrientationZ hitPose))
         (Some (xrOrientationW hitPose)) None (Some conf) None None None.

(** The hit-test block of [processFrame] (the body of
    [if (this.xrHitTestSource)]), run inside the [try]. *)
Definition hitTest (frame : XRFrame) (e : t) (result : TrackingResult)
  : t * outcome TrackingResult :=
  match getHitTestResults frame with
  | Throws => (e, Throws)
  | Returns hits =>
      let e := set_hitTestResults hits e in
      match hits with
      | hit :: _ =>
          match getPose hit with
          | Throws => (e, Throws)
          | Returns None => (e, Returns result)
          | Returns (Some hitPose) =>
              (* Gradually build confidence *)
              let c := JSMath.min 1.0 (planeConfidence e + 0.15) in
              let e := set_planeConfidence c e in
              let p := poseOfHit hitPose c in
              let e := set_currentPose (Some p) e in
              (e, Returns (mkTrackingResult
                             (c >? 0.5) true (length hits) (length hits)
                             (Some p) (Some hitPose)
                             (viewerTransform result) (gpsData result)))
          end
      | [] =>
          (* No hit test results, decrease confidence *)
          (set_planeConfidence
             (JSMath.max 0 (planeConfidence e - 0.1)) e,
           Returns result)
      end
  end.

(** Stores the first view's transform in the result. *)
Definition storeViewerTransform (vp : XRViewerPose) (result : TrackingResult)
  : TrackingResult :=
  match views vp with
  | view :: _ =>
      mkTrackingResult (isTracking result) (hasFeatures result)
        (featureCount result) (planeCount result) (pose result)
        (hitTestResult result) (Some view) (gpsData result)
  | [] => result
  end.

(** The statements after the [try]/[catch]:
    [this.isTracking = result.isTracking; return result]. *)
Definition finish (e : t) (result : TrackingResult) : t * TrackingResult :=
  (set_isTracking (isTracking result) e, result).

(** [processFrame(frame)].  The two early [return result] statements leave
    [this.isTracking] as it was; a throw inside the [try] keeps what had
    been written to [result] before it (nothing, at every throwing call). *)
Definition processFrame (frame : option XRFrame) (e : t)
  : t * TrackingResult :=
  let result := emptyResult in
  if negb (isSessionActive e) then (e, result) else
  match frame with
  | None => (e, result)
  | Some frame =>
      match getViewerPose frame with
      | Throws => finish e result
      | Returns vp =>
          let e := set_viewerPose vp e in
          match vp with
          | None => (e, result)
          | Some vpose =>
              let '(e, r) :=
                if xrHitTestSource e then hitTest frame e result
                else (e, Returns result) in
              match r with
              | Throws => finish e result
              | Returns result =>
                  finish e (storeViewerTransform vpose result)
              end
          end
      end
  end.

(** The engine once [checkSupport()] and [startSession(canvas)] have
    succeeded: the session is active and a hit-test source is attached. *)
Definition started : t := mk true true true false None [] None 0.

Definition onSessionEnd (e : t) : t :=
  mk (isSupported e) false false false (currentPose e) (hitTestResults e)
     (viewerPose e) 0.

Definition reset (e : t) : t :=
  mk (isSupported e) (isSessionActive e) (xrHitTestSource e)
     false None [] (viewerPose e) 0.

(** The engine after a sequence of frames. *)
Definition run (frames : list (option XRFrame)) (e : t) : t :=
  fold_left (fun e f => fst (processFrame f e)) frames e.

(** The results reported along a sequence of frames. *)
Fixpoint results (frames : list (option XRFrame)) (e : t)
  : list TrackingResult :=
  match frames with
  | [] => []
  | f :: fs =>
      snd (processFrame f e) :: results fs (fst (processFrame f e))
  end.

(** A frame with a viewer pose on which the hit test succeeds: there is a
    top hit and it has a pose. *)
Definition hitFrame (frame : XRFrame) : Prop :=
  exists vp hit hits hitPose,
    getViewerPose frame = Returns (Some vp)
    /\ getHitTestResults frame = Returns (hit :: hits)
    /\ getPose hit = Returns (Some hitPose).

(** A frame with a viewer pose on which the hit test finds nothing. *)
Definition missFrame (frame : XRFrame) : Prop :=
  exists vp,
    getViewerPose frame = Returns (Some vp)
    /\ getHitTestResults frame = Returns [].

(** The session is running with a hit-test source attached. *)
Definition live (e : t) : Prop :=
  isSessionActive e = true /\ xrHitTestSource e = true.

(** *** Concrete frames for the examples *)

Definition sampleTransform : XRRigidTransform :=
  mkXRRigidTransform (mkVector3 0 0 (-1)) 0 0 0 1.

(** A frame whose hit test finds a surface one metre ahead. *)
Definition sampleHit : XRFrame :=
  mkXRFrame (Returns (Some (mkXRViewerPose [sampleTransform])))
            (Returns [mkXRHitTestResult (Returns (Some sampleTransform))]).

(** A frame whose hit test finds nothing. *)
Definition sampleMiss : XRFrame :=
  mkXRFrame (Returns (Some (mkXRViewerPose [sampleTransform])))
            (Returns []).

End WebXREngine.

(** ** src/ar/AREngine.js (visual plane tracker)

    The copy of the class that keeps [planeConfidence].  The copy without
    the confidence counter is [AREnginePlain] below. *)

Module AREngine.

(** A [cv.Mat] holding a homography: emptiness and entry access. *)
Record Mat := mkMat { empty : bool; doubleAt : nat -> nat -> R }.

Record DMatch := mkDMatch { distance : R; queryIdx : nat; trainIdx : nat }.

Record TrackedPointPair := mkPair { prev : Vector2; curr : Vector2 }.

Record GroundPlane := mkGroundPlane {
  homography   : Mat;
  inliers      : nat;
  center       : Vector2;
  gpConfidence : R
}.

(** The settings the tracker reads. *)
Record Settings := mkSettings {
  maxFeatures : nat; ransacThreshold : R; minInliers : nat
}.

Record CameraMatrix := mkCameraMatrix { fx : R; fy : R; cx : R; cy : R }.

(** One call of [processFrame(video)] as the platform answers it: the
    video size, and the outcome of each OpenCV.js call the tick may make. *)
Record Video := mkVideo {
  videoWidth       : nat;
  videoHeight      : nat;
  readFrame        : outcome unit;   (* canvas capture and cv.cvtColor *)
  detectAndCompute : outcome (list Vector2 * nat);
                                     (* keypoints, descriptor rows *)
  matcherMatch     : outcome (list DMatch);
  findHomography   : outcome (Mat * list nat);  (* H and mask.data *)
  doubleAtThrows   : bool;           (* an entry access throws *)
  copyToThrows     : bool            (* grayFrame.copyTo throws *)
}.

Record t := mk {
  frame               : option (nat * nat);   (* rows, cols *)
  prevGrayFrameRows   : nat;
  keypoints           : list Vector2;
  descriptorsRows     : nat;
  prevKeypoints       : list Vector2;
  prevDescriptorsRows : nat;
  isTrackingField     : bool;                 (* this.isTracking *)
  trackedPoints       : list TrackedPointPair;
  currentPose         : option Pose;
  detectedPlanes      : list GroundPlane;
  groundPlane         : option GroundPlane;
  planeConfidence     : R;
  imuData             : Orientation;
  cameraMatrix        : CameraMatrix;
  settings            : Settings;
  showDebug           : bool
}.

Definition initCameraMatrix (width height : nat) : CameraMatrix :=
  mkCameraMatrix (INR width) (INR width) (INR width / 2) (INR height / 2).

(** [constructor()] followed by [init()]. *)
Definition new : t :=
  mk None 0 [] 0 [] 0 false [] None [] None 0
     (mkOrientation 0 0 0) (initCameraMatrix 1280 720)
     (mkSettings 500 3.0 10) false.

Definition set_buffers (fr : option (nat * nat)) (pg : nat)
  (kp : list Vector2) (dr : nat) (pk : list Vector2) (pd : nat) (e : t) : t :=
  mk fr pg kp dr pk pd (isTrackingField e) (trackedPoints e) (currentPose e)
     (detectedPlanes e) (groundPlane e) (planeConfidence e) (imuData e)
     (cameraMatrix e) (settings e) (showDebug e).

Definition set_cameraMatrix (c : CameraMatrix) (e : t) : t :=
  mk (frame e) (prevGrayFrameRows e) (keypoints e) (descriptorsRows e)
     (prevKeypoints e) (prevDescriptorsRows e) (isTrackingField e)
     (trackedPoints e) (currentPose e) (detectedPlanes e) (groundPlane e)
     (planeConfidence e) (imuData e) c (settings e) (showDebug e).

Definition set_isTracking (b : bool) (e : t) : t :=
  mk (frame e) (prevGrayFrameRows e) (keypoints e) (descriptorsRows e)
     (prevKeypoints e) (prevDescriptorsRows e) b
     (trackedPoints e) (currentPose e) (detectedPlanes e) (groundPlane e)
     (planeConfidence e) (imuData e) (cameraMatrix e) (settings e)
     (showDebug e).

Definition set_trackedPoints (ps : list TrackedPointPair) (e : t) : t :=
  mk (frame e) (prevGrayFrameRows e) (keypoints e) (descriptorsRows e)
     (prevKeypoints e) (prevDescriptorsRows e) (isTrackingField e)
     ps (currentPose e) (detectedPlanes e) (groundPlane e)
     (planeConfidence e) (imuData e) (cameraMatrix e) (settings e)
     (showDebug e).

Definition set_currentPose (p : option Pose) (e : t) : t :=
  mk (frame e) (prevGrayFrameRows e) (keypoints e) (descriptorsRows e)
     (prevKeypoints e) (prevDescriptorsRows e) (isTrackingField e)
     (trackedPoints e) p (detectedPlanes e) (groundPlane e)
     (planeConfidence e) (imuData e) (cameraMatrix e) (settings e)
     (showDebug e).

Definition set_planeConfidence (c : R) (e : t) : t :=
  mk (frame e) (prevGrayFrameRows e) (keypoints e) (descriptorsRows e)
     (prevKeypoints e) (prevDescriptorsRows e) (isTrackingField e)
     (trackedPoints e) (currentPose e) (detectedPlanes e) (groundPlane e)
     c (imuData e) (cameraMatrix e) (settings e) (showDebug e).

Definition set_groundPlane (g : GroundPlane) (e : t) : t :=
  mk (frame e) (prevGrayFrameRows e) (keypoints e) (descriptorsRows e)
     (prevKeypoints e) (prevDescriptorsRows e) (isTrackingField e)
     (trackedPoints e) (currentPose e) [g] (Some g)
     (planeConfidence e) (imuData e) (cameraMatrix e) (settings e)
     (showDebug e).

Definition set_imuData (o : Orientation) (e : t) : t :=
  mk (frame e) (prevGrayFrameRows e) (keypoints e) (descriptorsRows e)
     (prevKeypoints e) (prevDescriptorsRows e) (isTrackingField e)
     (trackedPoints e) (currentPose e) (detectedPlanes e) (groundPlane e)
     (planeConfidence e) o (cameraMatrix e) (settings e) (showDebug e).

(** The [deviceorientation] listener installed by [setupIMU]. *)
Definition onDeviceOrientation (o : Orientation) (e : t) : t :=
  set_imuData o e.

(** *** trackFeatures *)

(** [minDist] after the first loop; [None] is the initial [Infinity]. *)
Fixpoint minDist (ms : list DMatch) (acc : option R) : option R :=
  match ms with
  | [] => acc
  | m :: ms' =>
      minDist ms'
        (match acc with
         | None => Some (distance m)
         | Some d => if distance m <? d then Some (distance m) else Some d
         end)
  end.

(** [match.distance < Math.max(3 * minDist, 30)] *)
Definition belowThreshold (d : R) (minD : option R) : bool :=
  match minD with
  | None => true
  | Some m => d <? JSMath.max (3 * m) 30
  end.

(** The second loop: pushes one pair per good match.  Reading a keypoint
    at an index the vector does not have throws. *)
Fixpoint collect (prevK currK : list Vector2) (minD : option R)
  (ms : list DMatch) (acc : list TrackedPointPair)
  : list TrackedPointPair * bool :=
  match ms with
  | [] => (acc, false)
  | m :: ms' =>
      if belowThreshold (distance m) minD then
        match nth_error prevK (queryIdx m), nth_error currK (trainIdx m) with
        | Some p, Some c => collect prevK currK minD ms' (acc ++ [mkPair p c])
        | _, _ => (acc, true)
        end
      else collect prevK currK minD ms' acc
  end.

Definition trackFeatures (video : Video) (e : t) : t * outcome bool :=
  if (length (prevKeypoints e) =? 0)%nat || (length (keypoints e) =? 0)%nat
  then (e, Returns false)
  else
    match (if (0 <? prevDescriptorsRows e)%nat && (0 <? descriptorsRows e)%nat
           then matcherMatch video else Returns []) with
    | Throws => (e, Returns false)
    | Returns matches =>
        if (length matches <? minInliers (settings e))%nat
        then (e, Returns false)
        else
          let '(pts, threw) :=
            collect (prevKeypoints e) (keypoints e) (minDist matches None)
                    matches [] in
          let e := set_trackedPoints pts e in
          if threw then (e, Throws)
          else (e, Returns (minInliers (settings e) <=? length pts)%nat)
    end.

(** *** detectPlane *)

(** The inlier count: the entries of [mask.data] that are [> 0]. *)
Definition countInliers (mask : list nat) : nat :=
  length (List.filter (fun b => (0 <? b)%nat) mask).

Definition calculatePlaneCenter (e : t) : Vector2 :=
  match trackedPoints e with
  | [] => mkVector2 0 0
  | pts =>
      let sumX := fold_left (fun s pt => s + v2x (curr pt)) pts 0 in
      let sumY := fold_left (fun s pt => s + v2y (curr pt)) pts 0 in
      mkVector2 (sumX / INR (length pts)) (sumY / INR (length pts))
  end.

(** [this.planeConfidence = Math.max(0, this.planeConfidence - 0.1)] *)
Definition decay (e : t) : t :=
  set_planeConfidence (JSMath.max 0 (planeConfidence e - 0.1)) e.

(** [this.planeConfidence = Math.min(1.0, this.planeConfidence + 0.15)] *)
Definition gain (e : t) : t :=
  set_planeConfidence (JSMath.min 1.0 (planeConfidence e + 0.15)) e.

(** [detectPlane()]: a throw of [cv.findHomography] is caught inside and
    falls through to the decay at the end. *)
Definition detectPlane (video : Video) (e : t) : t * bool :=
  if (length (trackedPoints e) <? 8)%nat then
    (* Not enough points, decrease confidence *)
    (decay e, false)
  else
    match findHomography video with
    | Returns (H, mask) =>
        let inlierCount := countInliers mask in
        if (minInliers (settings e) <=? inlierCount)%nat && negb (empty H)
        then
          (* Valid plane detected - gradually increase confidence *)
          let e := gain e in
          let g := mkGroundPlane H inlierCount (calculatePlaneCenter e)
                                 (planeConfidence e) in
          let e := set_groundPlane g e in
          (* Only return true if confidence is high enough *)
          (e, planeConfidence e >? 0.5)
        else
          (* Detection failed, decrease confidence *)
          (decay e, false)
    | Throws => (decay e, false)
    end.

(** *** estimatePose *)

Definition estimatePose (video : Video) (e : t) : t * bool :=
  match groundPlane e with
  | None => (e, false)
  | Some g =>
      let H := homography g in
      if empty H then (e, false)
      else if doubleAtThrows video then (e, false)
      else
        let tx := doubleAt H 0 2 / fx (cameraMatrix e) in
        let ty := doubleAt H 1 2 / fy (cameraMatrix e) in
        let tz := 3.0 in
        let rotX := beta (imuData e) * (PI / 180) in
        let rotY := gamma (imuData e) * (PI / 180) in
        let rotZ := alpha (imuData e) * (PI / 180) in
        (set_currentPose
           (Some (mkPose (mkVector3 tx ty tz) (mkVector3 rotX rotY rotZ)
                         None (Some (center g)) (Some (planeConfidence e))
                         None None None)) e,
         true)
  end.

(** *** processFrame *)

Definition set_features (n : nat) (r : TrackingResult) : TrackingResult :=
  mkTrackingResult (isTracking r) (20 <? n)%nat n (planeCount r) (pose r)
                   (hitTestResult r) (viewerTransform r) (gpsData r).

Definition set_planeCount (n : nat) (r : TrackingResult) : TrackingResult :=
  mkTrackingResult (isTracking r) (hasFeatures r) (featureCount r) n (pose r)
                   (hitTestResult r) (viewerTransform r) (gpsData r).

Definition set_tracking (b : bool) (p : option Pose) (r : TrackingResult)
  : TrackingResult :=
  mkTrackingResult b (hasFeatures r) (featureCount r) (planeCount r) p
                   (hitTestResult r) (viewerTransform r) (gpsData r).

(** The body of [if (this.prevGrayFrame.rows > 0 && ...)].  The boolean
    tells whether an exception left the block. *)
Definition trackingBlock (video : Video) (e : t) (result : TrackingResult)
  : t * TrackingResult * bool :=
  match trackFeatures video e with
  | (e, Throws) => (e, result, true)
  | (e, Returns false) => (e, result, false)
  | (e, Returns true) =>
      let '(e, planeDetected) := detectPlane video e in
      let result := set_planeCount (length (detectedPlanes e)) result in
      if planeDetected then
        let '(e, poseEstimated) := estimatePose video e in
        (e, set_tracking poseEstimated (currentPose e) result, false)
      else (e, result, false)
  end.

(** The statements after the [try]/[catch]:
    [this.isTracking = result.isTracking; return result]. *)
Definition finish (e : t) (result : TrackingResult) : t * TrackingResult :=
  (set_isTracking (isTracking result) e, result).

Definition sameDimensions (e : t) (video : Video) : bool :=
  match frame e with
  | None => false
  | Some (rows, cols) =>
      (rows =? videoHeight video)%nat && (cols =? videoWidth video)%nat
  end.

(** [processFrame(video)].  An exception anywhere inside the [try] is
    logged and the result built so far is returned.  The closing
    [drawDebug] call only paints the debug canvas and is left out. *)
Definition processFrame (video : Video) (e : t) : t * TrackingResult :=
  let result := emptyResult in
  if (videoWidth video =? 0)%nat || (videoHeight video =? 0)%nat
  then (e, result)
  else
    (* Initialize frame matrix on first run or if dimensions changed *)
    let e :=
      if sameDimensions e video then e
      else
        set_cameraMatrix
          (initCameraMatrix (videoWidth video) (videoHeight video))
          (set_buffers (Some (videoHeight video, videoWidth video)) 0
             (keypoints e) (descriptorsRows e)
             (prevKeypoints e) (prevDescriptorsRows e) e) in
    match readFrame video with
    | Throws => finish e result
    | Returns _ =>
        match detectAndCompute video with
        | Throws =>
            finish (set_buffers (frame e) (prevGrayFrameRows e) [] 0
                      (prevKeypoints e) (prevDescriptorsRows e) e) result
        | Returns (kps, rows) =>
            let e := set_buffers (frame e) (prevGrayFrameRows e) kps rows
                       (prevKeypoints e) (prevDescriptorsRows e) e in
            let result := set_features (length kps) result in
            let '(e, result, threw) :=
              if (0 <? prevGrayFrameRows e)%nat
                 && (0 <? length (prevKeypoints e))%nat
              then trackingBlock video e result
              else (e, result, false) in
            if threw then finish e result
            else if copyToThrows video then finish e result
            else
              (* Store current frame, swap keypoints and descriptors *)
              let e := set_buffers (frame e) (videoHeight video)
                         [] (prevDescriptorsRows e)
                         (keypoints e) (descriptorsRows e) e in
              finish e result
        end
    end.

Definition reset (e : t) : t :=
  mk (frame e) (prevGrayFrameRows e) (keypoints e) (descriptorsRows e)
     (prevKeypoints e) (prevDescriptorsRows e) false [] None [] None
     (planeConfidence e) (imuData e) (cameraMatrix e) (settings e)
     (showDebug e).

(** The engine after a sequence of frames. *)
Definition run (videos : list Video) (e : t) : t :=
  fold_left (fun e v => fst (processFrame v e)) videos e.

(** The results reported along a sequence of frames. *)
Fixpoint results (videos : list Video) (e : t) : list TrackingResult :=
  match videos with
  | [] => []
  | v :: vs =>
      snd (processFrame v e) :: results vs (fst (processFrame v e))
  end.

(** A successful detection: [detectPlane] has at least 8 tracked points
    and the homography fit returns a non-empty matrix with at least
    [minInliers] inliers.  Every other call is a failed detection. *)
Definition planeFound (video : Video) (e : t) : bool :=
  (8 <=? length (trackedPoints e))%nat
  && match findHomography video with
     | Returns (H, mask) =>
         (minInliers (settings e) <=? countInliers mask)%nat
         && negb (empty H)
     | Throws => false
     end.

(** A tick on which [processFrame] calls [detectPlane], on the engine
    [e1]: the frame has the size of the previous one, reading and feature
    detection succeed, there is a previous frame with keypoints, and
    [trackFeatures] returns [true] leaving the engine [e1]. *)
Definition reachesDetectPlane (video : Video) (e e1 : t) : Prop :=
  videoWidth video <> 0%nat /\ videoHeight video <> 0%nat
  /\ sameDimensions e video = true
  /\ readFrame video = Returns tt
  /\ (0 <? prevGrayFrameRows e)%nat = true
  /\ (0 <? length (prevKeypoints e))%nat = true
  /\ exists kps rows,
       detectAndCompute video = Returns (kps, rows)
       /\ trackFeatures video
            (set_buffers (frame e) (prevGrayFrameRows e) kps rows
               (prevKeypoints e) (prevDescriptorsRows e) e)
          = (e1, Returns true).

(** A tick with a successful detection. *)
Definition detectedFrame (video : Video) (e : t) : Prop :=
  exists e1, reachesDetectPlane video e e1 /\ planeFound video e1 = true.

(** A tick with a failed detection. *)
Definition failedFrame (video : Video) (e : t) : Prop :=
  exists e1, reachesDetectPlane video e e1 /\ planeFound video e1 = false.

(** Consecutive ticks that all satisfy [P], each on the engine the
    previous ones left. *)
Fixpoint consecutive (P : Video -> t -> Prop) (videos : list Video) (e : t)
  : Prop :=
  match videos with
  | [] => True
  | v :: vs => P v e /\ consecutive P vs (fst (processFrame v e))
  end.

(** *** A concrete scene for the examples

    Ten keypoints that are matched one to one between two frames of a
    640 x 480 video, all at descriptor distance 10. *)
Definition sampleKeypoints : list Vector2 :=
  map (fun i => mkVector2 (INR i) (INR i)) (seq 0 10).

Definition sampleMatches : list DMatch :=
  map (fun i => mkDMatch 10 i i) (seq 0 10).

Definition sampleHomography : Mat :=
  mkMat false (fun i j => if (i =? j)%nat then 1 else 0).

(** A frame on which the homography fit accepts all ten matches. *)
Definition sampleVideo : Video :=
  mkVideo 640 480 (Returns tt) (Returns (sampleKeypoints, 10%nat))
          (Returns sampleMatches)
          (Returns (sampleHomography, repeat 1%nat 10))
          false false.

(** The same frame with a rejected fit (empty homography, no inliers). *)
Definition sampleVideoRejected : Video :=
  mkVideo 640 480 (Returns tt) (Returns (sampleKeypoints, 10%nat))
          (Returns sampleMatches)
          (Returns (mkMat true (fun _ _ => 0), repeat 0%nat 10))
          false false.

(** The engine after a first frame of that video, with plane confidence
    [c]. *)
Definition sampleEngine (c : R) : t :=
  mk (Some (480, 640)%nat) 480 [] 0 sampleKeypoints 10 false [] None [] None
     c (mkOrientation 0 0 0) (initCameraMatrix 640 480)
     (mkSettings 500 3.0 10) false.

(** The pairs [trackFeatures] collects on the sample frames. *)
Definition samplePairs : list TrackedPointPair :=
  map (fun m => let p := nth (queryIdx m) sampleKeypoints (mkVector2 0 0) in
                mkPair p p) sampleMatches.

(** The engine on which the sample frames call [detectPlane]. *)
Definition sampleTracked (c : R) : t :=
  set_trackedPoints samplePairs
    (set_buffers (Some (480, 640)%nat) 480 sampleKeypoints 10
       sampleKeypoints 10 (sampleEngine c)).


(** A frame that looks like the sample ones to everything before
    [detectPlane]. *)
Definition sampleLike (video : Video) : Prop :=
  videoWidth video = 640%nat /\ videoHeight video = 480%nat
  /\ readFrame video = Returns tt
  /\ detectAndCompute video = Returns (sampleKeypoints, 10%nat)
  /\ matcherMatch video = Returns sampleMatches
  /\ copyToThrows video = false.

(** An engine that has seen a sample-like frame just before. *)
Definition steady (e : t) : Prop :=
  frame e = Some (480, 640)%nat
  /\ prevGrayFrameRows e = 480%nat
  /\ prevKeypoints e = sampleKeypoints
  /\ prevDescriptorsRows e = 10%nat
  /\ settings e = mkSettings 500 3.0 10.

(** [e'] has the frame buffers and settings of [e]. *)
Definition sameBuffers (e e' : t) : Prop :=
  frame e' = frame e
  /\ prevGrayFrameRows e' = prevGrayFrameRows e
  /\ keypoints e' = keypoints e
  /\ descriptorsRows e' = descriptorsRows e
  /\ prevKeypoints e' = prevKeypoints e
  /\ prevDescriptorsRows e' = prevDescriptorsRows e
  /\ settings e' = settings e.

(** [e'] has the frame buffers, settings, plane confidence, IMU reading
    and camera matrix of [e]: the two differ at most in what [reset]
    clears. *)
Definition sameTracker (e e' : t) : Prop :=
  sameBuffers e e'
  /\ planeConfidence e' = planeConfidence e
  /\ imuData e' = imuData e
  /\ cameraMatrix e' = cameraMatrix e.

End AREngine.

(** ** src/ar/AREngine.js as [main.js] imports it

    The copy of the class under [src/ar]: the same frame pipeline as
    [AREngine] above (feature detection, matching, homography fit, pose)
    without the confidence counter.  [detectPlane] returns [true] on
    every accepted fit, [estimatePose] assumes a distance of 1.0 and the
    pose carries no [confidence].  The OpenCV data and the platform
    answers of a tick ([AREngine.Video]) are shared with [AREngine]. *)

Module AREnginePlain.

Record GroundPlane := mkGroundPlane {
  homography : AREngine.Mat;
  inliers    : nat;
  center     : Vector2
}.

Record t := mk {
  frame               : option (nat * nat);   (* rows, cols *)
  prevGrayFrameRows   : nat;
  keypoints           : list Vector2;
  descriptorsRows     : nat;
  prevKeypoints       : list Vector2;
  prevDescriptorsRows : nat;
  isTrackingField     : bool;                 (* this.isTracking *)
  trackedPoints       : list AREngine.TrackedPointPair;
  currentPose         : option Pose;
  detectedPlanes      : list GroundPlane;
  groundPlane         : option GroundPlane;
  imuData             : Orientation;
  cameraMatrix        : AREngine.CameraMatrix;
  settings            : AREngine.Settings;
  showDebug           : bool
}.

(** [constructor()] followed by [init()]. *)
Definition new : t :=
  mk None 0 [] 0 [] 0 false [] None [] None
     (mkOrientation 0 0 0) (AREngine.initCameraMatrix 1280 720)
     (AREngine.mkSettings 500 3.0 10) false.

Definition set_buffers (fr : option (nat * nat)) (pg : nat)
  (kp : list Vector2) (dr : nat) (pk : list Vector2) (pd : nat) (e : t) : t :=
  mk fr pg kp dr pk pd (isTrackingField e) (trackedPoints e) (currentPose e)
     (detectedPlanes e) (groundPlane e) (imuData e)
     (cameraMatrix e) (settings e) (showDebug e).

Definition set_cameraMatrix (c : AREngine.CameraMatrix) (e : t) : t :=
  mk (frame e) (prevGrayFrameRows e) (keypoints e) (descriptorsRows e)
     (prevKeypoints e) (prevDescriptorsRows e) (isTrackingField e)
     (trackedPoints e) (currentPose e) (detectedPlanes e) (groundPlane e)
     (imuData e) c (settings e) (showDebug e).

Definition set_isTracking (b : bool) (e : t) : t :=
  mk (frame e) (prevGrayFrameRows e) (keypoints e) (descriptorsRows e)
     (prevKeypoints e) (prevDescriptorsRows e) b
     (trackedPoints e) (currentPose e) (detectedPlanes e) (groundPlane e)
     (imuData e) (cameraMatrix e) (settings e) (showDebug e).

Definition set_trackedPoints (ps : list AREngine.TrackedPointPair) (e : t)
  : t :=
  mk (frame e) (prevGrayFrameRows e) (keypoints e) (descriptorsRows e)
     (prevKeypoints e) (prevDescriptorsRows e) (isTrackingField e)
     ps (currentPose e) (detectedPlanes e) (groundPlane e)
     (imuData e) (cameraMatrix e) (settings e) (showDebug e).

Definition set_currentPose (p : option Pose) (e : t) : t :=
  mk (frame e) (prevGrayFrameRows e) (keypoints e) (descriptorsRows e)
     (prevKeypoints e) (prevDescriptorsRows e) (isTrackingField e)
     (trackedPoints e) p (detectedPlanes e) (groundPlane e)
     (imuData e) (cameraMatrix e) (settings e) (showDebug e).

Definition set_groundPlane (g : GroundPlane) (e : t) : t :=
  mk (frame e) (prevGrayFrameRows e) (keypoints e) (descriptorsRows e)
     (prevKeypoints e) (prevDescriptorsRows e) (isTrackingField e)
     (trackedPoints e) (currentPose e) [g] (Some g)
     (imuData e) (cameraMatrix e) (settings e) (showDebug e).

(** [trackFeatures()], as in [AREngine]. *)
Definition trackFeatures (video : AREngine.Video) (e : t)
  : t * outcome bool :=
  if (length (prevKeypoints e) =? 0)%nat || (length (keypoints e) =? 0)%nat
  then (e, Returns false)
  else
    match (if (0 <? prevDescriptorsRows e)%nat && (0 <? descriptorsRows e)%nat
           then AREngine.matcherMatch video else Returns []) with
    | Throws => (e, Returns false)
    | Returns matches =>
        if (length matches <? AREngine.minInliers (settings e))%nat
        then (e, Returns false)
        else
          let '(pts, threw) :=
            AREngine.collect (prevKeypoints e) (keypoints e)
              (AREngine.minDist matches None) matches [] in
          let e := set_trackedPoints pts e in
          if threw then (e, Throws)
          else (e, Returns (AREngine.minInliers (settings e)
                            <=? length pts)%nat)
    end.

Definition calculatePlaneCenter (e : t) : Vector2 :=
  match trackedPoints e with
  | [] => mkVector2 0 0
  | pts =>
      let sumX :=
        fold_left (fun s pt => s + v2x (AREngine.curr pt)) pts 0 in
      let sumY :=
        fold_left (fun s pt => s + v2y (AREngine.curr pt)) pts 0 in
      mkVector2 (sumX / INR (length pts)) (sumY / INR (length pts))
  end.

(** [detectPlane()]: [true] on every valid plane; a throw of
    [cv.findHomography] is caught inside. *)
Definition detectPlane (video : AREngine.Video) (e : t) : t * bool :=
  if (length (trackedPoints e) <? 8)%nat then (e, false)
  else
    match AREngine.findHomography video with
    | Returns (H, mask) =>
        let inlierCount := AREngine.countInliers mask in
        if (AREngine.minInliers (settings e) <=? inlierCount)%nat
           && negb (AREngine.empty H)
        then
          (* Valid plane detected *)
          (set_groundPlane
             (mkGroundPlane H inlierCount (calculatePlaneCenter e)) e,
           true)
        else (e, false)
    | Throws => (e, false)
    end.

Definition estimatePose (video : AREngine.Video) (e : t) : t * bool :=
  match groundPlane e with
  | None => (e, false)
  | Some g =>
      let H := homography g in
      if AREngine.empty H then (e, false)
      else if AREngine.doubleAtThrows video then (e, false)
      else
        let tx := AREngine.doubleAt H 0 2 / AREngine.fx (cameraMatrix e) in
        let ty := AREngine.doubleAt H 1 2 / AREngine.fy (cameraMatrix e) in
        let tz := 1.0 in   (* Assume fixed distance *)
        let rotX := beta (imuData e) * (PI / 180) in
        let rotY := gamma (imuData e) * (PI / 180) in
        let rotZ := alpha (imuData e) * (PI / 180) in
        (set_currentPose
           (Some (mkPose (mkVector3 tx ty tz) (mkVector3 rotX rotY rotZ)
                         None (Some (center g)) None None None None)) e,
         true)
  end.

(** The body of [if (this.prevGrayFrame.rows > 0 && ...)].  The boolean
    tells whether an exception left the block. *)
Definition trackingBlock (video : AREngine.Video) (e : t)
  (result : TrackingResult) : t * TrackingResult * bool :=
  match trackFeatures video e with
  | (e, Throws) => (e, result, true)
  | (e, Returns false) => (e, result, false)
  | (e, Returns true) =>
      let '(e, planeDetected) := detectPlane video e in
      let result :=
        AREngine.set_planeCount (length (detectedPlanes e)) result in
      if planeDetected then
        let '(e, poseEstimated) := estimatePose video e in
        (e, AREngine.set_tracking poseEstimated (currentPose e) result,
         false)
      else (e, result, false)
  end.

Definition finish (e : t) (result : TrackingResult) : t * TrackingResult :=
  (set_isTracking (isTracking result) e, result).

Definition sameDimensions (e : t) (video : AREngine.Video) : bool :=
  match frame e with
  | None => false
  | Some (rows, cols) =>
      (rows =? AREngine.videoHeight video)%nat
      && (cols =? AREngine.videoWidth video)%nat
  end.

(** [processFrame(video)], statement for statement as in [AREngine]. *)
Definition processFrame (video : AREngine.Video) (e : t)
  : t * TrackingResult :=
  let result := emptyResult in
  if (AREngine.videoWidth video =? 0)%nat
     || (AREngine.videoHeight video =? 0)%nat
  then (e, result)
  else
    (* Initialize or recreate frame if video dimensions changed *)
    let e :=
      if sameDimensions e video then e
      else
        set_cameraMatrix
          (AREngine.initCameraMatrix (AREngine.videoWidth video)
             (AREngine.videoHeight video))
          (set_buffers
             (Some (AREngine.videoHeight video, AREngine.videoWidth video))
             0 (keypoints e) (descriptorsRows e)
             (prevKeypoints e) (prevDescriptorsRows e) e) in
    match AREngine.readFrame video with
    | Throws => finish e result
    | Returns _ =>
        match AREngine.detectAndCompute video with
        | Throws =>
            finish (set_buffers (frame e) (prevGrayFrameRows e) [] 0
                      (prevKeypoints e) (prevDescriptorsRows e) e) result
        | Returns (kps, rows) =>
            let e := set_buffers (frame e) (prevGrayFrameRows e) kps rows
                       (prevKeypoints e) (prevDescriptorsRows e) e in
            let result := AREngine.set_features (length kps) result in
            let '(e, result, threw) :=
              if (0 <? prevGrayFrameRows e)%nat
                 && (0 <? length (prevKeypoints e))%nat
              then trackingBlock video e result
              else (e, result, false) in
            if threw then finish e result
            else if AREngine.copyToThrows video then finish e result
            else
              (* Store current frame, swap keypoints and descriptors *)
              let e := set_buffers (frame e) (AREngine.videoHeight video)
                         [] (prevDescriptorsRows e)
                         (keypoints e) (descriptorsRows e) e in
              finish e result
        end
    end.

Definition reset (e : t) : t :=
  mk (frame e) (prevGrayFrameRows e) (keypoints e) (descriptorsRows e)
     (prevKeypoints e) (prevDescriptorsRows e) false [] None [] None
     (imuData e) (cameraMatrix e) (settings e) (showDebug e).

(** The results reported along a sequence of frames. *)
Fixpoint results (videos : list AREngine.Video) (e : t)
  : list TrackingResult :=
  match videos with
  | [] => []
  | v :: vs =>
      snd (processFrame v e) :: results vs (fst (processFrame v e))
  end.

End AREnginePlain.


(** ** src/ar/ARLocationEngine.js (geodetic tracker) *)

Module ARLocationEngine.

Record t := mk {
  isSupported          : bool;
  isInitialized        : bool;
  isTrackingField      : bool;                  (* this.isTracking *)
  currentLocation      : option LocationFix;
  targetLocation       : option TargetLocation;
  deviceOrientation    : Orientation;
  currentPose          : option Pose;
  distanceField        : option R;              (* this.distance *)
  bearingField         : option R;              (* this.bearing *)
  gpsAccuracyThreshold : R;
  minDistance          : R;
  maxDistance          : R
}.

(** [constructor()] *)
Definition new : t :=
  mk false false false None None (mkOrientation 0 0 0) None None None
     50 5 1000.

(** Haversine formula for the distance between two GPS coordinates, read
    over the reals.  For latitudes in range the term [a] lies in [0, 1]
    and both square roots are of numbers that are not negative; the
    binary64 reading, in which [a] can exceed 1, is [ARLocationEngine64]
    below. *)
Definition haversine (lat1 lon1 lat2 lon2 : R) : R :=
  let phi1 := (lat1 * PI) / 180 in
  let phi2 := (lat2 * PI) / 180 in
  let dphi := ((lat2 - lat1) * PI) / 180 in
  let dlambda := ((lon2 - lon1) * PI) / 180 in
  sin (dphi / 2) * sin (dphi / 2) +
  cos phi1 * cos phi2 * sin (dlambda / 2) * sin (dlambda / 2).

Definition calculateDistance (lat1 lon1 lat2 lon2 : R) : R :=
  let R := 6371e3 in   (* Earth radius in meters *)
  let a := haversine lat1 lon1 lat2 lon2 in
  let c := 2 * JSMath.atan2 (sqrt a) (sqrt (1 - a)) in
  R * c.

Definition calculateBearing (lat1 lon1 lat2 lon2 : R) : R :=
  let phi1 := (lat1 * PI) / 180 in
  let phi2 := (lat2 * PI) / 180 in
  let dlambda := ((lon2 - lon1) * PI) / 180 in
  let y := sin dlambda * cos phi2 in
  let x := cos phi1 * sin phi2 - sin phi1 * cos phi2 * cos dlambda in
  let theta := JSMath.atan2 y x in
  JSMath.rem ((theta * 180) / PI + 360) 360.   (* Normalize to 0-360 *)

(** [Math.min(1.0, this.gpsAccuracyThreshold / accuracy)].  A zero
    accuracy makes the quotient [+Infinity] for a positive threshold, and
    the minimum is then [1.0]. *)
Definition poseConfidence (threshold accuracy : R) : R :=
  if Req_dec_T accuracy 0 then 1.0
  else JSMath.min 1.0 (threshold / accuracy).

(** [updatePose()], called by [updateTracking] once distance, bearing and
    both locations are set. *)
Definition updatePose (e : t) : t :=
  match currentLocation e, targetLocation e, distanceField e, bearingField e
  with
  | Some cur, Some tgt, Some d, Some b =>
      let o := deviceOrientation e in
      let relativeHeading := JSMath.rem (b - alpha o + 360) 360 in
      let headingRad := (relativeHeading * PI) / 180 in
      let x := d * sin headingRad in
      let z := - d * cos headingRad in   (* forward is -z *)
      let y := targetAltitude tgt
               - match altitude cur with Some h => h | None => 0 end in
      mk (isSupported e) (isInitialized e) (isTrackingField e)
         (currentLocation e) (targetLocation e) o
         (Some (mkPose (mkVector3 x y z)
                       (mkVector3 (beta o * (PI / 180))
                                  (alpha o * (PI / 180))
                                  (gamma o * (PI / 180)))
                       None None
                       (Some (poseConfidence (gpsAccuracyThreshold e)
                                             (accuracy cur)))
                       (Some d) (Some b) (Some (accuracy cur))))
         (distanceField e) (bearingField e)
         (gpsAccuracyThreshold e) (minDistance e) (maxDistance e)
  | _, _, _, _ => e
  end.

Definition set_isTracking (b : bool) (e : t) : t :=
  mk (isSupported e) (isInitialized e) b
     (currentLocation e) (targetLocation e) (deviceOrientation e)
     (currentPose e) (distanceField e) (bearingField e)
     (gpsAccuracyThreshold e) (minDistance e) (maxDistance e).

Definition updateTracking (e : t) : t :=
  match currentLocation e, targetLocation e with
  | Some cur, Some tgt =>
      (* Calculate distance and bearing to target *)
      let d := calculateDistance (latitude cur) (longitude cur)
                 (targetLatitude tgt) (targetLongitude tgt) in
      let b := calculateBearing (latitude cur) (longitude cur)
                 (targetLatitude tgt) (targetLongitude tgt) in
      (* Check if tracking is valid *)
      let accuracyOk := accuracy cur <=? gpsAccuracyThreshold e in
      let distanceOk := (d >=? minDistance e) && (d <=? maxDistance e) in
      let e := mk (isSupported e) (isInitialized e)
                  (accuracyOk && distanceOk)
                  (currentLocation e) (targetLocation e)
                  (deviceOrientation e) (currentPose e) (Some d) (Some b)
                  (gpsAccuracyThreshold e) (minDistance e) (maxDistance e) in
      if isTrackingField e then updatePose e else e
  | _, _ => set_isTracking false e
  end.

(** [updateLocation(position)], the geolocation callback. *)
Definition updateLocation (loc : LocationFix) (e : t) : t :=
  updateTracking
    (mk (isSupported e) (isInitialized e) (isTrackingField e)
        (Some loc) (targetLocation e) (deviceOrientation e)
        (currentPose e) (distanceField e) (bearingField e)
        (gpsAccuracyThreshold e) (minDistance e) (maxDistance e)).

(** [setTargetLocation(latitude, longitude, altitude = 0)] *)
Definition setTargetLocation (lat lon alt : R) (e : t) : t :=
  updateTracking
    (mk (isSupported e) (isInitialized e) (isTrackingField e)
        (currentLocation e) (Some (mkTargetLocation lat lon alt))
        (deviceOrientation e)
        (currentPose e) (distanceField e) (bearingField e)
        (gpsAccuracyThreshold e) (minDistance e) (maxDistance e)).

(** [processFrame()]: no video, the stored tracking state is returned. *)
Definition processFrame (e : t) : TrackingResult :=
  mkTrackingResult
    (isTrackingField e)
    (match currentLocation e with Some _ => true | None => false end)
    (if isTrackingField e then 1%nat else 0%nat)
    0
    (currentPose e)
    None None
    (Some (mkGpsData (currentLocation e) (targetLocation e)
                     (distanceField e) (bearingField e))).

Definition reset (e : t) : t :=
  mk (isSupported e) (isInitialized e) false
     (currentLocation e) None (deviceOrientation e)
     None None None
     (gpsAccuracyThreshold e) (minDistance e) (maxDistance e).

(** The [deviceorientation] listeners installed by [bindOrientation]. *)
Definition onDeviceOrientation (o : Orientation) (e : t) : t :=
  mk (isSupported e) (isInitialized e) (isTrackingField e)
     (currentLocation e) (targetLocation e) o
     (currentPose e) (distanceField e) (bearingField e)
     (gpsAccuracyThreshold e) (minDistance e) (maxDistance e).

(** What can happen to the engine between two frames. *)
Inductive call :=
| UpdateLocation (loc : LocationFix)
| SetTargetLocation (lat lon alt : R)
| DeviceOrientation (o : Orientation)
| Reset.

Definition step (e : t) (c : call) : t :=
  match c with
  | UpdateLocation loc => updateLocation loc e
  | SetTargetLocation lat lon alt => setTargetLocation lat lon alt e
  | DeviceOrientation o => onDeviceOrientation o e
  | Reset => reset e
  end.

Definition run (cs : list call) (e : t) : t := fold_left step cs e.

(** The Geolocation API reports a non-negative accuracy radius. *)
Definition validCall (c : call) : Prop :=
  match c with
  | UpdateLocation loc => 0 <= accuracy loc
  | _ => True
  end.

(** Coordinates in range: latitude in [-90, 90], longitude in
    [-180, 180]. *)
Definition validCoordinates (lat lon : R) : Prop :=
  -90 <= lat <= 90 /\ -180 <= lon <= 180.

(** While the engine reports tracking, its pose carries confidence 1 and
    the thresholds are the constructor's. *)
Definition trackingInvariant (e : t) : Prop :=
  gpsAccuracyThreshold e = 50
  /\ (isTrackingField e = true ->
      exists p, currentPose e = Some p /\ confidence p = Some 1.0).

(** The state [reset] leaves behind, and that every call but
    [setTargetLocation] keeps: no target, no pose, no distance, no
    bearing, not tracking. *)
Definition idle (e : t) : Prop :=
  targetLocation e = None /\ isTrackingField e = false
  /\ currentPose e = None /\ distanceField e = None
  /\ bearingField e = None.

(** Calls that set a target. *)
Definition setsTarget (c : call) : bool :=
  match c with
  | SetTargetLocation _ _ _ => true
  | _ => false
  end.

End ARLocationEngine.

(** *** The haversine distance over binary64

    [calculateDistance] with every [Number] a binary64 value.  [Math.sqrt]
    is the correctly rounded square root, which is [NaN] on a negative
    argument.  [Math.sin], [Math.cos] and [Math.atan2] are the platform's
    library functions and are a parameter. *)

Module ARLocationEngine64.
Import PrimFloat.
Local Open Scope float_scope.
Local Set Warnings "-inexact-float".

Record Libm := mkLibm {
  Math_sin   : float -> float;
  Math_cos   : float -> float;
  Math_atan2 : float -> float -> float
}.

Definition Math_PI : float := 3.141592653589793.

Definition calculateDistance (m : Libm) (lat1 lon1 lat2 lon2 : float)
  : float :=
  let R := 6371e3 in   (* Earth radius in meters *)
  let phi1 := (lat1 * Math_PI) / 180 in
  let phi2 := (lat2 * Math_PI) / 180 in
  let dphi := ((lat2 - lat1) * Math_PI) / 180 in
  let dlambda := ((lon2 - lon1) * Math_PI) / 180 in
  let a := Math_sin m (dphi / 2) * Math_sin m (dphi / 2) +
           Math_cos m phi1 * Math_cos m phi2 *
           Math_sin m (dlambda / 2) * Math_sin m (dlambda / 2) in
  let c := 2 * Math_atan2 m (sqrt a) (sqrt (1 - a)) in
  R * c.

(** The haversine term [a] of that computation. *)
Definition haversine (m : Libm) (lat1 lon1 lat2 lon2 : float) : float :=
  let phi1 := (lat1 * Math_PI) / 180 in
  let phi2 := (lat2 * Math_PI) / 180 in
  let dphi := ((lat2 - lat1) * Math_PI) / 180 in
  let dlambda := ((lon2 - lon1) * Math_PI) / 180 in
  Math_sin m (dphi / 2) * Math_sin m (dphi / 2) +
  Math_cos m phi1 * Math_cos m phi2 *
  Math_sin m (dlambda / 2) * Math_sin m (dlambda / 2).

(** The range checks [onSetGPSTarget] makes before it accepts a target. *)
Definition validCoordinates (lat lon : float) : bool :=
  negb ((lat <? -90) || (90 <? lat)) && negb ((lon <? -180) || (180 <? lon)).

(** The library values at the arguments that the coordinates
    (-12, -180) and (12, 0) lead to: the sine and cosine of 12 degrees
    and the sine of 90 degrees, rounded to binary64.  The table has no
    other entry; [Math.atan2] of a [NaN] is [NaN]. *)
Definition sampleLibm : Libm :=
  mkLibm
    (fun x => if x =? 0.20943951023931953 then 0.20791169081775931
              else if x =? 1.5707963267948966 then 1
              else nan)
    (fun x => if abs x =? 0.20943951023931953 then 0.9781476007338057
              else nan)
    (fun _ _ => nan).

End ARLocationEngine64.

(** ** src/ar/SceneManager.js (placement and anchoring) *)

Module SceneManager.

(** A Three.js ray and plane, as [Raycaster] and [Plane] hold them. *)
Record Ray := mkRay { origin : Vector3; direction : Vector3 }.
Record Plane := mkPlane { normal : Vector3; constant : R }.

(** The part of a Three.js [Object3D] the scene manager writes. *)
Record Object3D := mkObject3D {
  objPosition  : Vector3;
  objRotationY : R;
  visible      : bool
}.

Section ThreeJS.

(** The Three.js camera and the loaded model are opaque objects; ray
    casting is done by Three.js: [raycaster.setFromCamera(ndc, camera)]
    and [ray.intersectPlane(plane, target)], which answers [null] when the
    ray does not meet the plane. *)
Variable Camera : Type.
Variable Model : Type.
Variable setFromCamera : Vector2 -> Camera -> Ray.
Variable intersectPlane : Ray -> Plane -> option Vector3.

Record t := mk {
  model           : option Model;
  camera          : Camera;
  isModelPlaced   : bool;
  modelScale      : R;
  modelRotation   : R;             (* degrees *)
  placedPosition  : Vector3;
  screenWidth     : R;
  screenHeight    : R;
  lastPose        : option Pose;
  modelGroup      : Object3D;
  shadowPlane     : Object3D;
  groundIndicator : Object3D;
  gridHelper      : Object3D
}.

Definition set_visible (b : bool) (o : Object3D) : Object3D :=
  mkObject3D (objPosition o) (objRotationY o) b.

(** [placeModel(pose)]: the new scene and the returned boolean.  The
    [pose] argument is only logged. *)
Definition placeModel (pose : option Pose) (s : t) : t * bool :=
  match model s with
  | None => (s, false)
  | Some _ =>
      (* Place model at screen center (where crosshair is) *)
      let ndcX := 0 in
      let ndcY := 0 in
      let ray := setFromCamera (mkVector2 ndcX ndcY) (camera s) in
      (* Intersect with virtual ground plane at y=0 *)
      let groundPlane := mkPlane (mkVector3 0 1 0) 0 in
      let position :=
        match intersectPlane ray groundPlane with
        | Some intersectionPoint =>
            mkVector3 (v3x intersectionPoint) 0 (v3z intersectionPoint)
        | None =>
            (* Fallback: place in front of camera *)
            mkVector3 0 0 (-2)
        end in
      let group :=
        mkObject3D position (modelRotation s * (PI / 180)) true in
      let shadow :=
        mkObject3D (mkVector3 (v3x position)
                              (v3y (objPosition (shadowPlane s)))
                              (v3z position))
                   (objRotationY (shadowPlane s)) true in
      (mk (model s) (camera s) true (modelScale s) (modelRotation s)
          position (screenWidth s) (screenHeight s) (lastPose s)
          group shadow
          (set_visible false (groundIndicator s))
          (set_visible false (gridHelper s)),
       true)
  end.

Definition resetModel (s : t) : t :=
  mk (model s) (camera s) false (modelScale s) (modelRotation s)
     (mkVector3 0 0 0) (screenWidth s) (screenHeight s) (lastPose s)
     (mkObject3D (mkVector3 0 0 0) (objRotationY (modelGroup s)) false)
     (set_visible false (shadowPlane s))
     (set_visible false (groundIndicator s))
     (set_visible false (gridHelper s)).

Definition setModelRotation (degrees : R) (s : t) : t :=
  mk (model s) (camera s) (isModelPlaced s) (modelScale s) degrees
     (placedPosition s) (screenWidth s) (screenHeight s) (lastPose s)
     (mkObject3D (objPosition (modelGroup s)) (degrees * (PI / 180))
                 (visible (modelGroup s)))
     (shadowPlane s) (groundIndicator s) (gridHelper s).

Definition set_lastPose (p : option Pose) (s : t) : t :=
  mk (model s) (camera s) (isModelPlaced s) (modelScale s) (modelRotation s)
     (placedPosition s) (screenWidth s) (screenHeight s) p
     (modelGroup s) (shadowPlane s) (groundIndicator s) (gridHelper s).

(** [updateModelPose(pose)]: moves the ground indicator and the grid to
    where the ray through [pose.planeCenter] meets the ground, as long as
    no model is placed.  Reading [pose.planeCenter.x] of a pose without
    [planeCenter] throws a [TypeError], after [lastPose] was stored. *)
Definition updateModelPose (pose : option Pose) (s : t) : t * outcome unit :=
  match pose with
  | None => (s, Returns tt)
  | Some p =>
      (* Store last pose for placement *)
      let s := set_lastPose (Some p) s in
      match planeCenter p with
      | None => (s, Throws)
      | Some c =>
          let screenX := v2x c in
          let screenY := v2y c in
          (* Convert to NDC *)
          let ndcX := (screenX / screenWidth s) * 2 - 1 in
          let ndcY := - (screenY / screenHeight s) * 2 + 1 in
          (* Raycast to ground *)
          let ray := setFromCamera (mkVector2 ndcX ndcY) (camera s) in
          let groundPlane := mkPlane (mkVector3 0 1 0) 0 in
          match intersectPlane ray groundPlane with
          | Some intersectionPoint =>
              if negb (isModelPlaced s) then
                (mk (model s) (camera s) (isModelPlaced s) (modelScale s)
                    (modelRotation s) (placedPosition s)
                    (screenWidth s) (screenHeight s) (lastPose s)
                    (modelGroup s) (shadowPlane s)
                    (mkObject3D (mkVector3 (v3x intersectionPoint) 0.01
                                           (v3z intersectionPoint))
                                (objRotationY (groundIndicator s)) true)
                    (mkObject3D (mkVector3 (v3x intersectionPoint) 0
                                           (v3z intersectionPoint))
                                (objRotationY (gridHelper s)) true),
                 Returns tt)
              else (s, Returns tt)
          | None => (s, Returns tt)
          end
      end
  end.

(** The scene after a sequence of [updateModelPose] calls, whether or not
    they throw (the callers go on with the next frame). *)
Definition updateModelPoses (poses : list (option Pose)) (s : t) : t :=
  fold_left (fun s p => fst (updateModelPose p s)) poses s.

End ThreeJS.

Arguments model {Camera Model} _.
Arguments camera {Camera Model} _.
Arguments isModelPlaced {Camera Model} _.
Arguments modelRotation {Camera Model} _.
Arguments placedPosition {Camera Model} _.
Arguments modelGroup {Camera Model} _.
Arguments shadowPlane {Camera Model} _.
Arguments groundIndicator {Camera Model} _.
Arguments gridHelper {Camera Model} _.
Arguments placeModel {Camera Model} _ _ _ _.
Arguments resetModel {Camera Model} _.
Arguments setModelRotation {Camera Model} _ _.

Arguments lastPose {Camera Model} _.
Arguments screenWidth {Camera Model} _.
Arguments screenHeight {Camera Model} _.
Arguments modelScale {Camera Model} _.
Arguments updateModelPose {Camera Model} _ _ _ _.
Arguments updateModelPoses {Camera Model} _ _ _ _.

(** *** A concrete camera for the examples

    A camera given by its eye point and the point it looks at.  The ray
    through the screen center starts at the eye and points at the target
    (left unnormalised here; the intersection point does not depend on the
    length of the direction).  [sampleIntersectPlane] follows Three.js's
    [Ray.intersectPlane]: no intersection when the ray is parallel to the
    plane and does not start on it, or when the plane is behind the ray. *)
Record LookAtCamera := mkLookAtCamera { eye : Vector3; target : Vector3 }.

Definition dot (a b : Vector3) : R :=
  v3x a * v3x b + v3y a * v3y b + v3z a * v3z b.

Definition centerRay (ndc : Vector2) (cam : LookAtCamera) : Ray :=
  mkRay (eye cam)
        (mkVector3 (v3x (target cam) - v3x (eye cam))
                   (v3y (target cam) - v3y (eye cam))
                   (v3z (target cam) - v3z (eye cam))).

Definition sampleIntersectPlane (ray : Ray) (plane : Plane)
  : option Vector3 :=
  let denominator := dot (normal plane) (direction ray) in
  if Req_dec_T denominator 0 then
    if Req_dec_T (dot (normal plane) (origin ray) + constant plane) 0
    then Some (origin ray) else None
  else
    let t := - (dot (origin ray) (normal plane) + constant plane)
             / denominator in
    if t >=? 0 then
      Some (mkVector3 (v3x (origin ray) + t * v3x (direction ray))
                      (v3y (origin ray) + t * v3y (direction ray))
                      (v3z (origin ray) + t * v3z (direction ray)))
    else None.

(** The scene right after a model was loaded, with the camera where
    [init] puts it: at (0, 1.5, 0), looking at [lookAt]. *)
Definition sampleScene (lookAt : Vector3) (degrees : R)
  : t LookAtCamera unit :=
  mk LookAtCamera unit (Some tt)
     (mkLookAtCamera (mkVector3 0 1.5 0) lookAt)
     false 1.0 degrees (mkVector3 0 0 0) 390 844 None
     (mkObject3D (mkVector3 0 0 0) 0 false)
     (mkObject3D (mkVector3 0 0 0) 0 false)
     (mkObject3D (mkVector3 0 0 0) 0 false)
     (mkObject3D (mkVector3 0 0 0) 0 false).

(** The same scene once the WebXR loop has moved the camera to the
    viewer's pose ([camera.position.set], [camera.quaternion.set]): the
    viewer has walked five metres forward, along -z, and holds the device
    upright, looking level. *)
Definition walkedScene (degrees : R) : t LookAtCamera unit :=
  mk LookAtCamera unit (Some tt)
     (mkLookAtCamera (mkVector3 0 1.5 (-5)) (mkVector3 0 1.5 (-6)))
     false 1.0 degrees (mkVector3 0 0 0) 390 844 None
     (mkObject3D (mkVector3 0 0 0) 0 false)
     (mkObject3D (mkVector3 0 0 0) 0 false)
     (mkObject3D (mkVector3 0 0 0) 0 false)
     (mkObject3D (mkVector3 0 0 0) 0 false).

(** A point lies ahead of the camera when the vector from the eye to it
    has a positive component along the viewing direction. *)
Definition ahead (cam : LookAtCamera) (point : Vector3) : Prop :=
  0 < dot (direction (centerRay (mkVector2 0 0) cam))
          (mkVector3 (v3x point - v3x (eye cam))
                     (v3y point - v3y (eye cam))
                     (v3z point - v3z (eye cam))).

End SceneManager.

(** ** src/main.js (the per-frame loops)

    One iteration of each loop, as the trace of what it does to its
    surroundings: the calls on the scene manager with the pose object
    passed to them, the scheduling of the next iteration, and an exception
    that leaves the callback.

    [SceneManager] defines [updateCameraFromPose] but no method
    [updateCameraPose]: the call [this.sceneManager.updateCameraPose(...)]
    of [startARLoop] and [startLocationLoop] evaluates its argument and
    throws a [TypeError].  [updateModelPose] throws on a pose without
    [planeCenter] (see [SceneManager.updateModelPose]). *)

Module App.

Inductive Effect :=
| UpdateCameraPose (p : option Pose)   (* sceneManager.updateCameraPose *)
| UpdateModelPose (p : option Pose)    (* sceneManager.updateModelPose *)
| SetCamera (tr : XRRigidTransform)    (* camera.position/quaternion.set *)
| Render                               (* sceneManager.render *)
| RequestAnimationFrame                (* the next iteration is scheduled *)
| Uncaught.                            (* an exception leaves the callback *)

(** Whether the statement ends in an exception. *)
Definition throws (c : Effect) : bool :=
  match c with
  | UpdateCameraPose _ => true         (* not a function *)
  | UpdateModelPose (Some p) =>
      match planeCenter p with
      | None => true                   (* pose.planeCenter.x of undefined *)
      | Some _ => false
      end
  | _ => false
  end.

(** Runs the statements in order up to and including the first one that
    throws; the boolean tells whether one did. *)
Fixpoint attempt (stmts : list Effect) : list Effect * bool :=
  match stmts with
  | [] => ([], false)
  | c :: cs =>
      if throws c then ([c], true)
      else let '(done, threw) := attempt cs in (c :: done, threw)
  end.

(** The pose arguments of the calls made on the scene manager, in order,
    whether the call returns or throws. *)
Fixpoint posesHanded (calls : list Effect) : list (option Pose) :=
  match calls with
  | [] => []
  | UpdateCameraPose p :: cs => p :: posesHanded cs
  | UpdateModelPose p :: cs => p :: posesHanded cs
  | _ :: cs => posesHanded cs
  end.

(** What the loops read of the application besides the engine:
    [this.isInitialized], whether [this.currentModel] is set, and
    [this.sceneManager.isModelPlaced]. *)
Record t := mk {
  isInitialized : bool;
  currentModel  : bool;
  isModelPlaced : bool
}.

(** The [loop] closure of [startARLoop]; [ready] is
    [video.readyState === video.HAVE_ENOUGH_DATA], and [processFrame] is
    the method of the visual tracker in use.  The scene update runs inside
    [try]/[catch]: an exception ends it and is logged, and the loop goes on
    to render and to schedule itself. *)
Definition startARLoop {Engine : Type}
  (processFrame : AREngine.Video -> Engine -> Engine * TrackingResult)
  (app : t) (ready : bool) (video : AREngine.Video) (arEngine : Engine)
  : Engine * list Effect :=
  if negb (isInitialized app) then (arEngine, [])
  else if ready then
    let '(arEngine, trackingResult) := processFrame video arEngine in
    (arEngine,
     fst (attempt
            (if isTracking trackingResult && currentModel app then
               UpdateCameraPose (pose trackingResult)
               :: (if negb (isModelPlaced app)
                   then [UpdateModelPose (pose trackingResult)] else [])
             else []))
     ++ [Render; RequestAnimationFrame])
  else (arEngine, [Render; RequestAnimationFrame]).

(** The [onXRFrame] callback of [startWebXRLoop].  It schedules itself
    first, through [frame.session], and has no [try]/[catch]. *)
Definition startWebXRLoop (app : t) (frame : option WebXREngine.XRFrame)
  (arEngine : WebXREngine.t) : WebXREngine.t * list Effect :=
  if negb (isInitialized app) || negb (WebXREngine.isSessionActive arEngine)
  then (arEngine, [])
  else
    match frame with
    | None => (arEngine, [Uncaught])     (* frame.session of no frame *)
    | Some _ =>
        let '(arEngine, trackingResult) :=
          WebXREngine.processFrame frame arEngine in
        let '(done, threw) :=
          attempt
            ((match viewerTransform trackingResult with
              | Some transform => [SetCamera transform]
              | None => []
              end)
             ++ (if isTracking trackingResult && currentModel app
                    && negb (isModelPlaced app)
                 then [UpdateModelPose (pose trackingResult)] else [])
             ++ [Render]) in
        (arEngine,
         RequestAnimationFrame :: done ++ (if threw then [Uncaught] else []))
    end.

(** The [loop] closure of [startLocationLoop]; it has no [try]/[catch]. *)
Definition startLocationLoop (app : t) (arEngine : ARLocationEngine.t)
  : list Effect :=
  if negb (isInitialized app) then []
  else
    let trackingResult := ARLocationEngine.processFrame arEngine in
    let '(done, threw) :=
      attempt
        ((match pose trackingResult with
          | Some p => [UpdateCameraPose (Some p)]
          | None => []
          end)
         ++ [Render; RequestAnimationFrame]) in
    done ++ (if threw then [Uncaught] else []).

(** [this.arMode]: ['webxr'], ['location'] or ['opencv']; [null] before
    [init] has chosen. *)
Inductive ARMode := WebXR | Location | OpenCV.

(** The class [updateTrackingStatus] gives the status indicator. *)
Inductive StatusClass := StatusTracking | StatusSearching | StatusLost.

(** [updateTrackingStatus(result)]: the indicator class and
    [placeBtn.disabled]. *)
Definition updateTrackingStatus (arMode : option ARMode)
  (result : TrackingResult) : StatusClass * bool :=
  match arMode with
  | Some Location =>
      (* Handle GPS-based tracking differently *)
      match gpsData result with
      | Some g =>
          match distance g with
          | Some _ => (StatusTracking, false)
          | None => (StatusSearching, true)
          end
      | None => (StatusSearching, true)
      end
  | _ =>
      (* Indoor tracking (WebXR or OpenCV) *)
      if isTracking result then (StatusTracking, false)
      else if hasFeatures result then (StatusSearching, true)
      else (StatusLost, true)
  end.

Section Placement.

Variable Camera : Type.
Variable Model : Type.
Variable setFromCamera : Vector2 -> Camera -> SceneManager.Ray.
Variable intersectPlane
  : SceneManager.Ray -> SceneManager.Plane -> option Vector3.

(** [placeModel()]; [currentPose] is [this.arEngine.currentPose]. *)
Definition placeModel (app : t) (currentPose : option Pose)
  (sceneManager : SceneManager.t Camera Model)
  : SceneManager.t Camera Model * bool :=
  if currentModel app then
    match currentPose with
    | Some p =>
        SceneManager.placeModel setFromCamera intersectPlane (Some p)
          sceneManager
    | None => (sceneManager, false)
    end
  else (sceneManager, false).

(** [resetModel()]; [reset] is the [reset] method of the engine in use. *)
Definition resetModel {Engine : Type} (reset : Engine -> Engine)
  (sceneManager : SceneManager.t Camera Model) (arEngine : Engine)
  : SceneManager.t Camera Model * Engine :=
  (SceneManager.resetModel sceneManager, reset arEngine).

End Placement.

Arguments placeModel {Camera Model} _ _ _ _ _.
Arguments resetModel {Camera Model Engine} _ _ _.

End App.

(** ** src/ar/UIController.js (GPS settings and overlay) *)

Module UIController.
Import String.StringSyntax.
Local Open Scope string_scope.

(** What the handlers write to the [gps-status] element. *)
Inductive GpsStatus :=
| InvalidCoordinates          (* 'Please enter valid coordinates' *)
| LatitudeOutOfRange          (* 'Latitude must be between -90 and 90' *)
| LongitudeOutOfRange         (* 'Longitude must be between -180 and 180' *)
| ModeNotActive               (* 'GPS mode not active. ...' *)
| AcquiringLocation           (* 'Acquiring GPS location... Please wait.' *)
| TargetSet (latitude longitude : R)
| TargetSetToYourLocation (accuracy : R).

(** [onSetGPSTarget()].  The three arguments are what [parseFloat] makes
    of the input fields, [None] standing for [NaN]; [arEngine] is the
    geodetic tracker, which is the engine in use when [arMode] is
    ['location']. *)
Definition onSetGPSTarget (latInput lonInput altInput : option R)
  (arMode : option App.ARMode) (arEngine : ARLocationEngine.t)
  : ARLocationEngine.t * GpsStatus :=
  let altitude := match altInput with Some a => a | None => 0 end in
  (* Validate inputs *)
  match latInput, lonInput with
  | Some latitude, Some longitude =>
      if (latitude <? -90) || (latitude >? 90)
      then (arEngine, LatitudeOutOfRange)
      else if (longitude <? -180) || (longitude >? 180)
      then (arEngine, LongitudeOutOfRange)
      else
        (* Check if we're in location mode *)
        match arMode with
        | Some App.Location =>
            (* Set target location *)
            (ARLocationEngine.setTargetLocation latitude longitude altitude
               arEngine,
             TargetSet latitude longitude)
        | _ => (arEngine, ModeNotActive)
        end
  | _, _ => (arEngine, InvalidCoordinates)
  end.

(** [onUseMyLocation()] *)
Definition onUseMyLocation (arMode : option App.ARMode)
  (arEngine : ARLocationEngine.t) : ARLocationEngine.t * GpsStatus :=
  match arMode with
  | Some App.Location =>
      match ARLocationEngine.currentLocation arEngine with
      | None => (arEngine, AcquiringLocation)
      | Some loc =>
          (* Set current location as target *)
          (ARLocationEngine.setTargetLocation (latitude loc) (longitude loc)
             (match altitude loc with Some h => h | None => 0 end)
             arEngine,
           TargetSetToYourLocation (accuracy loc))
      end
  | _ => (arEngine, ModeNotActive)
  end.

(** The table of [getDirectionText]: [min], [max], [text]. *)
Definition directions : list (R * R * String.string) :=
  [ (337.5, 360, "North");
    (0, 22.5, "North");
    (22.5, 67.5, "Northeast");
    (67.5, 112.5, "East");
    (112.5, 157.5, "Southeast");
    (157.5, 202.5, "South");
    (202.5, 247.5, "Southwest");
    (247.5, 292.5, "West");
    (292.5, 337.5, "Northwest") ].

(** [getDirectionText(bearing)] *)
Definition getDirectionText (bearing : option R) : String.string :=
  match bearing with
  | None => "away"
  | Some b =>
      match find (fun dir => let '(min, max, _) := dir in
                             (b >=? min) && (b <? max)) directions with
      | Some (_, _, text) => text
      | None => "away"
      end
  end.



End UIController.


(** ** Proof automation *)

(** Case analysis on the first [match] or [if] of the goal. *)
Ltac break_match :=
  match goal with
  | |- context [match ?c with _ => _ end] => destruct c eqn:?
  | |- context [if ?c then _ else _] => destruct c eqn:?
  end.

(** Case analysis on an innermost real comparison of the goal. *)
Ltac case_Rle_dec :=
  match goal with
  | |- context [Rle_dec ?a ?b] =>
      lazymatch b with
      | context [Rle_dec _ _] => fail
      | _ => destruct (Rle_dec a b)
      end
  end.

(** Evaluates a comparison of a capped or floored confidence. *)
Ltac eval_confidence :=
  unfold JSMath.min, JSMath.max, Rmin, Rmax;
  repeat case_Rle_dec; lra.

(** Replaces two engines related by [AREngine.sameTracker] by their
    fields, with the shared ones identified. *)
Ltac same_tracker_intro e1 e2 :=
  destruct e1, e2; unfold AREngine.sameTracker, AREngine.sameBuffers;
  cbn [AREngine.frame AREngine.prevGrayFrameRows AREngine.keypoints
       AREngine.descriptorsRows AREngine.prevKeypoints
       AREngine.prevDescriptorsRows AREngine.settings
       AREngine.planeConfidence AREngine.imuData AREngine.cameraMatrix];
  intros ((? & ? & ? & ? & ? & ? & ?) & ? & ? & ?); subst.

(** Decides the comparisons of a chain of range tests on a real number,
    dropping the cases the hypotheses exclude. *)
Ltac decide_ranges :=
  unfold JSMath.geb, JSMath.gtb, JSMath.leb, JSMath.ltb;
  repeat (match goal with
          | |- context [Rle_dec ?a ?b] => destruct (Rle_dec a b)
          | |- context [Rlt_dec ?a ?b] => destruct (Rlt_dec a b)
          end; cbn [andb orb negb]; try lra).


(** * Theorems *)

(** ** JavaScript arithmetic *)

Lemma gtb_true (a b : R) : (a >? b) = true <-> b < a.
Proof. unfold JSMath.gtb; destruct (Rlt_dec b a); split; intros; try easy. Qed.

Lemma gtb_false (a b : R) : (a >? b) = false <-> a <= b.
Proof.
  unfold JSMath.gtb; destruct (Rlt_dec b a); split; intros; try easy; lra.
Qed.

Lemma geb_true (a b : R) : (a >=? b) = true <-> b <= a.
Proof. unfold JSMath.geb; destruct (Rle_dec b a); split; intros; try easy. Qed.

Lemma leb_true (a b : R) : (a <=? b) = true <-> a <= b.
Proof. unfold JSMath.leb; destruct (Rle_dec a b); split; intros; try easy. Qed.

Lemma ltb_true (a b : R) : (a <? b) = true <-> a < b.
Proof. unfold JSMath.ltb; destruct (Rlt_dec a b); split; intros; try easy. Qed.

(** ** Scalar Kalman filter *)

Module KalmanFacts.
Import KalmanFilter.








End KalmanFacts.

(** Counterexample to C10 as stated, over binary64.  With process noise 1
    and measurement noise 1e-17 the first [filter(3)] has
    [S = 2 + 1e-17 = 2], so the gain is exactly 1 and the covariance entry
    [P[0][0] = (1 - 1) * 2] is exactly 0, not strictly positive.  The
    innovation covariance of the next [update] is then [0 + 1e-17], still
    positive. *)
Section KalmanBinary64.
Import PrimFloat.
Local Open Scope float_scope.
Local Set Warnings "-inexact-float".


End KalmanBinary64.



Module KalmanConvergence.
Import KalmanFilter.










End KalmanConvergence.



(** ** Plane confidence of the visual and hit-test trackers *)

Lemma min_gain_range (c : R) :
  0 <= c <= 1 -> 0 <= JSMath.min 1.0 (c + 0.15) <= 1.
Proof.
  intros [H0 H1]; unfold JSMath.min, Rmin.
  destruct (Rle_dec 1.0 (c + 0.15)); lra.
Qed.

Lemma max_decay_range (c : R) :
  0 <= c <= 1 -> 0 <= JSMath.max 0 (c - 0.1) <= 1.
Proof.
  intros [H0 H1]; unfold JSMath.max, Rmax.
  destruct (Rle_dec 0 (c - 0.1)); lra.
Qed.

Lemma confidenceStep_range (c c' : R) :
  confidenceStep c c' -> 0 <= c <= 1 -> 0 <= c' <= 1.
Proof.
  intros [->|[->| ->]] H; [exact H | now apply min_gain_range
                                   | now apply max_decay_range].
Qed.

Module VisualFacts.
Import AREngine.

Lemma trackFeatures_confidence (video : Video) (e : t) :
  planeConfidence (fst (trackFeatures video e)) = planeConfidence e.
Proof. unfold trackFeatures; repeat break_match; reflexivity. Qed.

Lemma detectPlane_confidence (video : Video) (e : t) :
  planeConfidence (fst (detectPlane video e))
  = if planeFound video e
    then JSMath.min 1.0 (planeConfidence e + 0.15)
    else JSMath.max 0 (planeConfidence e - 0.1).
Proof.
  unfold detectPlane, planeFound.
  rewrite Nat.leb_antisym.
  destruct (length (trackedPoints e) <? 8)%nat; simpl; [reflexivity|].
  destruct (findHomography video) as [[H mask]|]; simpl; [|reflexivity].
  destruct ((minInliers (settings e) <=? countInliers mask)%nat
            && negb (empty H)); reflexivity.
Qed.

(** [detectPlane] answers [true] exactly when the plane was found and the
    raised confidence exceeds 0.5. *)
Lemma detectPlane_result (video : Video) (e : t) :
  snd (detectPlane video e)
  = planeFound video e
    && (JSMath.min 1.0 (planeConfidence e + 0.15) >? 0.5).
Proof.
  unfold detectPlane, planeFound.
  rewrite Nat.leb_antisym.
  destruct (length (trackedPoints e) <? 8)%nat; simpl; [reflexivity|].
  destruct (findHomography video) as [[H mask]|]; simpl; [|reflexivity].
  destruct ((minInliers (settings e) <=? countInliers mask)%nat
            && negb (empty H)); reflexivity.
Qed.

Lemma estimatePose_confidence (video : Video) (e : t) :
  planeConfidence (fst (estimatePose video e)) = planeConfidence e.
Proof. unfold estimatePose; repeat break_match; reflexivity. Qed.

End VisualFacts.

Module VisualTick.
Import AREngine.

(** What the tracking block does to the confidence and to the reported
    [isTracking], when the result did not report tracking before. *)
Lemma trackingBlock_spec (video : Video) (e : t) (result : TrackingResult) :
  isTracking result = false ->
  forall e' result' threw,
    trackingBlock video e result = (e', result', threw) ->
    confidenceStep (planeConfidence e) (planeConfidence e')
    /\ (isTracking result' = true -> 0.5 < planeConfidence e').
Proof.
  intros Hres e' result' threw. unfold trackingBlock.
  pose proof (VisualFacts.trackFeatures_confidence video e) as Htf.
  destruct (trackFeatures video e) as [e1 [[|]|]]; simpl in Htf;
    try (intros [= <- <- <-]; rewrite Htf, Hres;
         split; [now left | discriminate]).
  pose proof (VisualFacts.detectPlane_confidence video e1) as Hdc.
  pose proof (VisualFacts.detectPlane_result video e1) as Hdr.
  destruct (detectPlane video e1) as [e2 planeDetected]; simpl in Hdc, Hdr.
  assert (Hstep : confidenceStep (planeConfidence e) (planeConfidence e2)).
  { rewrite Hdc, Htf. destruct (planeFound video e1);
      [right; left | right; right]; reflexivity. }
  destruct planeDetected.
  - pose proof (VisualFacts.estimatePose_confidence video e2) as Hep.
    destruct (estimatePose video e2) as [e3 poseEstimated]; simpl in Hep.
    intros [= <- <- <-]. rewrite Hep. split; [exact Hstep|]. intros _.
    symmetry in Hdr. apply andb_true_iff in Hdr as [Hf Hgt].
    rewrite Hf in Hdc. rewrite Hdc. now apply gtb_true.
  - intros [= <- <- <-]. split; [exact Hstep|].
    simpl. rewrite Hres. discriminate.
Qed.

(** One call of [processFrame]: the confidence makes one step, and a
    result that reports tracking comes with a confidence above 0.5. *)
Lemma visual_processFrame_spec (video : Video) (e : t) :
  confidenceStep (planeConfidence e)
                 (planeConfidence (fst (processFrame video e)))
  /\ (isTracking (snd (processFrame video e)) = true ->
      0.5 < planeConfidence (fst (processFrame video e))).
Proof.
  unfold processFrame.
  destruct ((videoWidth video =? 0)%nat || (videoHeight video =? 0)%nat);
    [split; [now left | discriminate]|].
  set (e0 := if sameDimensions e video then e else _).
  assert (He0 : planeConfidence e0 = planeConfidence e)
    by (unfold e0; destruct (sameDimensions e video); reflexivity).
  clearbody e0.
  destruct (readFrame video);
    [|simpl; rewrite He0; split; [now left | discriminate]].
  destruct (detectAndCompute video) as [[kps rows]|];
    [|simpl; rewrite He0; split; [now left | discriminate]].
  set (e1 := set_buffers _ _ kps rows _ _ e0).
  assert (He1 : planeConfidence e1 = planeConfidence e) by exact He0.
  set (r1 := set_features (length kps) emptyResult).
  assert (Hr1 : isTracking r1 = false) by reflexivity.
  clearbody e1 r1.
  destruct ((0 <? prevGrayFrameRows e1)%nat
            && (0 <? length (prevKeypoints e1))%nat).
  - destruct (trackingBlock video e1 r1) as [[e2 r2] threw] eqn:Htb.
    destruct (trackingBlock_spec video e1 r1 Hr1 _ _ _ Htb) as [Hs Ht].
    rewrite He1 in Hs.
    destruct threw; [|destruct (copyToThrows video)]; simpl; split; auto.
  - destruct (copyToThrows video); simpl; rewrite He1, Hr1;
      (split; [now left | discriminate]).
Qed.

Lemma visual_run_range (videos : list Video) :
  forall e, 0 <= planeConfidence e <= 1 ->
            0 <= planeConfidence (run videos e) <= 1.
Proof.
  unfold run; induction videos as [|v vs IH]; intros e He; simpl.
  - exact He.
  - apply IH. eapply confidenceStep_range; [|exact He].
    apply visual_processFrame_spec.
Qed.

End VisualTick.

Module HitTestTick.
Import WebXREngine.

Lemma hitTest_spec (frame : XRFrame) (e : t) (result : TrackingResult) :
  isTracking result = false ->
  forall e' r,
    hitTest frame e result = (e', r) ->
    isSessionActive e' = isSessionActive e
    /\ xrHitTestSource e' = xrHitTestSource e
    /\ confidenceStep (planeConfidence e) (planeConfidence e')
    /\ (forall result', r = Returns result' ->
        isTracking result' = true -> 0.5 < planeConfidence e').
Proof.
  intros Hres e' r. unfold hitTest.
  destruct (getHitTestResults frame) as [[|hit hits]|].
  - intros [= <- <-]; simpl. repeat split; [now right; right|].
    intros ? [= <-]. rewrite Hres; discriminate.
  - destruct (getPose hit) as [[hitPose|]|]; intros [= <- <-]; simpl.
    + repeat split; [now right; left|].
      intros ? [= <-]; simpl. now apply gtb_true.
    + repeat split; [now left|].
      intros ? [= <-]. rewrite Hres; discriminate.
    + repeat split; [now left|]. discriminate.
  - intros [= <- <-]; simpl. repeat split; [now left|]. discriminate.
Qed.

Lemma hitTest_processFrame_spec (frame : option XRFrame) (e : t) :
  isSessionActive (fst (processFrame frame e)) = isSessionActive e
  /\ xrHitTestSource (fst (processFrame frame e)) = xrHitTestSource e
  /\ confidenceStep (planeConfidence e)
                    (planeConfidence (fst (processFrame frame e)))
  /\ (isTracking (snd (processFrame frame e)) = true ->
      0.5 < planeConfidence (fst (processFrame frame e))).
Proof.
  unfold processFrame.
  destruct (negb (isSessionActive e));
    [repeat split; [now left | discriminate]|].
  destruct frame as [frame|];
    [|repeat split; [now left | discriminate]].
  destruct (getViewerPose frame) as [[vp|]|];
    try (simpl; repeat split; [now left | discriminate]).
  set (e0 := set_viewerPose (Some vp) e).
  destruct (xrHitTestSource e0) eqn:Hsrc.
  - destruct (hitTest frame e0 emptyResult) as [e1 r] eqn:Hht.
    destruct (hitTest_spec frame e0 emptyResult eq_refl _ _ Hht)
      as (Ha & Hs & Hc & Ht).
    destruct r as [result'|]; simpl; repeat split; auto.
    + intros Htr. apply (Ht result' eq_refl).
      unfold storeViewerTransform in Htr.
      destruct (views vp); exact Htr.
    + discriminate.
  - simpl. repeat split; [now left|].
    unfold storeViewerTransform; destruct (views vp); discriminate.
Qed.

Lemma hitTest_run_range (frames : list (option XRFrame)) :
  forall e, 0 <= planeConfidence e <= 1 ->
            0 <= planeConfidence (run frames e) <= 1.
Proof.
  unfold run; induction frames as [|f fs IH]; intros e He; simpl.
  - exact He.
  - apply IH. eapply confidenceStep_range; [|exact He].
    apply hitTest_processFrame_spec.
Qed.

End HitTestTick.

Module VisualDetection.
Import AREngine.

(** On a tick that reaches [detectPlane], the confidence is the one
    [detectPlane] leaves and [isTracking] is the conjunction of the
    answers of [detectPlane] and [estimatePose]. *)
Lemma processFrame_reaches (video : Video) (e e1 : t) :
  reachesDetectPlane video e e1 ->
  planeConfidence (fst (processFrame video e))
  = planeConfidence (fst (detectPlane video e1))
  /\ isTracking (snd (processFrame video e))
     = snd (detectPlane video e1)
       && snd (estimatePose video (fst (detectPlane video e1))).
Proof.
  intros (Hw & Hh & Hdim & Hread & Hrows & Hkp & kps & rows & Hdet & Htf).
  unfold processFrame.
  apply Nat.eqb_neq in Hw, Hh. rewrite Hw, Hh, Hdim, Hread, Hdet.
  cbn [orb].
  change (prevGrayFrameRows (set_buffers (frame e) (prevGrayFrameRows e)
            kps rows (prevKeypoints e) (prevDescriptorsRows e) e))
    with (prevGrayFrameRows e).
  change (prevKeypoints (set_buffers (frame e) (prevGrayFrameRows e)
            kps rows (prevKeypoints e) (prevDescriptorsRows e) e))
    with (prevKeypoints e).
  rewrite Hrows, Hkp. cbn [andb]. unfold trackingBlock. rewrite Htf.
  destruct (detectPlane video e1) as [e2 planeDetected]; cbn [fst snd].
  pose proof (VisualFacts.estimatePose_confidence video e2) as Hep.
  destruct planeDetected.
  - destruct (estimatePose video e2) as [e3 poseEstimated];
      cbn [fst snd andb] in *.
    destruct (copyToThrows video); cbn; auto.
  - destruct (copyToThrows video); cbn; auto.
Qed.

(** After a successful detection [estimatePose] fails only on a throwing
    matrix access. *)
Lemma estimatePose_after_detect (video : Video) (e1 : t) :
  planeFound video e1 = true ->
  snd (estimatePose video (fst (detectPlane video e1)))
  = negb (doubleAtThrows video).
Proof.
  unfold planeFound, detectPlane. rewrite Nat.leb_antisym.
  destruct (length (trackedPoints e1) <? 8)%nat; [discriminate|].
  destruct (findHomography video) as [[H mask]|]; [|discriminate].
  cbn [negb andb]. intros Hc. rewrite Hc.
  apply andb_true_iff in Hc as [_ HH]. apply negb_true_iff in HH.
  cbn. rewrite HH. destruct (doubleAtThrows video); reflexivity.
Qed.

(** A successful detection raises the confidence by 0.15 up to 1.0 and
    reports tracking when the raised confidence exceeds 0.5. *)
Lemma processFrame_detected (video : Video) (e : t) :
  detectedFrame video e ->
  planeConfidence (fst (processFrame video e))
  = JSMath.min 1.0 (planeConfidence e + 0.15)
  /\ isTracking (snd (processFrame video e))
     = (JSMath.min 1.0 (planeConfidence e + 0.15) >? 0.5)
       && negb (doubleAtThrows video).
Proof.
  intros (e1 & Hreach & Hfound).
  destruct (processFrame_reaches video e e1 Hreach) as [Hc Ht].
  destruct Hreach as (_ & _ & _ & _ & _ & _ & kps & rows & _ & Htf).
  pose proof (VisualFacts.trackFeatures_confidence video
                (set_buffers (frame e) (prevGrayFrameRows e) kps rows
                   (prevKeypoints e) (prevDescriptorsRows e) e)) as Hk.
  rewrite Htf in Hk; cbn in Hk.
  rewrite Hc, Ht, VisualFacts.detectPlane_confidence,
    VisualFacts.detectPlane_result, estimatePose_after_detect, Hfound, Hk
    by exact Hfound.
  split; reflexivity.
Qed.

(** A failed detection lowers the confidence by 0.10 down to 0 and reports
    no tracking. *)
Lemma processFrame_failed (video : Video) (e : t) :
  failedFrame video e ->
  planeConfidence (fst (processFrame video e))
  = JSMath.max 0 (planeConfidence e - 0.1)
  /\ isTracking (snd (processFrame video e)) = false.
Proof.
  intros (e1 & Hreach & Hfound).
  destruct (processFrame_reaches video e e1 Hreach) as [Hc Ht].
  destruct Hreach as (_ & _ & _ & _ & _ & _ & kps & rows & _ & Htf).
  pose proof (VisualFacts.trackFeatures_confidence video
                (set_buffers (frame e) (prevGrayFrameRows e) kps rows
                   (prevKeypoints e) (prevDescriptorsRows e) e)) as Hk.
  rewrite Htf in Hk; cbn in Hk.
  rewrite Hc, Ht, VisualFacts.detectPlane_confidence,
    VisualFacts.detectPlane_result, Hfound, Hk.
  split; reflexivity.
Qed.

End VisualDetection.

Module HitTestDetection.
Import WebXREngine.

Lemma processFrame_hit (frame : XRFrame) (e : t) :
  live e -> hitFrame frame ->
  planeConfidence (fst (processFrame (Some frame) e))
  = JSMath.min 1.0 (planeConfidence e + 0.15)
  /\ isTracking (snd (processFrame (Some frame) e))
     = (JSMath.min 1.0 (planeConfidence e + 0.15) >? 0.5).
Proof.
  intros [Ha Hs] (vp & hit & hits & hitPose & Hvp & Hhits & Hpose).
  unfold processFrame. rewrite Ha, Hvp. cbn [negb].
  change (xrHitTestSource (set_viewerPose (Some vp) e))
    with (xrHitTestSource e).
  rewrite Hs. unfold hitTest.
  rewrite Hhits, Hpose. unfold storeViewerTransform.
  destruct (views vp); cbn; split; reflexivity.
Qed.

Lemma processFrame_miss (frame : XRFrame) (e : t) :
  live e -> missFrame frame ->
  planeConfidence (fst (processFrame (Some frame) e))
  = JSMath.max 0 (planeConfidence e - 0.1)
  /\ isTracking (snd (processFrame (Some frame) e)) = false.
Proof.
  intros [Ha Hs] (vp & Hvp & Hhits).
  unfold processFrame. rewrite Ha, Hvp. cbn [negb].
  change (xrHitTestSource (set_viewerPose (Some vp) e))
    with (xrHitTestSource e).
  rewrite Hs. unfold hitTest.
  rewrite Hhits. unfold storeViewerTransform.
  destruct (views vp); cbn; split; reflexivity.
Qed.

Lemma live_processFrame (frame : option XRFrame) (e : t) :
  live e -> live (fst (processFrame frame e)).
Proof.
  intros [Ha Hs].
  destruct (HitTestTick.hitTest_processFrame_spec frame e) as (Ha' & Hs' & _).
  split; congruence.
Qed.

End HitTestDetection.

(** Closed forms of repeated gains and decays. *)
Lemma gain_again (c : R) (n : nat) :
  JSMath.min 1.0 (JSMath.min 1.0 (c + 0.15) + 0.15 * INR n)
  = JSMath.min 1.0 (c + 0.15 * INR (S n)).
Proof.
  rewrite S_INR. pose proof (pos_INR n) as Hn.
  unfold JSMath.min, Rmin.
  repeat case_Rle_dec; lra.
Qed.

Lemma decay_again (c : R) (n : nat) :
  JSMath.max 0 (JSMath.max 0 (c - 0.1) - 0.1 * INR n)
  = JSMath.max 0 (c - 0.1 * INR (S n)).
Proof.
  rewrite S_INR. pose proof (pos_INR n) as Hn.
  unfold JSMath.max, Rmax.
  repeat case_Rle_dec; lra.
Qed.

Lemma visual_gains (videos : list AREngine.Video) :
  forall e,
    AREngine.planeConfidence e <= 1 ->
    AREngine.consecutive AREngine.detectedFrame videos e ->
    AREngine.planeConfidence (AREngine.run videos e)
    = JSMath.min 1.0
        (AREngine.planeConfidence e + 0.15 * INR (length videos)).
Proof.
  induction videos as [|v vs IH]; intros e Hc Hall.
  - cbn. unfold JSMath.min, Rmin.
    destruct (Rle_dec _ _); lra.
  - destruct Hall as [Hv Hvs].
    destruct (VisualDetection.processFrame_detected v e Hv) as [Hstep _].
    change (AREngine.run (v :: vs) e)
      with (AREngine.run vs (fst (AREngine.processFrame v e))).
    rewrite IH, Hstep; [apply gain_again | | exact Hvs].
    rewrite Hstep. unfold JSMath.min. apply Rle_trans with 1.0;
      [apply Rmin_l | lra].
Qed.

Lemma visual_decays (videos : list AREngine.Video) :
  forall e,
    0 <= AREngine.planeConfidence e ->
    AREngine.consecutive AREngine.failedFrame videos e ->
    AREngine.planeConfidence (AREngine.run videos e)
    = JSMath.max 0
        (AREngine.planeConfidence e - 0.1 * INR (length videos)).
Proof.
  induction videos as [|v vs IH]; intros e Hc Hall.
  - cbn. unfold JSMath.max, Rmax.
    destruct (Rle_dec _ _); lra.
  - destruct Hall as [Hv Hvs].
    destruct (VisualDetection.processFrame_failed v e Hv) as [Hstep _].
    change (AREngine.run (v :: vs) e)
      with (AREngine.run vs (fst (AREngine.processFrame v e))).
    rewrite IH, Hstep; [apply decay_again | | exact Hvs].
    rewrite Hstep. apply Rmax_l.
Qed.

Lemma hitTest_gains (frames : list WebXREngine.XRFrame) :
  forall e,
    WebXREngine.live e ->
    WebXREngine.planeConfidence e <= 1 ->
    Forall WebXREngine.hitFrame frames ->
    WebXREngine.planeConfidence (WebXREngine.run (map Some frames) e)
    = JSMath.min 1.0
        (WebXREngine.planeConfidence e + 0.15 * INR (length frames)).
Proof.
  induction frames as [|f fs IH]; intros e Hl Hc Hall.
  - cbn. unfold JSMath.min, Rmin.
    destruct (Rle_dec _ _); lra.
  - inversion Hall as [|? ? Hf Hfs]; subst.
    destruct (HitTestDetection.processFrame_hit f e Hl Hf) as [Hstep _].
    change (WebXREngine.run (map Some (f :: fs)) e)
      with (WebXREngine.run (map Some fs)
              (fst (WebXREngine.processFrame (Some f) e))).
    rewrite IH, Hstep; [apply gain_again | | | exact Hfs].
    + now apply HitTestDetection.live_processFrame.
    + rewrite Hstep. unfold JSMath.min. apply Rle_trans with 1.0;
        [apply Rmin_l | lra].
Qed.

Lemma hitTest_decays (frames : list WebXREngine.XRFrame) :
  forall e,
    WebXREngine.live e ->
    0 <= WebXREngine.planeConfidence e ->
    Forall WebXREngine.missFrame frames ->
    WebXREngine.planeConfidence (WebXREngine.run (map Some frames) e)
    = JSMath.max 0
        (WebXREngine.planeConfidence e - 0.1 * INR (length frames)).
Proof.
  induction frames as [|f fs IH]; intros e Hl Hc Hall.
  - cbn. unfold JSMath.max, Rmax.
    destruct (Rle_dec _ _); lra.
  - inversion Hall as [|? ? Hf Hfs]; subst.
    destruct (HitTestDetection.processFrame_miss f e Hl Hf) as [Hstep _].
    change (WebXREngine.run (map Some (f :: fs)) e)
      with (WebXREngine.run (map Some fs)
              (fst (WebXREngine.processFrame (Some f) e))).
    rewrite IH, Hstep; [apply decay_again | | | exact Hfs].
    + now apply HitTestDetection.live_processFrame.
    + rewrite Hstep. apply Rmax_l.
Qed.

Lemma ltb_false (a b : R) : (a <? b) = false <-> b <= a.
Proof.
  unfold JSMath.ltb; destruct (Rlt_dec a b); split; intros; try easy; lra.
Qed.

(** The sample frames are a successful and a failed detection. *)
Module VisualSample.
Import AREngine.

Lemma minDist_uniform (d : R) (ms : list DMatch) :
  Forall (fun m => distance m = d) ms -> minDist ms (Some d) = Some d.
Proof.
  induction 1 as [|m ms Hm _ IH]; cbn [minDist]; [reflexivity|].
  rewrite Hm. replace (d <? d) with false; [exact IH|].
  symmetry; apply ltb_false; lra.
Qed.

(** When every match is below the threshold and pairs a keypoint index
    with itself inside the vector, the loop pushes one pair per match. *)
Lemma collect_diagonal (kps : list Vector2) (minD : option R)
  (ms : list DMatch) :
  Forall (fun m => belowThreshold (distance m) minD = true
                   /\ trainIdx m = queryIdx m
                   /\ (queryIdx m < length kps)%nat) ms ->
  forall acc,
    collect kps kps minD ms acc
    = (acc ++ map (fun m => let p := nth (queryIdx m) kps (mkVector2 0 0) in
                            mkPair p p) ms,
       false).
Proof.
  induction 1 as [|m ms (Hb & Ht & Hq) _ IH]; intros acc; cbn [collect map].
  - now rewrite app_nil_r.
  - rewrite Hb, Ht, (nth_error_nth' kps (mkVector2 0 0) Hq).
    rewrite IH, <- app_assoc. reflexivity.
Qed.

Lemma steady_trackFeatures (video : Video) (e : t) :
  steady e -> matcherMatch video = Returns sampleMatches ->
  trackFeatures video
    (set_buffers (frame e) (prevGrayFrameRows e) sampleKeypoints 10
       (prevKeypoints e) (prevDescriptorsRows e) e)
  = (set_trackedPoints samplePairs
       (set_buffers (frame e) (prevGrayFrameRows e) sampleKeypoints 10
          (prevKeypoints e) (prevDescriptorsRows e) e),
     Returns true).
Proof.
  intros (Hf & Hg & Hk & Hd & Hs) Hm. unfold trackFeatures.
  cbn [prevKeypoints keypoints set_buffers
       prevDescriptorsRows descriptorsRows settings].
  rewrite Hk, Hd, Hs. cbn [minInliers].
  change (length sampleKeypoints) with 10%nat.
  cbn [Nat.eqb orb Nat.ltb Nat.leb andb]. rewrite Hm.
  change (length sampleMatches) with 10%nat. cbn [Nat.leb].
  assert (Hmin : minDist sampleMatches None = Some 10).
  { change (minDist sampleMatches None)
      with (minDist (tl sampleMatches) (Some 10)).
    apply minDist_uniform. repeat constructor. }
  rewrite Hmin, (collect_diagonal sampleKeypoints (Some 10) sampleMatches).
  - cbn [app settings set_trackedPoints set_buffers]. rewrite Hs.
    reflexivity.
  - assert (Hb : belowThreshold 10 (Some 10) = true).
    { apply ltb_true. unfold JSMath.max, Rmax.
      destruct (Rle_dec _ _); lra. }
    repeat constructor; try exact Hb; cbn; lia.
Qed.

Lemma steady_reaches (video : Video) (e : t) :
  steady e -> sampleLike video ->
  reachesDetectPlane video e
    (set_trackedPoints samplePairs
       (set_buffers (frame e) (prevGrayFrameRows e) sampleKeypoints 10
          (prevKeypoints e) (prevDescriptorsRows e) e)).
Proof.
  intros He (Hw & Hh & Hr & Hd & Hm & _).
  pose proof He as (Hf & Hg & Hk & _ & _).
  unfold reachesDetectPlane, sameDimensions.
  rewrite Hw, Hh, Hr, Hd.
  split; [discriminate|]. split; [discriminate|].
  split; [now rewrite Hf|]. split; [reflexivity|].
  split; [now rewrite Hg|]. split; [now rewrite Hk|].
  exists sampleKeypoints, 10%nat. split; [reflexivity|].
  now apply steady_trackFeatures.
Qed.

Lemma detectPlane_buffers (video : Video) (e : t) :
  sameBuffers e (fst (detectPlane video e)).
Proof.
  unfold detectPlane, sameBuffers; repeat break_match; cbn; tauto.
Qed.

Lemma estimatePose_buffers (video : Video) (e : t) :
  sameBuffers e (fst (estimatePose video e)).
Proof.
  unfold estimatePose, sameBuffers; repeat break_match; cbn; tauto.
Qed.

(** A sample-like frame leaves the engine ready for the next one. *)
Lemma steady_processFrame (video : Video) (e : t) :
  steady e -> sampleLike video -> steady (fst (processFrame video e)).
Proof.
  intros He Hv.
  pose proof (steady_reaches video e He Hv)
    as (_ & _ & Hdim & _ & Hrows & Hkp & _).
  pose proof (steady_trackFeatures video e He) as Htf.
  destruct Hv as (Hw & Hh & Hr & Hd & Hm & Hc).
  specialize (Htf Hm). destruct He as (Hf & Hg & Hk & Hpd & Hs).
  unfold processFrame. rewrite Hw, Hh, Hdim, Hr, Hd, Hc.
  cbn [Nat.eqb orb].
  change (prevGrayFrameRows (set_buffers (frame e) (prevGrayFrameRows e)
            sampleKeypoints 10 (prevKeypoints e) (prevDescriptorsRows e) e))
    with (prevGrayFrameRows e).
  change (prevKeypoints (set_buffers (frame e) (prevGrayFrameRows e)
            sampleKeypoints 10 (prevKeypoints e) (prevDescriptorsRows e) e))
    with (prevKeypoints e).
  rewrite Hrows, Hkp. cbn [andb]. unfold trackingBlock. rewrite Htf.
  set (e1 := set_trackedPoints samplePairs _).
  pose proof (detectPlane_buffers video e1) as (B1 & _ & B2 & B3 & _ & _ & B4).
  destruct (detectPlane video e1) as [e2 planeDetected]; cbn [fst] in *.
  assert (Hgoal : forall e3 b, sameBuffers e2 e3 ->
            steady (set_isTracking b
                      (set_buffers (frame e3) 480 [] (prevDescriptorsRows e3)
                         (keypoints e3) (descriptorsRows e3) e3))).
  { intros e3 b (C1 & _ & C2 & C3 & _ & _ & C4). unfold steady; cbn.
    rewrite C1, C2, C3, C4, B1, B2, B3, B4. cbn. rewrite Hf, Hs. tauto. }
  destruct planeDetected.
  - pose proof (estimatePose_buffers video e2) as HB.
    destruct (estimatePose video e2) as [e3 poseEstimated]; cbn [fst] in *.
    apply Hgoal, HB.
  - apply Hgoal. unfold sameBuffers; tauto.
Qed.

Lemma steady_sampleEngine (c : R) : steady (sampleEngine c).
Proof. repeat split. Qed.

Lemma sampleLike_sampleVideo : sampleLike sampleVideo.
Proof. repeat split. Qed.

Lemma sampleLike_sampleVideoRejected : sampleLike sampleVideoRejected.
Proof. repeat split. Qed.

(** On a steady engine the accepted sample frame is a successful
    detection and the rejected one a failed detection. *)
Lemma steady_detected (e : t) : steady e -> detectedFrame sampleVideo e.
Proof.
  intros He. eexists. split.
  - apply (steady_reaches sampleVideo e He sampleLike_sampleVideo).
  - destruct He as (_ & _ & _ & _ & Hs).
    unfold planeFound. cbn. rewrite Hs. reflexivity.
Qed.

Lemma steady_failed (e : t) : steady e -> failedFrame sampleVideoRejected e.
Proof.
  intros He. eexists. split.
  - apply (steady_reaches sampleVideoRejected e He
             sampleLike_sampleVideoRejected).
  - destruct He as (_ & _ & _ & _ & Hs).
    unfold planeFound. cbn. rewrite Hs. reflexivity.
Qed.

(** The first frame of the sample video takes the fresh engine to the
    steady sample engine. *)
Lemma first_sample_frame :
  processFrame sampleVideo new
  = (sampleEngine 0, set_features 10 emptyResult).
Proof. reflexivity. Qed.

End VisualSample.

(** ** Geodetic tracker: tracking comes with full confidence *)

Module LocationFacts.
Import ARLocationEngine.

Lemma poseConfidence_full (threshold acc : R) :
  0 <= acc -> acc <= threshold -> poseConfidence threshold acc = 1.0.
Proof.
  intros H0 Hle. unfold poseConfidence.
  destruct (Req_dec_T acc 0) as [|Hne]; [reflexivity|].
  unfold JSMath.min. apply Rmin_left.
  assert (Hpos : 0 < acc) by lra.
  apply (Rmult_le_reg_r acc); [exact Hpos|].
  unfold Rdiv. rewrite Rmult_assoc, Rinv_l by exact Hne. lra.
Qed.

Lemma updateTracking_invariant (e : t) :
  gpsAccuracyThreshold e = 50 ->
  match currentLocation e with
  | Some cur => 0 <= accuracy cur
  | None => True
  end ->
  trackingInvariant (updateTracking e).
Proof.
  intros Hthr Hacc. unfold updateTracking, trackingInvariant.
  destruct (currentLocation e) as [cur|] eqn:Hcur;
    [|cbn; split; [exact Hthr | discriminate]].
  destruct (targetLocation e) as [tgt|] eqn:Htgt;
    [|cbn; split; [exact Hthr | discriminate]].
  cbn [isTrackingField].
  destruct (accuracy cur <=? gpsAccuracyThreshold e) eqn:Hok; cbn [andb];
    [|cbn; split; [exact Hthr | discriminate]].
  match goal with |- context [if ?b then _ else _] => destruct b end;
    [|cbn; split; [exact Hthr | discriminate]].
  unfold updatePose. cbn.
  split; [exact Hthr|]. intros _. eexists. split; [reflexivity|]. cbn.
  apply leb_true in Hok. now rewrite poseConfidence_full.
Qed.

Lemma updatePose_currentLocation (e : t) :
  currentLocation (updatePose e) = currentLocation e.
Proof. unfold updatePose; repeat break_match; cbn; congruence. Qed.

Lemma updateTracking_currentLocation (e : t) :
  currentLocation (updateTracking e) = currentLocation e.
Proof.
  unfold updateTracking.
  destruct (currentLocation e) eqn:Hc; [|exact Hc].
  destruct (targetLocation e); [|exact Hc].
  break_match; [rewrite updatePose_currentLocation|]; reflexivity.
Qed.

(** Every valid call keeps the invariant, and keeps the stored fix
    accurate to a non-negative radius. *)
Lemma run_invariant (cs : list call) :
  Forall validCall cs ->
  forall e,
    trackingInvariant e ->
    match currentLocation e with
    | Some cur => 0 <= accuracy cur
    | None => True
    end ->
    trackingInvariant (run cs e).
Proof.
  unfold run. induction 1 as [|c cs Hc _ IH]; intros e Hinv Hacc; cbn.
  - exact Hinv.
  - destruct Hinv as [Hthr Htr]. destruct c; cbn [step validCall] in *.
    + apply IH.
      * now apply updateTracking_invariant.
      * unfold updateLocation. rewrite updateTracking_currentLocation.
        exact Hc.
    + apply IH.
      * now apply updateTracking_invariant.
      * unfold setTargetLocation. rewrite updateTracking_currentLocation.
        exact Hacc.
    + apply IH; [split; [exact Hthr | exact Htr] | exact Hacc].
    + apply IH; [split; [exact Hthr | discriminate] | exact Hacc].
Qed.

End LocationFacts.

(** ** The visual tracker without a confidence counter *)

Module PlainTick.
Import AREnginePlain.

Lemma estimatePose_pose (video : AREngine.Video) (e : t) :
  snd (estimatePose video e) = true ->
  exists p, currentPose (fst (estimatePose video e)) = Some p
            /\ confidence p = None.
Proof.
  unfold estimatePose.
  destruct (groundPlane e) as [g|]; [|discriminate].
  destruct (AREngine.empty (homography g)); [discriminate|].
  destruct (AREngine.doubleAtThrows video); [discriminate|].
  intros _. eexists. split; reflexivity.
Qed.

Lemma trackingBlock_pose (video : AREngine.Video) (e : t)
  (result : TrackingResult) :
  isTracking result = false ->
  forall e' result' threw,
    trackingBlock video e result = (e', result', threw) ->
    isTracking result' = true ->
    exists p, pose result' = Some p /\ confidence p = None.
Proof.
  intros Hres e' result' threw. unfold trackingBlock.
  destruct (trackFeatures video e) as [e1 [[|]|]];
    try (intros [= <- <- <-]; rewrite Hres; discriminate).
  destruct (detectPlane video e1) as [e2 planeDetected].
  destruct planeDetected.
  - pose proof (estimatePose_pose video e2) as Hep.
    destruct (estimatePose video e2) as [e3 poseEstimated]; simpl in Hep.
    intros [= <- <- <-]. simpl. exact Hep.
  - intros [= <- <- <-]. simpl. rewrite Hres. discriminate.
Qed.

(** A result of the plain copy that reports tracking carries a pose, and
    that pose has no [confidence]. *)
Lemma plain_processFrame_pose (video : AREngine.Video) (e : t) :
  isTracking (snd (processFrame video e)) = true ->
  exists p, pose (snd (processFrame video e)) = Some p
            /\ confidence p = None.
Proof.
  unfold processFrame.
  destruct ((AREngine.videoWidth video =? 0)%nat
            || (AREngine.videoHeight video =? 0)%nat); [discriminate|].
  set (e0 := if sameDimensions e video then e else _). clearbody e0.
  destruct (AREngine.readFrame video); [|discriminate].
  destruct (AREngine.detectAndCompute video) as [[kps rows]|];
    [|discriminate].
  set (e1 := set_buffers _ _ kps rows _ _ e0).
  set (r1 := AREngine.set_features (length kps) emptyResult).
  assert (Hr1 : isTracking r1 = false) by reflexivity.
  clearbody e1 r1.
  destruct ((0 <? prevGrayFrameRows e1)%nat
            && (0 <? length (prevKeypoints e1))%nat).
  - destruct (trackingBlock video e1 r1) as [[e2 r2] threw] eqn:Htb.
    pose proof (trackingBlock_pose video e1 r1 Hr1 _ _ _ Htb) as Ht.
    destruct threw; [|destruct (AREngine.copyToThrows video)]; simpl;
      exact Ht.
  - destruct (AREngine.copyToThrows video); simpl; rewrite Hr1;
      discriminate.
Qed.

(** The engine after a first frame of the sample video. *)
Lemma plain_first_sample_frame :
  processFrame AREngine.sampleVideo new
  = (mk (Some (480, 640)%nat) 480 [] 0 AREngine.sampleKeypoints 10 false []
        None [] None (mkOrientation 0 0 0) (AREngine.initCameraMatrix 640 480)
        (AREngine.mkSettings 500 3.0 10) false,
     AREngine.set_features 10 emptyResult).
Proof. reflexivity. Qed.

Lemma plain_trackFeatures_sample (e : t) :
  prevKeypoints e = AREngine.sampleKeypoints ->
  keypoints e = AREngine.sampleKeypoints ->
  prevDescriptorsRows e = 10%nat ->
  descriptorsRows e = 10%nat ->
  settings e = AREngine.mkSettings 500 3.0 10 ->
  trackFeatures AREngine.sampleVideo e
  = (set_trackedPoints AREngine.samplePairs e, Returns true).
Proof.
  intros Hpk Hk Hpd Hd Hs. unfold trackFeatures.
  rewrite Hpk, Hk, Hpd, Hd, Hs. cbn [AREngine.minInliers].
  change (length AREngine.sampleKeypoints) with 10%nat.
  cbn [Nat.eqb orb Nat.ltb Nat.leb andb AREngine.matcherMatch
       AREngine.sampleVideo].
  change (length AREngine.sampleMatches) with 10%nat. cbn [Nat.leb].
  assert (Hmin : AREngine.minDist AREngine.sampleMatches None = Some 10).
  { change (AREngine.minDist AREngine.sampleMatches None)
      with (AREngine.minDist (tl AREngine.sampleMatches) (Some 10)).
    apply VisualSample.minDist_uniform. repeat constructor. }
  rewrite Hmin,
    (VisualSample.collect_diagonal AREngine.sampleKeypoints (Some 10)
       AREngine.sampleMatches).
  - cbn [app settings set_trackedPoints]. rewrite Hs. reflexivity.
  - assert (Hb : AREngine.belowThreshold 10 (Some 10) = true).
    { apply ltb_true. unfold JSMath.max, Rmax.
      destruct (Rle_dec _ _); lra. }
    repeat constructor; try exact Hb; cbn; lia.
Qed.

(** The two sample frames on a fresh engine: the second one is tracked. *)
Lemma plain_second_sample_frame :
  exists p,
    results [AREngine.sampleVideo; AREngine.sampleVideo] new
    = [AREngine.set_features 10 emptyResult;
       mkTrackingResult true false 10 1 (Some p) None None None]
    /\ v3z (position p) = 1.0
    /\ confidence p = None.
Proof.
  eexists. split; [|split].
  - cbn [results]. rewrite plain_first_sample_frame. cbn [fst snd].
    f_equal. f_equal. unfold processFrame.
    cbn [AREngine.videoWidth AREngine.videoHeight AREngine.sampleVideo
         Nat.eqb orb sameDimensions frame andb AREngine.readFrame
         AREngine.detectAndCompute set_buffers prevGrayFrameRows
         prevKeypoints Nat.ltb Nat.leb].
    change (length AREngine.sampleKeypoints) with 10%nat.
    cbn [Nat.ltb Nat.leb andb]. unfold trackingBlock.
    rewrite plain_trackFeatures_sample by reflexivity.
    cbn. reflexivity.
  - reflexivity.
  - reflexivity.
Qed.
End PlainTick.

(** ** Claims on the plane confidence *)

(** Counterexample to C1 as stated.  The copy of the visual tracker that
    [main.js] imports keeps no plane confidence.  On a fresh engine, the
    second of two frames with an accepted plane fit is reported with
    [isTracking = true] and a pose that carries no confidence at all,
    while the copy that keeps the counter has accumulated 0.15 on the same
    two frames, which is not above 0.5, and reports [isTracking = false]. *)
Lemma plain_tracker_tracks_on_first_fit :
  let frames := [AREngine.sampleVideo; AREngine.sampleVideo] in
  (exists r p,
      nth_error (AREnginePlain.results frames AREnginePlain.new) 1
      = Some r
      /\ isTracking r = true
      /\ pose r = Some p
      /\ confidence p = None)
  /\ AREngine.planeConfidence (AREngine.run frames AREngine.new) = 0.15
  /\ ~ 0.5 < AREngine.planeConfidence (AREngine.run frames AREngine.new)
  /\ exists r,
      nth_error (AREngine.results frames AREngine.new) 1 = Some r
      /\ isTracking r = false.
Proof.
  intros frames.
  destruct PlainTick.plain_second_sample_frame as (p & Hres & _ & Hc).
  destruct (VisualDetection.processFrame_detected AREngine.sampleVideo
              (AREngine.sampleEngine 0)
              (VisualSample.steady_detected _
                 (VisualSample.steady_sampleEngine 0)))
    as [Hconf Htrack].
  assert (Hmin : JSMath.min 1.0 (AREngine.planeConfidence
                                   (AREngine.sampleEngine 0) + 0.15) = 0.15).
  { cbn [AREngine.planeConfidence AREngine.sampleEngine].
    unfold JSMath.min, Rmin. case_Rle_dec; lra. }
  rewrite Hmin in Hconf, Htrack.
  assert (Hrun : AREngine.planeConfidence (AREngine.run frames AREngine.new)
                 = 0.15).
  { unfold frames, AREngine.run. cbn [fold_left].
    rewrite VisualSample.first_sample_frame. cbn [fst]. exact Hconf. }
  split; [|split; [exact Hrun | split; [rewrite Hrun; lra|]]].
  - unfold frames. rewrite Hres. eexists. exists p. cbn.
    repeat split. exact Hc.
  - unfold frames. cbn [AREngine.results].
    rewrite VisualSample.first_sample_frame. cbn [fst snd nth_error].
    eexists. split; [reflexivity|].
    rewrite Htrack. replace (0.15 >? 0.5) with false; [reflexivity|].
    symmetry. apply gtb_false. lra.
Qed.

(** C1 (amended).  For every tracking backend that keeps a confidence, a
    [TrackingResult] with [isTracking = true] is only emitted with a
    confidence above 0.5: for the visual tracker with the confidence
    counter and for the hit-test tracker the accumulated plane confidence
    left by the same [processFrame] call exceeds 0.5, and whenever that
    confidence is at or below 0.5 the result has [isTracking = false]; the
    geodetic tracker keeps no plane confidence, and a result of it that
    reports tracking carries a pose whose confidence exceeds 0.5.  The
    copy of the visual tracker without the counter reports tracking with
    a pose that carries no confidence. *)
Theorem tracking_only_above_half
  (video : AREngine.Video) (ev : AREngine.t) (ep : AREnginePlain.t)
  (frame : option WebXREngine.XRFrame) (ex : WebXREngine.t)
  (calls : list ARLocationEngine.call) :
  Forall ARLocationEngine.validCall calls ->
  let rv := AREngine.processFrame video ev in
  let rp := AREnginePlain.processFrame video ep in
  let rx := WebXREngine.processFrame frame ex in
  let rg := ARLocationEngine.processFrame
              (ARLocationEngine.run calls ARLocationEngine.new) in
  (isTracking (snd rv) = true -> 0.5 < AREngine.planeConfidence (fst rv))
  /\ (AREngine.planeConfidence (fst rv) <= 0.5 ->
      isTracking (snd rv) = false)
  /\ (isTracking (snd rx) = true ->
      0.5 < WebXREngine.planeConfidence (fst rx))
  /\ (WebXREngine.planeConfidence (fst rx) <= 0.5 ->
      isTracking (snd rx) = false)
  /\ (isTracking rg = true ->
      exists p c, pose rg = Some p /\ confidence p = Some c /\ 0.5 < c)
  /\ (isTracking (snd rp) = true ->
      exists p, pose (snd rp) = Some p /\ confidence p = None).
Proof.
  intros Hvalid rv rp rx rg.
  destruct (VisualTick.visual_processFrame_spec video ev) as [_ Hv].
  destruct (HitTestTick.hitTest_processFrame_spec frame ex) as (_ & _ & _ & Hx).
  fold rv in Hv. fold rx in Hx.
  split; [exact Hv|]. split; [|split; [exact Hx|split; [|split]]].
  - intros Hle. destruct (isTracking (snd rv)); [|reflexivity].
    specialize (Hv eq_refl). lra.
  - intros Hle. destruct (isTracking (snd rx)); [|reflexivity].
    specialize (Hx eq_refl). lra.
  - intros Htr.
    destruct (LocationFacts.run_invariant calls Hvalid ARLocationEngine.new)
      as [_ Hinv].
    + split; [reflexivity | discriminate].
    + exact I.
    + destruct (Hinv Htr) as (p & Hp & Hc).
      exists p, 1.0. repeat split; [exact Hp | exact Hc | lra].
  - apply PlainTick.plain_processFrame_pose.
Qed.

Lemma tracking_only_above_half_witness :
  let calls := [ARLocationEngine.UpdateLocation
                  (mkLocationFix 37.0 (-122.0) None 5 0);
                ARLocationEngine.SetTargetLocation 37.001 (-122.0) 0] in
  let rv := AREngine.processFrame AREngine.sampleVideo
              (AREngine.sampleEngine 0.45) in
  let rp := AREnginePlain.processFrame AREngine.sampleVideo
              (fst (AREnginePlain.processFrame AREngine.sampleVideo
                      AREnginePlain.new)) in
  let rx := WebXREngine.processFrame (Some WebXREngine.sampleHit)
              WebXREngine.started in
  let rg := ARLocationEngine.processFrame
              (ARLocationEngine.run calls ARLocationEngine.new) in
  Forall ARLocationEngine.validCall calls
  /\ (isTracking (snd rv) = true -> 0.5 < AREngine.planeConfidence (fst rv))
  /\ (AREngine.planeConfidence (fst rv) <= 0.5 ->
      isTracking (snd rv) = false)
  /\ (isTracking (snd rx) = true ->
      0.5 < WebXREngine.planeConfidence (fst rx))
  /\ (WebXREngine.planeConfidence (fst rx) <= 0.5 ->
      isTracking (snd rx) = false)
  /\ (isTracking rg = true ->
      exists p c, pose rg = Some p /\ confidence p = Some c /\ 0.5 < c)
  /\ (isTracking (snd rp) = true ->
      exists p, pose (snd rp) = Some p /\ confidence p = None).
Proof.
  intros calls.
  assert (Hvalid : Forall ARLocationEngine.validCall calls).
  { repeat constructor. cbn. lra. }
  split; [exact Hvalid|].
  exact (tracking_only_above_half AREngine.sampleVideo
           (AREngine.sampleEngine 0.45)
           (fst (AREnginePlain.processFrame AREngine.sampleVideo
                   AREnginePlain.new))
           (Some WebXREngine.sampleHit)
           WebXREngine.started calls Hvalid).
Defined.

(** C3.  The plane confidence stays within [0, 1].  A successful
    detection sets it to [min(1.0, c + 0.15)] and a failed detection to
    [max(0, c - 0.1)], in the visual tracker ([detectPlane]) and in the
    hit-test tracker ([processFrame] on a frame with, respectively
    without, hit-test results); along any sequence of frames it stays in
    [0, 1]; after [N] consecutive successful detections it is
    [min(1.0, c + 0.15 N)], never above 1.0, and after [N] consecutive
    failed detections it is [max(0, c - 0.1 N)], never below 0. *)
Theorem plane_confidence_bounded
  (ev : AREngine.t) (ex : WebXREngine.t) :
  0 <= AREngine.planeConfidence ev <= 1 ->
  0 <= WebXREngine.planeConfidence ex <= 1 ->
  WebXREngine.live ex ->
  (* one detection *)
  (forall video,
     AREngine.planeConfidence (fst (AREngine.detectPlane video ev))
     = if AREngine.planeFound video ev
       then JSMath.min 1.0 (AREngine.planeConfidence ev + 0.15)
       else JSMath.max 0 (AREngine.planeConfidence ev - 0.1))
  /\ (forall frame, WebXREngine.hitFrame frame ->
      WebXREngine.planeConfidence
        (fst (WebXREngine.processFrame (Some frame) ex))
      = JSMath.min 1.0 (WebXREngine.planeConfidence ex + 0.15))
  /\ (forall frame, WebXREngine.missFrame frame ->
      WebXREngine.planeConfidence
        (fst (WebXREngine.processFrame (Some frame) ex))
      = JSMath.max 0 (WebXREngine.planeConfidence ex - 0.1))
  (* any sequence of frames *)
  /\ (forall videos,
      0 <= AREngine.planeConfidence (AREngine.run videos ev) <= 1)
  /\ (forall frames,
      0 <= WebXREngine.planeConfidence (WebXREngine.run frames ex) <= 1)
  (* N consecutive successes, N consecutive failures *)
  /\ (forall videos,
      AREngine.consecutive AREngine.detectedFrame videos ev ->
      AREngine.planeConfidence (AREngine.run videos ev)
      = JSMath.min 1.0
          (AREngine.planeConfidence ev + 0.15 * INR (length videos))
      /\ AREngine.planeConfidence (AREngine.run videos ev) <= 1)
  /\ (forall videos,
      AREngine.consecutive AREngine.failedFrame videos ev ->
      AREngine.planeConfidence (AREngine.run videos ev)
      = JSMath.max 0
          (AREngine.planeConfidence ev - 0.1 * INR (length videos))
      /\ 0 <= AREngine.planeConfidence (AREngine.run videos ev))
  /\ (forall frames,
      Forall WebXREngine.hitFrame frames ->
      WebXREngine.planeConfidence (WebXREngine.run (map Some frames) ex)
      = JSMath.min 1.0
          (WebXREngine.planeConfidence ex + 0.15 * INR (length frames))
      /\ WebXREngine.planeConfidence
           (WebXREngine.run (map Some frames) ex) <= 1)
  /\ (forall frames,
      Forall WebXREngine.missFrame frames ->
      WebXREngine.planeConfidence (WebXREngine.run (map Some frames) ex)
      = JSMath.max 0
          (WebXREngine.planeConfidence ex - 0.1 * INR (length frames))
      /\ 0 <= WebXREngine.planeConfidence
                (WebXREngine.run (map Some frames) ex)).
Proof.
  intros Hv Hx Hlive.
  split; [intro; apply VisualFacts.detectPlane_confidence|].
  split; [intros frame Hf;
          apply (HitTestDetection.processFrame_hit frame ex Hlive Hf)|].
  split; [intros frame Hf;
          apply (HitTestDetection.processFrame_miss frame ex Hlive Hf)|].
  split; [intro; now apply VisualTick.visual_run_range|].
  split; [intro; now apply HitTestTick.hitTest_run_range|].
  split; [|split; [|split]].
  - intros videos Hall. split; [apply visual_gains; [lra | exact Hall]|].
    now apply VisualTick.visual_run_range.
  - intros videos Hall. split; [apply visual_decays; [lra | exact Hall]|].
    now apply VisualTick.visual_run_range.
  - intros frames Hall.
    split; [apply hitTest_gains; [exact Hlive | lra | exact Hall]|].
    now apply HitTestTick.hitTest_run_range.
  - intros frames Hall.
    split; [apply hitTest_decays; [exact Hlive | lra | exact Hall]|].
    now apply HitTestTick.hitTest_run_range.
Qed.

Lemma plane_confidence_bounded_witness :
  (0 <= AREngine.planeConfidence (AREngine.sampleEngine 0.3) <= 1)
  /\ (0 <= WebXREngine.planeConfidence WebXREngine.started <= 1)
  /\ WebXREngine.live WebXREngine.started
  /\ (forall videos,
      0 <= AREngine.planeConfidence
             (AREngine.run videos (AREngine.sampleEngine 0.3)) <= 1)
  /\ (forall frames,
      0 <= WebXREngine.planeConfidence
             (WebXREngine.run frames WebXREngine.started) <= 1).
Proof.
  assert (Hv : 0 <= AREngine.planeConfidence (AREngine.sampleEngine 0.3) <= 1)
    by (cbn; lra).
  assert (Hx : 0 <= WebXREngine.planeConfidence WebXREngine.started <= 1)
    by (cbn; lra).
  assert (Hl : WebXREngine.live WebXREngine.started)
    by (split; reflexivity).
  split; [exact Hv|]. split; [exact Hx|]. split; [exact Hl|].
  destruct (plane_confidence_bounded (AREngine.sampleEngine 0.3)
              WebXREngine.started Hv Hx Hl)
    as (_ & _ & _ & Hrv & Hrx & _).
  split; [exact Hrv | exact Hrx].
Defined.

(** ** One-sided hysteresis *)

Lemma hit_sampleHit : WebXREngine.hitFrame WebXREngine.sampleHit.
Proof.
  unfold WebXREngine.hitFrame, WebXREngine.sampleHit; cbn.
  do 4 eexists. repeat split.
Qed.

Lemma miss_sampleMiss : WebXREngine.missFrame WebXREngine.sampleMiss.
Proof.
  unfold WebXREngine.missFrame, WebXREngine.sampleMiss; cbn.
  eexists. repeat split.
Qed.

(** One hit on a live engine whose confidence is known. *)
Lemma hit_from (e : WebXREngine.t) (c : R) :
  WebXREngine.live e -> WebXREngine.planeConfidence e = c -> c + 0.15 <= 1 ->
  let r := WebXREngine.processFrame (Some WebXREngine.sampleHit) e in
  WebXREngine.live (fst r)
  /\ WebXREngine.planeConfidence (fst r) = c + 0.15
  /\ isTracking (snd r) = (c + 0.15 >? 0.5).
Proof.
  intros Hl Hc Hle r.
  destruct (HitTestDetection.processFrame_hit _ e Hl hit_sampleHit)
    as [H1 H2].
  fold r in H1, H2. rewrite Hc in H1, H2.
  assert (Hmin : JSMath.min 1.0 (c + 0.15) = c + 0.15)
    by eval_confidence.
  rewrite Hmin in H1, H2.
  split; [now apply HitTestDetection.live_processFrame|].
  split; assumption.
Qed.

(** One detection on a steady engine whose confidence is known. *)
Lemma detect_from (e : AREngine.t) (c : R) :
  AREngine.steady e -> AREngine.planeConfidence e = c -> c + 0.15 <= 1 ->
  let r := AREngine.processFrame AREngine.sampleVideo e in
  AREngine.steady (fst r)
  /\ AREngine.planeConfidence (fst r) = c + 0.15
  /\ isTracking (snd r) = (c + 0.15 >? 0.5).
Proof.
  intros Hs Hc Hle r.
  destruct (VisualDetection.processFrame_detected _ e
              (VisualSample.steady_detected e Hs)) as [H1 H2].
  fold r in H1, H2. rewrite Hc in H1, H2.
  assert (Hmin : JSMath.min 1.0 (c + 0.15) = c + 0.15)
    by eval_confidence.
  rewrite Hmin in H1, H2. cbn [AREngine.doubleAtThrows AREngine.sampleVideo
                               negb] in H2.
  rewrite andb_true_r in H2.
  split; [apply VisualSample.steady_processFrame;
          [exact Hs | exact VisualSample.sampleLike_sampleVideo]|].
  split; assumption.
Qed.

(** Counterexample to C2 as stated.  Starting from a fresh session, four
    frames with a hit raise the confidence to 0.6 and the fourth reports
    tracking; the single frame without a hit that follows reports
    [isTracking = false] at once, with the confidence at 0.5.  The visual
    tracker does the same on its sample video. *)
Lemma single_failure_reports_not_tracking :
  let hit := Some WebXREngine.sampleHit in
  let miss := Some WebXREngine.sampleMiss in
  let good := AREngine.sampleVideo in
  let bad := AREngine.sampleVideoRejected in
  map isTracking
      (WebXREngine.results [hit; hit; hit; hit; miss] WebXREngine.started)
  = [false; false; false; true; false]
  /\ WebXREngine.planeConfidence
       (WebXREngine.run [hit; hit; hit; hit] WebXREngine.started) = 0.6
  /\ WebXREngine.planeConfidence
       (WebXREngine.run [hit; hit; hit; hit; miss] WebXREngine.started)
     = 0.5
  /\ map isTracking
       (AREngine.results [good; good; good; good; good; bad] AREngine.new)
     = [false; false; false; false; true; false]
  /\ AREngine.planeConfidence
       (AREngine.run [good; good; good; good; good] AREngine.new) = 0.6
  /\ AREngine.planeConfidence
       (AREngine.run [good; good; good; good; good; bad] AREngine.new)
     = 0.5.
Proof.
  intros hit miss good bad; subst hit miss good bad.
  (* hit-test tracker *)
  assert (L0 : WebXREngine.live WebXREngine.started) by (split; reflexivity).
  assert (C0 : WebXREngine.planeConfidence WebXREngine.started = 0)
    by reflexivity.
  destruct (hit_from _ 0 L0 C0 ltac:(lra)) as (L1 & C1 & T1).
  destruct (hit_from _ _ L1 C1 ltac:(lra)) as (L2 & C2 & T2).
  destruct (hit_from _ _ L2 C2 ltac:(lra)) as (L3 & C3 & T3).
  destruct (hit_from _ _ L3 C3 ltac:(lra)) as (L4 & C4 & T4).
  destruct (HitTestDetection.processFrame_miss _ _ L4 miss_sampleMiss)
    as [C5 T5].
  (* visual tracker *)
  pose proof VisualSample.first_sample_frame as F.
  assert (S1 : AREngine.steady
                 (fst (AREngine.processFrame AREngine.sampleVideo
                         AREngine.new)))
    by (rewrite F; apply VisualSample.steady_sampleEngine).
  assert (D1 : AREngine.planeConfidence
                 (fst (AREngine.processFrame AREngine.sampleVideo
                         AREngine.new)) = 0)
    by (rewrite F; reflexivity).
  assert (U1 : isTracking
                 (snd (AREngine.processFrame AREngine.sampleVideo
                         AREngine.new)) = false)
    by (rewrite F; reflexivity).
  destruct (detect_from _ 0 S1 D1 ltac:(lra)) as (S2 & D2 & U2).
  destruct (detect_from _ _ S2 D2 ltac:(lra)) as (S3 & D3 & U3).
  destruct (detect_from _ _ S3 D3 ltac:(lra)) as (S4 & D4 & U4).
  destruct (detect_from _ _ S4 D4 ltac:(lra)) as (S5 & D5 & U5).
  destruct (VisualDetection.processFrame_failed _ _
              (VisualSample.steady_failed _ S5)) as [D6 U6].
  assert (G : forall c, c <= 0.5 -> (c >? 0.5) = false)
    by (intros; now apply gtb_false).
  assert (G' : forall c, 0.5 < c -> (c >? 0.5) = true)
    by (intros; now apply gtb_true).
  rewrite G in T1, T2, T3, U2, U3, U4 by lra.
  rewrite G' in T4, U5 by lra.
  cbn [WebXREngine.results WebXREngine.run AREngine.results AREngine.run
       fold_left map].
  rewrite T1, T2, T3, T4, T5, C5, C4, U1, U2, U3, U4, U5, U6, D6, D5.
  repeat split; try reflexivity; try lra; eval_confidence.
Qed.

(** C2 (amended).  Once the plane confidence has reached at least 0.6, a
    single failed tick lowers it by 0.10 to a value that is still at least
    0.5.  The failed tick itself reports [isTracking = false]; the tick
    after it, when its detection succeeds, reports [isTracking = true]
    again.  This holds for the visual and for the hit-test tracker. *)
Theorem single_failure_recovers
  (ev : AREngine.t) (v1 v2 : AREngine.Video)
  (ex : WebXREngine.t) (f1 f2 : WebXREngine.XRFrame) :
  0.6 <= AREngine.planeConfidence ev ->
  AREngine.failedFrame v1 ev ->
  AREngine.detectedFrame v2 (fst (AREngine.processFrame v1 ev)) ->
  AREngine.doubleAtThrows v2 = false ->
  WebXREngine.live ex ->
  0.6 <= WebXREngine.planeConfidence ex ->
  WebXREngine.missFrame f1 ->
  WebXREngine.hitFrame f2 ->
  let rv1 := AREngine.processFrame v1 ev in
  let rv2 := AREngine.processFrame v2 (fst rv1) in
  let rx1 := WebXREngine.processFrame (Some f1) ex in
  let rx2 := WebXREngine.processFrame (Some f2) (fst rx1) in
  (isTracking (snd rv1) = false
   /\ AREngine.planeConfidence (fst rv1) = AREngine.planeConfidence ev - 0.1
   /\ 0.5 <= AREngine.planeConfidence (fst rv1)
   /\ isTracking (snd rv2) = true)
  /\ (isTracking (snd rx1) = false
      /\ WebXREngine.planeConfidence (fst rx1)
         = WebXREngine.planeConfidence ex - 0.1
      /\ 0.5 <= WebXREngine.planeConfidence (fst rx1)
      /\ isTracking (snd rx2) = true).
Proof.
  intros Hcv Hfail Hdet Hthrow Hlive Hcx Hmiss Hhit rv1 rv2 rx1 rx2.
  destruct (VisualDetection.processFrame_failed v1 ev Hfail) as [Hc1 Ht1].
  destruct (VisualDetection.processFrame_detected v2 _ Hdet) as [_ Ht2].
  destruct (HitTestDetection.processFrame_miss f1 ex Hlive Hmiss)
    as [Hd1 Hu1].
  destruct (HitTestDetection.processFrame_hit f2 _
              (HitTestDetection.live_processFrame (Some f1) ex Hlive) Hhit)
    as [_ Hu2].
  fold rv1 in Hc1, Ht1, Ht2. fold rv2 in Ht2.
  fold rx1 in Hd1, Hu1, Hu2. fold rx2 in Hu2.
  assert (Ev : JSMath.max 0 (AREngine.planeConfidence ev - 0.1)
               = AREngine.planeConfidence ev - 0.1) by eval_confidence.
  assert (Ex : JSMath.max 0 (WebXREngine.planeConfidence ex - 0.1)
               = WebXREngine.planeConfidence ex - 0.1) by eval_confidence.
  rewrite Ev in Hc1. rewrite Ex in Hd1.
  split; (split; [assumption|]; split; [assumption|]; split; [lra|]).
  - rewrite Ht2, Hthrow, Hc1, andb_true_r. apply gtb_true. eval_confidence.
  - rewrite Hu2, Hd1. apply gtb_true. eval_confidence.
Qed.

Lemma single_failure_recovers_witness :
  let ev := AREngine.sampleEngine 0.6 in
  let ex := fst (WebXREngine.processFrame (Some WebXREngine.sampleHit)
                   (WebXREngine.set_planeConfidence 0.45
                      WebXREngine.started)) in
  let rv1 := AREngine.processFrame AREngine.sampleVideoRejected ev in
  let rv2 := AREngine.processFrame AREngine.sampleVideo (fst rv1) in
  let rx1 := WebXREngine.processFrame (Some WebXREngine.sampleMiss) ex in
  let rx2 := WebXREngine.processFrame (Some WebXREngine.sampleHit)
               (fst rx1) in
  (isTracking (snd rv1) = false
   /\ AREngine.planeConfidence (fst rv1) = AREngine.planeConfidence ev - 0.1
   /\ 0.5 <= AREngine.planeConfidence (fst rv1)
   /\ isTracking (snd rv2) = true)
  /\ (isTracking (snd rx1) = false
      /\ WebXREngine.planeConfidence (fst rx1)
         = WebXREngine.planeConfidence ex - 0.1
      /\ 0.5 <= WebXREngine.planeConfidence (fst rx1)
      /\ isTracking (snd rx2) = true).
Proof.
  intros ev ex.
  assert (Hs : AREngine.steady ev) by apply VisualSample.steady_sampleEngine.
  assert (Hl0 : WebXREngine.live
                  (WebXREngine.set_planeConfidence 0.45 WebXREngine.started))
    by (split; reflexivity).
  destruct (hit_from _ 0.45 Hl0 eq_refl ltac:(lra)) as (Hl & Hc & _).
  fold ex in Hl, Hc.
  apply (single_failure_recovers ev AREngine.sampleVideoRejected
           AREngine.sampleVideo ex WebXREngine.sampleMiss
           WebXREngine.sampleHit).
  - cbn. lra.
  - now apply VisualSample.steady_failed.
  - apply VisualSample.steady_detected, VisualSample.steady_processFrame;
      [exact Hs | exact VisualSample.sampleLike_sampleVideoRejected].
  - reflexivity.
  - exact Hl.
  - rewrite Hc. lra.
  - exact miss_sampleMiss.
  - exact hit_sampleHit.
Defined.

(** ** Placement *)

(** What [placeModel] does, for any camera and any ray caster.  It casts
    the ray through the screen center, normalized
    device coordinates (0, 0), against the plane with normal (0, 1, 0) and
    offset 0, whatever pose the tracker passed in.  With a model loaded it
    returns [true], marks the model placed and visible, puts it at the
    intersection point with [y] set to exactly 0, or at the fixed point
    (0, 0, -2) when Three.js reports no intersection (as it does for a ray
    parallel to the plane), freezes that point in [placedPosition], and
    applies the current yaw setting.  With no model loaded it returns
    [false] and leaves the scene unchanged. *)
Theorem placeModel_at_crosshair
  (Camera Model : Type)
  (setFromCamera : Vector2 -> Camera -> SceneManager.Ray)
  (intersectPlane : SceneManager.Ray -> SceneManager.Plane -> option Vector3)
  (s : SceneManager.t Camera Model) (pose pose' : option Pose) :
  let place := SceneManager.placeModel setFromCamera intersectPlane in
  let hit :=
    intersectPlane
      (setFromCamera (mkVector2 0 0) (SceneManager.camera s))
      (SceneManager.mkPlane (mkVector3 0 1 0) 0) in
  let s' := fst (place pose s) in
  (SceneManager.model s = None -> place pose s = (s, false))
  /\ (SceneManager.model s <> None ->
      snd (place pose s) = true
      /\ SceneManager.isModelPlaced s' = true
      /\ SceneManager.visible (SceneManager.modelGroup s') = true
      /\ v3y (SceneManager.objPosition (SceneManager.modelGroup s')) = 0
      /\ SceneManager.objPosition (SceneManager.modelGroup s')
         = match hit with
           | Some p => mkVector3 (v3x p) 0 (v3z p)
           | None => mkVector3 0 0 (-2)
           end
      /\ SceneManager.placedPosition s'
         = SceneManager.objPosition (SceneManager.modelGroup s')
      /\ SceneManager.objRotationY (SceneManager.modelGroup s')
         = SceneManager.modelRotation s * (PI / 180))
  /\ place pose s = place pose' s.
Proof.
  intros place hit s'. subst place hit s'. unfold SceneManager.placeModel.
  destruct (SceneManager.model s) as [m|].
  - split; [discriminate|]. split; [|reflexivity]. intros _. cbn.
    destruct (intersectPlane _ _); cbn; repeat split; reflexivity.
  - split; [reflexivity|]. split; [|reflexivity]. intros H. now elim H.
Qed.

(** With the camera where [init] puts it, at (0, 1.5, 0) looking at
    (0, 0, -3), the model lands at (0, 0, -3) with yaw 45 degrees. *)
Lemma placeModel_at_crosshair_witness :
  let s := SceneManager.sampleScene (mkVector3 0 0 (-3)) 45 in
  let place := SceneManager.placeModel SceneManager.centerRay
                 SceneManager.sampleIntersectPlane in
  SceneManager.model s <> None
  /\ snd (place None s) = true
  /\ SceneManager.objPosition (SceneManager.modelGroup (fst (place None s)))
     = mkVector3 0 0 (-3)
  /\ SceneManager.objRotationY (SceneManager.modelGroup (fst (place None s)))
     = 45 * (PI / 180).
Proof.
  intros s place.
  assert (Hm : SceneManager.model s <> None) by discriminate.
  destruct (placeModel_at_crosshair _ _ SceneManager.centerRay
              SceneManager.sampleIntersectPlane s None None)
    as (_ & Hplaced & _).
  destruct (Hplaced Hm) as (Hok & _ & _ & _ & Hpos & _ & Hrot).
  split; [exact Hm|]. split; [exact Hok|]. split; [|exact Hrot].
  fold place in Hpos. rewrite Hpos.
  unfold SceneManager.sampleIntersectPlane, SceneManager.centerRay,
    SceneManager.dot; cbn.
  destruct (Req_dec_T _ 0) as [H0|H0]; [exfalso; lra|].
  replace (- (0 * 0 + 1.5 * 1 + 0 * 0 + 0)
           / (0 * (0 - 0) + 1 * (0 - 1.5) + 0 * (-3 - 0)))
    with 1 by (field; lra).
  replace (1 >=? 0) with true by (symmetry; apply geb_true; lra).
  cbn. f_equal; ring.
Defined.

(** A camera looking along the ground plane: the ray is parallel to the
    plane and the model goes to the fallback point (0, 0, -2). *)
Lemma placeModel_parallel_fallback :
  let s := SceneManager.sampleScene (mkVector3 0 1.5 (-3)) 0 in
  SceneManager.objPosition
    (SceneManager.modelGroup
       (fst (SceneManager.placeModel SceneManager.centerRay
               SceneManager.sampleIntersectPlane None s)))
  = mkVector3 0 0 (-2).
Proof.
  cbn. unfold SceneManager.placeModel; cbn.
  unfold SceneManager.sampleIntersectPlane, SceneManager.centerRay,
    SceneManager.dot; cbn.
  destruct (Req_dec_T _ 0) as [H0|H0]; [|exfalso; apply H0; ring].
  destruct (Req_dec_T _ 0) as [H1|H1]; [exfalso; lra|]. reflexivity.
Qed.

(** C9.  The fallback of [placeModel] is announced as a place in front of
    the camera, and it is the fixed world point (0, 0, -2).  Once the
    WebXR loop has moved the camera to a viewer who has walked five metres
    forward and looks level, the ray through the screen center is
    parallel to the ground, Three.js reports no intersection, and
    [placeModel] returns [true] with the model at (0, 0, -2): three metres
    behind the camera, not ahead of it. *)
Theorem placeModel_fallback_behind_camera (pose : option Pose) :
  let s := SceneManager.walkedScene 0 in
  let place := SceneManager.placeModel SceneManager.centerRay
                 SceneManager.sampleIntersectPlane in
  let s' := fst (place pose s) in
  SceneManager.sampleIntersectPlane
    (SceneManager.centerRay (mkVector2 0 0) (SceneManager.camera s))
    (SceneManager.mkPlane (mkVector3 0 1 0) 0) = None
  /\ snd (place pose s) = true
  /\ SceneManager.isModelPlaced s' = true
  /\ SceneManager.objPosition (SceneManager.modelGroup s')
     = mkVector3 0 0 (-2)
  /\ SceneManager.dot
       (SceneManager.direction
          (SceneManager.centerRay (mkVector2 0 0) (SceneManager.camera s)))
       (mkVector3 (0 - 0) (0 - 1.5) (-2 - -5)) = -3
  /\ ~ SceneManager.ahead (SceneManager.camera s)
         (SceneManager.objPosition (SceneManager.modelGroup s')).
Proof.
  intros s place s'.
  assert (Hnone : SceneManager.sampleIntersectPlane
                    (SceneManager.centerRay (mkVector2 0 0)
                       (SceneManager.camera s))
                    (SceneManager.mkPlane (mkVector3 0 1 0) 0) = None).
  { unfold SceneManager.sampleIntersectPlane, SceneManager.centerRay,
      SceneManager.dot; cbn.
    destruct (Req_dec_T _ 0) as [H0|H0]; [|exfalso; apply H0; ring].
    destruct (Req_dec_T _ 0) as [H1|H1]; [exfalso; lra|]. reflexivity. }
  assert (Hpos : SceneManager.objPosition (SceneManager.modelGroup s')
                 = mkVector3 0 0 (-2)).
  { unfold s', place, SceneManager.placeModel.
    cbn [SceneManager.model s SceneManager.walkedScene].
    rewrite Hnone. reflexivity. }
  split; [exact Hnone|]. split; [reflexivity|]. split; [reflexivity|].
  split; [exact Hpos|]. split.
  - unfold SceneManager.centerRay, SceneManager.dot; cbn. ring.
  - unfold SceneManager.ahead. rewrite Hpos.
    unfold SceneManager.centerRay, SceneManager.dot; cbn. lra.
Qed.

(** ** Geodesic math *)

Module Geodesy.
Import ARLocationEngine.

(** [3.1415 < PI < 3.1421], from the series for [2 atan(1/3) + atan(1/7)]. *)
Lemma PI_bounds : 3.1415 < PI < 3.1421.
Proof.
  pose proof (PI_2_3_7_ineq 1) as [Hl Hu].
  unfold sum_f_R0, tg_alt, PI_2_3_7_tg, Ratan_seq in Hl, Hu.
  simpl in Hl, Hu.
  split; lra.
Qed.

Lemma atan_nonneg (t : R) : 0 <= t -> 0 <= atan t.
Proof.
  intros [Ht| <-]; [|rewrite atan_0; lra].
  rewrite <- atan_0. left. now apply atan_increasing.
Qed.

Lemma atan_nonpos (t : R) : t <= 0 -> atan t <= 0.
Proof.
  intros [Ht| ->]; [|rewrite atan_0; lra].
  rewrite <- atan_0. left. now apply atan_increasing.
Qed.

(** [Math.atan2] of two non-negative numbers lies in [0, PI/2]. *)
Lemma atan2_quadrant1 (y x : R) :
  0 <= y -> 0 <= x -> 0 <= JSMath.atan2 y x <= PI / 2.
Proof.
  intros Hy Hx. unfold JSMath.atan2. pose proof PI_RGT_0 as Hpi.
  destruct (Rlt_dec 0 x) as [Hx0|Hx0].
  - destruct (atan_bound (y / x)) as [_ Hub].
    split; [|lra]. apply atan_nonneg.
    apply Rmult_le_pos; [exact Hy|]. left. now apply Rinv_0_lt_compat.
  - destruct (Rlt_dec x 0); [lra|].
    destruct (Rlt_dec 0 y); [lra|]. destruct (Rlt_dec y 0); lra.
Qed.

(** [Math.atan2] answers an angle in (-PI, PI]. *)
Lemma atan2_range (y x : R) : - PI < JSMath.atan2 y x <= PI.
Proof.
  unfold JSMath.atan2. pose proof PI_RGT_0 as Hpi.
  destruct (atan_bound (y / x)) as [Hlb Hub].
  destruct (Rlt_dec 0 x) as [Hx0|Hx0]; [lra|].
  destruct (Rlt_dec x 0) as [Hx1|Hx1].
  - destruct (Rle_dec 0 y) as [Hy|Hy].
    + assert (atan (y / x) <= 0); [|lra].
      apply atan_nonpos.
      replace (y / x) with (- (y * / - x)) by (field; lra).
      apply Ropp_le_cancel. rewrite Ropp_involutive, Ropp_0.
      apply Rmult_le_pos; [exact Hy|].
      left. apply Rinv_0_lt_compat. lra.
    + assert (0 < atan (y / x)); [|lra].
      rewrite <- atan_0. apply atan_increasing.
      replace (y / x) with ((- y) / (- x)) by (field; lra).
      apply Rdiv_lt_0_compat; lra.
  - destruct (Rlt_dec 0 y); [lra|]. destruct (Rlt_dec y 0); lra.
Qed.

(** The remainder of a non-negative number by a positive one. *)
Lemma rem_range (a b : R) : 0 <= a -> 0 < b -> 0 <= JSMath.rem a b < b.
Proof.
  intros Ha Hb. unfold JSMath.rem, JSMath.trunc.
  assert (Hq : 0 <= a / b).
  { apply Rmult_le_pos; [lra|]. left. now apply Rinv_0_lt_compat. }
  destruct (Rle_dec 0 (a / b)); [|lra].
  destruct (base_Int_part (a / b)) as [H1 H2].
  assert (Hab : a = b * (a / b)) by (field; lra).
  assert (b * IZR (Int_part (a / b)) <= b * (a / b))
    by (apply Rmult_le_compat_l; lra).
  assert (b * (a / b - 1) < b * IZR (Int_part (a / b)))
    by (apply Rmult_lt_compat_l; lra).
  split; lra.
Qed.

(** The remainder when the quotient is known to lie in [k, k + 1). *)
Lemma rem_quotient (a b : R) (k : Z) :
  0 < b -> 0 <= a -> IZR k * b <= a < (IZR k + 1) * b ->
  JSMath.rem a b = a - b * IZR k.
Proof.
  intros Hb Ha [Hlo Hhi]. unfold JSMath.rem, JSMath.trunc.
  assert (Hq : 0 <= a / b).
  { apply Rmult_le_pos; [lra|]. left. now apply Rinv_0_lt_compat. }
  destruct (Rle_dec 0 (a / b)); [|lra].
  rewrite <- (Int_part_spec (a / b) k); [reflexivity|].
  assert (Hinv : 0 < / b) by now apply Rinv_0_lt_compat.
  assert (E1 : IZR k = IZR k * b / b) by (field; lra).
  assert (E2 : IZR k + 1 = (IZR k + 1) * b / b) by (field; lra).
  split.
  - apply (Rmult_lt_compat_r (/ b)) in Hhi; [|exact Hinv].
    unfold Rdiv in *. lra.
  - apply (Rmult_le_compat_r (/ b)) in Hlo; [|lra].
    unfold Rdiv in *. lra.
Qed.

Lemma atan2_sin_cos (h : R) :
  0 <= h < PI / 2 -> JSMath.atan2 (sin h) (cos h) = h.
Proof.
  intros [H0 H1]. unfold JSMath.atan2.
  assert (Hc : 0 < cos h) by (apply cos_gt_0; lra).
  destruct (Rlt_dec 0 (cos h)); [|lra].
  change (sin h / cos h) with (tan h). apply atan_tan. lra.
Qed.

(** The central angle when the haversine term is [sin h * sin h] for a
    half-angle [h] in [0, PI/2). *)
Lemma central_angle (a h : R) :
  0 <= h < PI / 2 -> a = sin h * sin h ->
  2 * JSMath.atan2 (sqrt a) (sqrt (1 - a)) = 2 * h.
Proof.
  intros Hh ->.
  assert (Hs : 0 <= sin h) by (apply sin_ge_0; lra).
  assert (Hc : 0 < cos h) by (apply cos_gt_0; lra).
  rewrite sqrt_square by exact Hs.
  replace (1 - sin h * sin h) with (cos h * cos h).
  2:{ pose proof (sin2_cos2 h) as E. unfold Rsqr in E. lra. }
  rewrite sqrt_square by lra. now rewrite atan2_sin_cos.
Qed.

(** For latitudes in [-90, 90] the haversine term lies in [0, 1], so both
    square roots of [calculateDistance] are taken of non-negative
    numbers. *)
Lemma haversine_range (lat1 lon1 lat2 lon2 : R) :
  -90 <= lat1 <= 90 -> -90 <= lat2 <= 90 ->
  0 <= haversine lat1 lon1 lat2 lon2 <= 1.
Proof.
  intros H1 H2. unfold haversine. pose proof PI_RGT_0 as Hpi.
  set (p1 := lat1 * PI / 180). set (p2 := lat2 * PI / 180).
  set (dl := (lon2 - lon1) * PI / 180 / 2).
  replace ((lat2 - lat1) * PI / 180 / 2) with ((p2 - p1) / 2)
    by (unfold p1, p2; field).
  assert (Hc1 : 0 <= cos p1) by (apply cos_ge_0; unfold p1; nra).
  assert (Hc2 : 0 <= cos p2) by (apply cos_ge_0; unfold p2; nra).
  assert (Hcc : 0 <= cos p1 * cos p2) by now apply Rmult_le_pos.
  assert (Hs : 0 <= sin dl * sin dl <= 1).
  { destruct (SIN_bound dl). split; nra. }
  assert (Hd : sin ((p2 - p1) / 2) * sin ((p2 - p1) / 2)
               = (1 - cos (p2 - p1)) / 2).
  { pose proof (cos_2a_sin ((p2 - p1) / 2)) as E.
    replace (2 * ((p2 - p1) / 2)) with (p2 - p1) in E by field. lra. }
  assert (Hsq : 0 <= sin ((p2 - p1) / 2) * sin ((p2 - p1) / 2))
    by apply Rle_0_sqr.
  rewrite Rmult_assoc.
  split; [nra|].
  assert (Hb : cos p1 * cos p2 * (sin dl * sin dl) <= cos p1 * cos p2)
    by nra.
  rewrite Hd, cos_minus.
  pose proof (cos_plus p2 p1) as Ep. destruct (COS_bound (p2 + p1)). lra.
Qed.

Lemma calculateDistance_nonneg (lat1 lon1 lat2 lon2 : R) :
  0 <= calculateDistance lat1 lon1 lat2 lon2.
Proof.
  unfold calculateDistance.
  destruct (atan2_quadrant1 (sqrt (haversine lat1 lon1 lat2 lon2))
              (sqrt (1 - haversine lat1 lon1 lat2 lon2))
              (sqrt_pos _) (sqrt_pos _)) as [H0 _].
  apply Rmult_le_pos; lra.
Qed.

Lemma calculateDistance_same (lat lon : R) :
  calculateDistance lat lon lat lon = 0.
Proof.
  unfold calculateDistance.
  rewrite (central_angle _ 0).
  - ring.
  - pose proof PI_RGT_0. lra.
  - unfold haversine.
    replace ((lat - lat) * PI / 180 / 2) with 0 by field.
    replace ((lon - lon) * PI / 180 / 2) with 0 by field.
    rewrite sin_0. ring.
Qed.

Lemma distance_equator_one_degree :
  calculateDistance 0 0 0 1 = 6371e3 * (PI / 180).
Proof.
  unfold calculateDistance.
  rewrite (central_angle _ (PI / 360)).
  - field.
  - pose proof PI_RGT_0. lra.
  - unfold haversine.
    replace ((0 - 0) * PI / 180 / 2) with 0 by field.
    replace (0 * PI / 180) with 0 by field.
    replace ((1 - 0) * PI / 180 / 2) with (PI / 360) by field.
    rewrite sin_0, cos_0. ring.
Qed.

End Geodesy.

(** ** The haversine distance near the antipodes, over binary64 *)

Section DistanceBinary64.
Import PrimFloat.
Local Open Scope float_scope.
Local Set Warnings "-inexact-float".

(** C5.  [calculateDistance(-12, -180, 12, 0)] over binary64.  Both
    points pass the range checks.  With the sine and cosine of 12 degrees
    and the sine of 90 degrees rounded to binary64, the haversine term
    comes out as 1.0000000000000002, above 1; [Math.sqrt(1 - a)] is then
    [NaN] and so is the distance: the call does not return a value
    [>= 0]. *)
Theorem calculateDistance64_nan_near_antipodes (m : ARLocationEngine64.Libm) :
  ARLocationEngine64.Math_sin m 0.20943951023931953 = 0.20791169081775931 ->
  ARLocationEngine64.Math_cos m (-0.20943951023931953) = 0.9781476007338057 ->
  ARLocationEngine64.Math_cos m 0.20943951023931953 = 0.9781476007338057 ->
  ARLocationEngine64.Math_sin m 1.5707963267948966 = 1 ->
  (forall y, ARLocationEngine64.Math_atan2 m y nan = nan) ->
  ARLocationEngine64.validCoordinates (-12) (-180) = true
  /\ ARLocationEngine64.validCoordinates 12 0 = true
  /\ ARLocationEngine64.haversine m (-12) (-180) 12 0 = 1.0000000000000002
  /\ (1 <? ARLocationEngine64.haversine m (-12) (-180) 12 0) = true
  /\ ARLocationEngine64.calculateDistance m (-12) (-180) 12 0 = nan
  /\ (0 <=? ARLocationEngine64.calculateDistance m (-12) (-180) 12 0) = false.
Proof.
  intros Hs12 Hcm Hc12 Hs90 Hatan.
  assert (Ha : ARLocationEngine64.haversine m (-12) (-180) 12 0
               = 1.0000000000000002).
  { unfold ARLocationEngine64.haversine.
    change ((12 - -12) * ARLocationEngine64.Math_PI / 180 / 2)
      with 0.20943951023931953.
    change (-12 * ARLocationEngine64.Math_PI / 180)
      with (-0.20943951023931953).
    change (12 * ARLocationEngine64.Math_PI / 180)
      with 0.20943951023931953.
    change ((0 - -180) * ARLocationEngine64.Math_PI / 180 / 2)
      with 1.5707963267948966.
    rewrite Hs12, Hcm, Hc12, Hs90. reflexivity. }
  assert (Hd : ARLocationEngine64.calculateDistance m (-12) (-180) 12 0
               = nan).
  { change (ARLocationEngine64.calculateDistance m (-12) (-180) 12 0)
      with (6371e3
            * (2 * ARLocationEngine64.Math_atan2 m
                     (sqrt (ARLocationEngine64.haversine m (-12) (-180) 12 0))
                     (sqrt (1 - ARLocationEngine64.haversine m
                                  (-12) (-180) 12 0)))).
    rewrite Ha.
    change (sqrt (1 - 1.0000000000000002)) with nan.
    rewrite Hatan. reflexivity. }
  rewrite Ha, Hd. repeat split; reflexivity.
Qed.

Lemma calculateDistance64_nan_near_antipodes_witness :
  let m := ARLocationEngine64.sampleLibm in
  ARLocationEngine64.Math_sin m 0.20943951023931953 = 0.20791169081775931
  /\ ARLocationEngine64.Math_cos m (-0.20943951023931953)
     = 0.9781476007338057
  /\ ARLocationEngine64.Math_cos m 0.20943951023931953 = 0.9781476007338057
  /\ ARLocationEngine64.Math_sin m 1.5707963267948966 = 1
  /\ (forall y, ARLocationEngine64.Math_atan2 m y nan = nan)
  /\ ARLocationEngine64.calculateDistance m (-12) (-180) 12 0 = nan
  /\ (0 <=? ARLocationEngine64.calculateDistance m (-12) (-180) 12 0) = false.
Proof.
  intros m.
  assert (H1 : ARLocationEngine64.Math_sin m 0.20943951023931953
               = 0.20791169081775931) by reflexivity.
  assert (H2 : ARLocationEngine64.Math_cos m (-0.20943951023931953)
               = 0.9781476007338057) by reflexivity.
  assert (H3 : ARLocationEngine64.Math_cos m 0.20943951023931953
               = 0.9781476007338057) by reflexivity.
  assert (H4 : ARLocationEngine64.Math_sin m 1.5707963267948966 = 1)
    by reflexivity.
  assert (H5 : forall y, ARLocationEngine64.Math_atan2 m y nan = nan)
    by reflexivity.
  destruct (calculateDistance64_nan_near_antipodes m H1 H2 H3 H4 H5)
    as (_ & _ & _ & _ & Hd & Hle).
  repeat split; assumption.
Defined.

End DistanceBinary64.

Module Bearing.
Import ARLocationEngine.

Lemma calculateBearing_range (lat1 lon1 lat2 lon2 : R) :
  0 <= calculateBearing lat1 lon1 lat2 lon2 < 360.
Proof.
  unfold calculateBearing. apply Geodesy.rem_range; [|lra].
  match goal with |- context [JSMath.atan2 ?y ?x] =>
    destruct (Geodesy.atan2_range y x) as [Hlo Hhi];
    set (theta := JSMath.atan2 y x) in *
  end.
  pose proof PI_RGT_0 as Hpi.
  assert (- 180 <= theta * 180 / PI); [|lra].
  apply (Rmult_le_reg_r PI); [exact Hpi|].
  replace (theta * 180 / PI * PI) with (theta * 180) by (field; lra).
  lra.
Qed.

(** Target due north on the same meridian: [atan2(0, x)] with [x > 0]. *)
Lemma bearing_of_north (y x : R) :
  y = 0 -> 0 < x ->
  JSMath.rem (JSMath.atan2 y x * 180 / PI + 360) 360 = 0.
Proof.
  intros -> Hx. unfold JSMath.atan2.
  destruct (Rlt_dec 0 x); [|lra].
  unfold Rdiv at 2. rewrite Rmult_0_l, atan_0.
  replace (0 * 180 / PI + 360) with 360
    by (field; apply Rgt_not_eq, PI_RGT_0).
  rewrite (Geodesy.rem_quotient 360 360 1); lra.
Qed.

(** Target due east on the equator: [atan2(y, 0)] with [y > 0]. *)
Lemma bearing_of_east (y x : R) :
  0 < y -> x = 0 ->
  JSMath.rem (JSMath.atan2 y x * 180 / PI + 360) 360 = 90.
Proof.
  intros Hy ->. unfold JSMath.atan2.
  destruct (Rlt_dec 0 0); [lra|]. destruct (Rlt_dec 0 y); [|lra].
  replace (PI / 2 * 180 / PI + 360) with 450
    by (field; apply Rgt_not_eq, PI_RGT_0).
  rewrite (Geodesy.rem_quotient 450 360 1); lra.
Qed.

Lemma sin_small_pos (d : R) : 0 < d <= 1 -> 0 < sin (d * PI / 180).
Proof.
  intros [H0 H1]. pose proof PI_RGT_0 as Hpi.
  apply sin_gt_0; nra.
Qed.

Lemma bearing_north : calculateBearing 0 0 1 0 = 0.
Proof.
  unfold calculateBearing. apply bearing_of_north.
  - replace ((0 - 0) * PI / 180) with 0 by field. rewrite sin_0. ring.
  - replace ((0 - 0) * PI / 180) with 0 by field.
    replace (0 * PI / 180) with 0 by field.
    rewrite sin_0, cos_0.
    pose proof (sin_small_pos 1 ltac:(lra)). lra.
Qed.

Lemma bearing_east : calculateBearing 0 0 0 1 = 90.
Proof.
  unfold calculateBearing. apply bearing_of_east.
  - replace (0 * PI / 180) with 0 by field.
    replace ((1 - 0) * PI / 180) with (1 * PI / 180) by field.
    rewrite cos_0.
    pose proof (sin_small_pos 1 ltac:(lra)). lra.
  - replace (0 * PI / 180) with 0 by field.
    rewrite sin_0, cos_0. ring.
Qed.

End Bearing.

(** C6.  For all coordinates, and so for all valid ones,
    [calculateBearing] returns a value in [0, 360); the bearing from
    (0, 0) to (1, 0) is 0 degrees (due north) and the bearing from (0, 0)
    to (0, 1) is 90 degrees (due east). *)
Theorem calculateBearing_contract (lat1 lon1 lat2 lon2 : R) :
  ARLocationEngine.validCoordinates lat1 lon1 ->
  ARLocationEngine.validCoordinates lat2 lon2 ->
  0 <= ARLocationEngine.calculateBearing lat1 lon1 lat2 lon2 < 360
  /\ ARLocationEngine.calculateBearing 0 0 1 0 = 0
  /\ ARLocationEngine.calculateBearing 0 0 0 1 = 90.
Proof.
  intros _ _.
  split; [apply Bearing.calculateBearing_range|].
  split; [apply Bearing.bearing_north | apply Bearing.bearing_east].
Qed.

Lemma calculateBearing_contract_witness :
  ARLocationEngine.validCoordinates 37.0 (-122.0)
  /\ ARLocationEngine.validCoordinates (-33.9) 151.2
  /\ 0 <= ARLocationEngine.calculateBearing 37.0 (-122.0) (-33.9) 151.2 < 360
  /\ ARLocationEngine.calculateBearing 0 0 1 0 = 0
  /\ ARLocationEngine.calculateBearing 0 0 0 1 = 90.
Proof.
  assert (H1 : ARLocationEngine.validCoordinates 37.0 (-122.0))
    by (unfold ARLocationEngine.validCoordinates; lra).
  assert (H2 : ARLocationEngine.validCoordinates (-33.9) 151.2)
    by (unfold ARLocationEngine.validCoordinates; lra).
  split; [exact H1|]. split; [exact H2|].
  exact (calculateBearing_contract 37.0 (-122.0) (-33.9) 151.2 H1 H2).
Defined.

(** ** Geodetic tracker *)

Module GeodeticTracking.
Import ARLocationEngine.

(** What [updateTracking] stores when both locations are known. *)
Lemma updateTracking_fields (e : t) (cur : LocationFix)
  (tgt : TargetLocation) :
  currentLocation e = Some cur -> targetLocation e = Some tgt ->
  let d := calculateDistance (latitude cur) (longitude cur)
             (targetLatitude tgt) (targetLongitude tgt) in
  let b := calculateBearing (latitude cur) (longitude cur)
             (targetLatitude tgt) (targetLongitude tgt) in
  isTrackingField (updateTracking e)
  = (accuracy cur <=? gpsAccuracyThreshold e)
    && ((d >=? minDistance e) && (d <=? maxDistance e))
  /\ distanceField (updateTracking e) = Some d
  /\ bearingField (updateTracking e) = Some b
  /\ currentLocation (updateTracking e) = Some cur
  /\ targetLocation (updateTracking e) = Some tgt.
Proof.
  intros Hcur Htgt d b. unfold updateTracking. rewrite Hcur, Htgt.
  fold d b. cbn [isTrackingField].
  destruct ((accuracy cur <=? gpsAccuracyThreshold e)
            && ((d >=? minDistance e) && (d <=? maxDistance e))).
  - unfold updatePose. cbn. tauto.
  - cbn. tauto.
Qed.

(** The scenario of the specification: a fix at (37.0, -122.0) accurate to
    5 m, then the target (37.001, -122.0) at altitude 0. *)
Lemma scenario_distance :
  calculateDistance 37.0 (-122.0) 37.001 (-122.0)
  = 6371e3 * (0.001 * PI / 180).
Proof.
  unfold calculateDistance.
  rewrite (Geodesy.central_angle _ (0.001 * PI / 360)).
  - lra.
  - pose proof PI_RGT_0. lra.
  - unfold haversine.
    replace ((37.001 - 37.0) * PI / 180 / 2) with (0.001 * PI / 360)
      by lra.
    replace ((-122.0 - -122.0) * PI / 180 / 2) with 0 by lra.
    rewrite sin_0. ring.
Qed.

Lemma scenario_bearing : calculateBearing 37.0 (-122.0) 37.001 (-122.0) = 0.
Proof.
  unfold calculateBearing. apply Bearing.bearing_of_north.
  - replace ((-122.0 - -122.0) * PI / 180) with 0 by lra.
    rewrite sin_0. ring.
  - replace ((-122.0 - -122.0) * PI / 180) with 0 by lra.
    rewrite cos_0, Rmult_1_r.
    replace (cos (37.0 * PI / 180) * sin (37.001 * PI / 180)
             - sin (37.0 * PI / 180) * cos (37.001 * PI / 180))
      with (sin (37.001 * PI / 180 - 37.0 * PI / 180))
      by (rewrite sin_minus; ring).
    replace (37.001 * PI / 180 - 37.0 * PI / 180) with (0.001 * PI / 180)
      by lra.
    apply Bearing.sin_small_pos. lra.
Qed.

End GeodeticTracking.

(** C7.  With a current fix and a target location, and the constructor's
    thresholds, the geodetic tracker's [isTracking] is [true] exactly when
    the fix accuracy is at most 50 m and the computed distance lies
    between 5 m and 1000 m inclusive, and [processFrame] reports that
    value.  For the fix (37.0, -122.0) with accuracy 5 and the target
    (37.001, -122.0, altitude 0) it reports a distance within 0.1 m of
    111.2 m, the bearing 0 degrees and [isTracking = true]. *)
Theorem geodetic_isTracking_contract
  (e : ARLocationEngine.t) (cur : LocationFix) (tgt : TargetLocation) :
  ARLocationEngine.currentLocation e = Some cur ->
  ARLocationEngine.targetLocation e = Some tgt ->
  ARLocationEngine.gpsAccuracyThreshold e = 50 ->
  ARLocationEngine.minDistance e = 5 ->
  ARLocationEngine.maxDistance e = 1000 ->
  let d := ARLocationEngine.calculateDistance (latitude cur) (longitude cur)
             (targetLatitude tgt) (targetLongitude tgt) in
  let r := ARLocationEngine.processFrame
             (ARLocationEngine.updateTracking e) in
  let scenario :=
    ARLocationEngine.processFrame
      (ARLocationEngine.run
         [ARLocationEngine.UpdateLocation
            (mkLocationFix 37.0 (-122.0) None 5 0);
          ARLocationEngine.SetTargetLocation 37.001 (-122.0) 0]
         ARLocationEngine.new) in
  (isTracking r = true <-> accuracy cur <= 50 /\ 5 <= d <= 1000)
  /\ (exists g dist,
        gpsData scenario = Some g
        /\ distance g = Some dist /\ Rabs (dist - 111.2) < 0.1
        /\ bearing g = Some 0)
  /\ isTracking scenario = true.
Proof.
  intros Hcur Htgt Hacc Hmin Hmax d r scenario.
  split.
  - destruct (GeodeticTracking.updateTracking_fields e cur tgt Hcur Htgt)
      as (Htr & _).
    subst r. cbn [ARLocationEngine.processFrame isTracking].
    rewrite Htr, Hacc, Hmin, Hmax. fold d.
    rewrite !andb_true_iff, leb_true, geb_true, leb_true. tauto.
  - subst scenario.
    cbn [ARLocationEngine.run fold_left ARLocationEngine.step].
    set (e1 := ARLocationEngine.updateLocation _ ARLocationEngine.new).
    assert (Hc1 : ARLocationEngine.currentLocation e1
                  = Some (mkLocationFix 37.0 (-122.0) None 5 0))
      by reflexivity.
    assert (Ht1 : ARLocationEngine.gpsAccuracyThreshold e1 = 50
                  /\ ARLocationEngine.minDistance e1 = 5
                  /\ ARLocationEngine.maxDistance e1 = 1000)
      by (repeat split).
    destruct Ht1 as (Ha1 & Hm1 & HM1).
    unfold ARLocationEngine.setTargetLocation.
    match goal with |- context [ARLocationEngine.updateTracking ?x] =>
      set (e2 := x) end.
    destruct (GeodeticTracking.updateTracking_fields e2 _ _ Hc1 eq_refl)
      as (Htr & Hd & Hb & _).
    cbn [latitude longitude targetLatitude targetLongitude accuracy] in *.
    rewrite GeodeticTracking.scenario_distance in Htr, Hd.
    rewrite GeodeticTracking.scenario_bearing in Hb.
    pose proof Geodesy.PI_bounds as [Hl Hu].
    split.
    + eexists. eexists. cbn [ARLocationEngine.processFrame gpsData].
      split; [reflexivity|]. cbn [distance bearing].
      split; [exact Hd|]. split; [|exact Hb].
      apply Rabs_def1; lra.
    + cbn [ARLocationEngine.processFrame isTracking]. rewrite Htr.
      change (ARLocationEngine.gpsAccuracyThreshold e2) with 50.
      change (ARLocationEngine.minDistance e2) with 5.
      change (ARLocationEngine.maxDistance e2) with 1000.
      rewrite !andb_true_iff, leb_true, geb_true, leb_true. lra.
Qed.

Lemma geodetic_isTracking_contract_witness :
  let cur := mkLocationFix 37.0 (-122.0) None 5 0 in
  let tgt := mkTargetLocation 37.001 (-122.0) 0 in
  let e := ARLocationEngine.mk true true false (Some cur) (Some tgt)
             (mkOrientation 0 0 0) None None None 50 5 1000 in
  let d := ARLocationEngine.calculateDistance 37.0 (-122.0)
             37.001 (-122.0) in
  let r := ARLocationEngine.processFrame
             (ARLocationEngine.updateTracking e) in
  isTracking r = true <-> 5 <= 50 /\ 5 <= d <= 1000.
Proof.
  intros cur tgt e d r.
  exact (proj1 (geodetic_isTracking_contract e cur tgt
                  eq_refl eq_refl eq_refl eq_refl eq_refl)).
Defined.

(** ** Pose smoothing and the per-frame loops *)

Module Smoothing.

(** The first [filter(z)] call of a fresh filter returns
    [(1 + Q) / (1 + Q + R) * z]. *)
Lemma first_filter (q r z : R) :
  1 + q + r <> 0 ->
  snd (KalmanFilter.filter z (KalmanFilter.new q r))
  = (1 + q) / (1 + q + r) * z.
Proof.
  intros H. unfold KalmanFilter.filter, KalmanFilter.update,
    KalmanFilter.predict, KalmanFilter.new; cbn. field. exact H.
Qed.

(** The pose the geodetic tracker holds in the scenario: the target lies
    straight ahead, [distance] metres along -z. *)
Lemma scenario_pose :
  let e := ARLocationEngine.run
             [ARLocationEngine.UpdateLocation
                (mkLocationFix 37.0 (-122.0) None 5 0);
              ARLocationEngine.SetTargetLocation 37.001 (-122.0) 0]
             ARLocationEngine.new in
  exists p,
    ARLocationEngine.currentPose e = Some p
    /\ v3z (position p) = - (6371e3 * (0.001 * PI / 180)).
Proof.
  cbn [ARLocationEngine.run fold_left ARLocationEngine.step].
  set (e1 := ARLocationEngine.updateLocation _ ARLocationEngine.new).
  assert (Hc1 : ARLocationEngine.currentLocation e1
                = Some (mkLocationFix 37.0 (-122.0) None 5 0))
    by reflexivity.
  unfold ARLocationEngine.setTargetLocation.
  match goal with |- context [ARLocationEngine.updateTracking ?x] =>
    set (e2 := x) end.
  pose proof Geodesy.PI_bounds as [Hl Hu].
  unfold ARLocationEngine.updateTracking.
  change (ARLocationEngine.currentLocation e2)
    with (Some (mkLocationFix 37.0 (-122.0) None 5 0)).
  change (ARLocationEngine.targetLocation e2)
    with (Some (mkTargetLocation 37.001 (-122.0) 0)).
  cbn [latitude longitude targetLatitude targetLongitude accuracy
       ARLocationEngine.isTrackingField].
  rewrite GeodeticTracking.scenario_distance,
    GeodeticTracking.scenario_bearing.
  change (ARLocationEngine.gpsAccuracyThreshold e2) with 50.
  change (ARLocationEngine.minDistance e2) with 5.
  change (ARLocationEngine.maxDistance e2) with 1000.
  replace (5 <=? 50) with true by (symmetry; apply leb_true; lra).
  replace (6371e3 * (0.001 * PI / 180) >=? 5) with true
    by (symmetry; apply geb_true; lra).
  replace (6371e3 * (0.001 * PI / 180) <=? 1000) with true
    by (symmetry; apply leb_true; lra).
  cbn [andb]. unfold ARLocationEngine.updatePose.
  cbn [ARLocationEngine.currentLocation ARLocationEngine.targetLocation
       ARLocationEngine.distanceField ARLocationEngine.bearingField
       ARLocationEngine.currentPose ARLocationEngine.deviceOrientation].
  change (ARLocationEngine.deviceOrientation e2) with (mkOrientation 0 0 0).
  eexists. split; [reflexivity|]. cbn [position v3z alpha].
  replace (0 - 0 + 360) with 360 by ring.
  rewrite (Geodesy.rem_quotient 360 360 1) by lra.
  replace ((360 - 360 * 1) * PI / 180) with 0 by field.
  rewrite cos_0. ring.
Qed.

End Smoothing.

(** ** The per-frame loops *)

Module LoopFacts.
Import App.

(** Nothing is attempted that the statements do not contain. *)
Lemma attempt_incl (stmts : list Effect) (c : Effect) :
  In c (fst (attempt stmts)) -> In c stmts.
Proof.
  induction stmts as [|d ds IH]; cbn [attempt]; [intros []|].
  destruct (throws d).
  - intros [<-|[]]. now left.
  - destruct (attempt ds) as [done threw]. cbn [fst] in *.
    intros [<-|Hin]; [now left | right; auto].
Qed.

(** The statements up to the first throwing one are all attempted. *)
Lemma attempt_no_throw (stmts : list Effect) :
  Forall (fun c => throws c = false) stmts ->
  attempt stmts = (stmts, false).
Proof.
  induction 1 as [|c cs Hc _ IH]; cbn [attempt]; [reflexivity|].
  now rewrite Hc, IH.
Qed.

(** [updateModelPose] throws exactly on the poses [throws] says. *)
Lemma throws_updateModelPose
  (Camera Model : Type)
  (setFromCamera : Vector2 -> Camera -> SceneManager.Ray)
  (intersectPlane : SceneManager.Ray -> SceneManager.Plane -> option Vector3)
  (s : SceneManager.t Camera Model) (p : option Pose) :
  throws (UpdateModelPose p) = true
  <-> snd (SceneManager.updateModelPose setFromCamera intersectPlane p s)
      = Throws.
Proof.
  unfold SceneManager.updateModelPose. destruct p as [p|]; cbn [throws].
  - destruct (planeCenter p); [|tauto].
    repeat break_match; cbn; split; discriminate.
  - split; discriminate.
Qed.

(** A tick of the location loop on a tracker with a pose: the call of
    [updateCameraPose] with that pose throws, and the exception leaves
    the loop before it renders or schedules itself. *)
Lemma startLocationLoop_pose (app : t) (e : ARLocationEngine.t) (p : Pose) :
  isInitialized app = true ->
  ARLocationEngine.currentPose e = Some p ->
  startLocationLoop app e = [UpdateCameraPose (Some p); Uncaught].
Proof.
  intros Hi Hp. unfold startLocationLoop, ARLocationEngine.processFrame.
  rewrite Hi. cbn [negb pose]. rewrite Hp. reflexivity.
Qed.

Lemma startLocationLoop_no_pose (app : t) (e : ARLocationEngine.t) :
  isInitialized app = true ->
  ARLocationEngine.currentPose e = None ->
  startLocationLoop app e = [Render; RequestAnimationFrame].
Proof.
  intros Hi Hp. unfold startLocationLoop, ARLocationEngine.processFrame.
  rewrite Hi. cbn [negb pose]. rewrite Hp. reflexivity.
Qed.

End LoopFacts.

(** Counterexample to C4 as stated.  In the scenario of the geodetic
    tracker the only pose the location loop passes on is the tracker's
    own pose, as the argument of [updateCameraPose], while a fresh
    smoothing bank would have turned its [z] coordinate into a different
    number. *)
Lemma location_pose_handed_unfiltered :
  let e := ARLocationEngine.run
             [ARLocationEngine.UpdateLocation
                (mkLocationFix 37.0 (-122.0) None 5 0);
              ARLocationEngine.SetTargetLocation 37.001 (-122.0) 0]
             ARLocationEngine.new in
  exists p q,
    ARLocationEngine.currentPose e = Some p
    /\ App.startLocationLoop (App.mk true true false) e
       = [App.UpdateCameraPose (Some p); App.Uncaught]
    /\ App.posesHanded (App.startLocationLoop (App.mk true true false) e)
       = [Some p]
    /\ snd (PoseKalmanFilter.filter (Some p) PoseKalmanFilter.default)
       = Some q
    /\ v3z (position q) <> v3z (position p).
Proof.
  intros e. destruct Smoothing.scenario_pose as (p & Hp & Hz).
  fold e in Hp.
  pose proof (Smoothing.first_filter 0.01 0.1 (v3z (position p))
                ltac:(lra)) as Hf.
  assert (Hq : exists q,
             snd (PoseKalmanFilter.filter (Some p) PoseKalmanFilter.default)
             = Some q
             /\ v3z (position q)
                = snd (KalmanFilter.filter (v3z (position p))
                         (KalmanFilter.new 0.01 0.1))).
  { unfold PoseKalmanFilter.filter, PoseKalmanFilter.default,
      PoseKalmanFilter.new.
    cbn [PoseKalmanFilter.posX PoseKalmanFilter.posY PoseKalmanFilter.posZ
         PoseKalmanFilter.rotX PoseKalmanFilter.rotY PoseKalmanFilter.rotZ].
    destruct (KalmanFilter.filter (v3x (position p)) _) as [k1 x1].
    destruct (KalmanFilter.filter (v3y (position p)) _) as [k2 x2].
    destruct (KalmanFilter.filter (v3z (position p)) _) as [k3 x3].
    destruct (KalmanFilter.filter (v3x (rotation p)) _) as [k4 x4].
    destruct (KalmanFilter.filter (v3y (rotation p)) _) as [k5 x5].
    destruct (KalmanFilter.filter (v3z (rotation p)) _) as [k6 x6].
    eexists. split; reflexivity. }
  destruct Hq as (q & Hq & Hqz).
  pose proof (LoopFacts.startLocationLoop_pose (App.mk true true false) e p
                eq_refl Hp) as Hloop.
  exists p, q. split; [exact Hp|]. split; [exact Hloop|].
  split; [rewrite Hloop; reflexivity|]. split; [exact Hq|].
  rewrite Hqz, Hf, Hz.
  pose proof Geodesy.PI_bounds as [Hl Hu]. intros Heq. lra.
Qed.

(** C4 (amended).  On every tick of the location loop and of the WebXR
    loop, the poses passed to the scene manager are exactly the pose of
    the tracker's [TrackingResult] itself (for the geodetic tracker, its
    [currentPose], whenever there is one; for the hit-test tracker, the
    pose of a tracking result while a model is loaded and not yet placed):
    no [PoseKalmanFilter] is applied on these two paths. *)
Theorem poses_handed_as_tracked
  (app : App.t) (eg : ARLocationEngine.t)
  (frame : option WebXREngine.XRFrame) (ex : WebXREngine.t) :
  App.isInitialized app = true ->
  WebXREngine.isSessionActive ex = true ->
  let rg := ARLocationEngine.processFrame eg in
  let rx := snd (WebXREngine.processFrame frame ex) in
  App.posesHanded (App.startLocationLoop app eg)
  = match pose rg with
    | Some p => [Some p]
    | None => []
    end
  /\ pose rg = ARLocationEngine.currentPose eg
  /\ App.posesHanded (snd (App.startWebXRLoop app frame ex))
     = if isTracking rx && App.currentModel app
          && negb (App.isModelPlaced app)
       then [pose rx] else [].
Proof.
  intros Hinit Hactive rg rx. subst rg rx.
  split; [|split; [reflexivity|]].
  - change (pose (ARLocationEngine.processFrame eg))
      with (ARLocationEngine.currentPose eg).
    destruct (ARLocationEngine.currentPose eg) as [p|] eqn:Hp.
    + now rewrite (LoopFacts.startLocationLoop_pose app eg p Hinit Hp).
    + now rewrite (LoopFacts.startLocationLoop_no_pose app eg Hinit Hp).
  - unfold App.startWebXRLoop. rewrite Hinit, Hactive. cbn [negb orb].
    destruct frame as [f|].
    + destruct (WebXREngine.processFrame (Some f) ex) as [ex' r].
      cbn [snd].
      destruct (viewerTransform r);
        destruct (isTracking r && App.currentModel app
                  && negb (App.isModelPlaced app));
        cbn [List.app App.attempt App.throws];
        try reflexivity;
        destruct (pose r) as [p|]; try reflexivity;
        destruct (planeCenter p); reflexivity.
    + unfold WebXREngine.processFrame. rewrite Hactive. reflexivity.
Qed.

Lemma poses_handed_as_tracked_witness :
  let app := App.mk true true false in
  let eg := ARLocationEngine.run
              [ARLocationEngine.UpdateLocation
                 (mkLocationFix 37.0 (-122.0) None 5 0);
               ARLocationEngine.SetTargetLocation 37.001 (-122.0) 0]
              ARLocationEngine.new in
  let ex := WebXREngine.set_planeConfidence 0.45 WebXREngine.started in
  let rg := ARLocationEngine.processFrame eg in
  let rx := snd (WebXREngine.processFrame (Some WebXREngine.sampleHit) ex) in
  App.isInitialized app = true
  /\ WebXREngine.isSessionActive ex = true
  /\ (exists p, pose rg = Some p)
  /\ isTracking rx = true
  /\ App.posesHanded (App.startLocationLoop app eg)
     = match pose rg with
       | Some p => [Some p]
       | None => []
       end
  /\ pose rg = ARLocationEngine.currentPose eg
  /\ App.posesHanded
       (snd (App.startWebXRLoop app (Some WebXREngine.sampleHit) ex))
     = if isTracking rx && App.currentModel app
          && negb (App.isModelPlaced app)
       then [pose rx] else [].
Proof.
  intros app eg ex rg rx.
  split; [reflexivity|]. split; [reflexivity|]. split; [|split].
  - destruct Smoothing.scenario_pose as (p & Hp & _). exists p. exact Hp.
  - destruct (HitTestDetection.processFrame_hit WebXREngine.sampleHit ex)
      as [_ Ht].
    + split; reflexivity.
    + unfold WebXREngine.hitFrame, WebXREngine.sampleHit. cbn.
      do 4 eexists. repeat split; reflexivity.
    + unfold rx. rewrite Ht. apply gtb_true.
      cbn [WebXREngine.planeConfidence ex WebXREngine.set_planeConfidence].
      unfold JSMath.min, Rmin. case_Rle_dec; lra.
  - exact (poses_handed_as_tracked app eg (Some WebXREngine.sampleHit) ex
             eq_refl eq_refl).
Defined.

(** The loop of the visual path, for the record: whichever copy of the
    visual tracker is in use, the only pose it passes on is the pose of
    the tracker's result as it is. *)
Lemma visual_loop_hands_result_pose
  (Engine : Type)
  (processFrame : AREngine.Video -> Engine -> Engine * TrackingResult)
  (app : App.t) (ready : bool) (video : AREngine.Video) (e : Engine) :
  Forall (fun p => p = pose (snd (processFrame video e)))
         (App.posesHanded
            (snd (App.startARLoop processFrame app ready video e))).
Proof.
  unfold App.startARLoop.
  destruct (negb (App.isInitialized app)); [constructor|].
  destruct ready; [|constructor].
  destruct (processFrame video e) as [e' r]. cbn [snd].
  destruct (isTracking r && App.currentModel app); [|constructor].
  cbn. repeat constructor.
Qed.

(** While the visual tracker reports tracking and a model is loaded, the
    scene update of the visual loop ends at the call of
    [updateCameraPose]: [updateModelPose] is not reached, and the loop
    renders and schedules itself. *)
Lemma visual_loop_stops_at_camera
  (Engine : Type)
  (processFrame : AREngine.Video -> Engine -> Engine * TrackingResult)
  (app : App.t) (video : AREngine.Video) (e : Engine) :
  App.isInitialized app = true ->
  App.currentModel app = true ->
  isTracking (snd (processFrame video e)) = true ->
  snd (App.startARLoop processFrame app true video e)
  = [App.UpdateCameraPose (pose (snd (processFrame video e)));
     App.Render; App.RequestAnimationFrame].
Proof.
  intros Hi Hm Ht. unfold App.startARLoop. rewrite Hi. cbn [negb].
  destruct (processFrame video e) as [e' r]. cbn [snd] in *.
  rewrite Ht, Hm. reflexivity.
Qed.

(** ** No tracking on the first good frames

    A fresh tracker needs four successful detections before the confidence
    can exceed 0.5: after fewer than four frames no result reports
    tracking. *)

Lemma confidenceStep_growth (c c' : R) :
  0 <= c -> confidenceStep c c' -> c' <= c + 0.15.
Proof.
  intros Hc [->|[->| ->]]; [lra| |];
    unfold JSMath.min, JSMath.max, Rmin, Rmax; case_Rle_dec; lra.
Qed.

Lemma hitTest_results_early (frames : list (option WebXREngine.XRFrame)) :
  forall e budget,
    0 <= WebXREngine.planeConfidence e <= 1 ->
    WebXREngine.planeConfidence e + 0.15 * INR (length frames) <= budget ->
    budget <= 0.5 ->
    Forall (fun r => isTracking r = false) (WebXREngine.results frames e).
Proof.
  induction frames as [|f fs IH]; intros e budget He Hb Hlim;
    cbn [WebXREngine.results]; [constructor|].
  destruct (HitTestTick.hitTest_processFrame_spec f e)
    as (_ & _ & Hstep & Htr).
  pose proof (confidenceStep_growth _ _ (proj1 He) Hstep) as Hg.
  pose proof (confidenceStep_range _ _ Hstep He) as Hr.
  change (length (f :: fs)) with (S (length fs)) in Hb.
  rewrite S_INR in Hb. pose proof (pos_INR (length fs)) as Hn.
  constructor.
  - destruct (isTracking (snd (WebXREngine.processFrame f e)));
      [|reflexivity].
    specialize (Htr eq_refl). lra.
  - apply (IH _ budget); [exact Hr | lra | exact Hlim].
Qed.

Lemma visual_results_early (videos : list AREngine.Video) :
  forall e budget,
    0 <= AREngine.planeConfidence e <= 1 ->
    AREngine.planeConfidence e + 0.15 * INR (length videos) <= budget ->
    budget <= 0.5 ->
    Forall (fun r => isTracking r = false) (AREngine.results videos e).
Proof.
  induction videos as [|v vs IH]; intros e budget He Hb Hlim;
    cbn [AREngine.results]; [constructor|].
  destruct (VisualTick.visual_processFrame_spec v e) as (Hstep & Htr).
  pose proof (confidenceStep_growth _ _ (proj1 He) Hstep) as Hg.
  pose proof (confidenceStep_range _ _ Hstep He) as Hr.
  change (length (v :: vs)) with (S (length vs)) in Hb.
  rewrite S_INR in Hb. pose proof (pos_INR (length vs)) as Hn.
  constructor.
  - destruct (isTracking (snd (AREngine.processFrame v e)));
      [|reflexivity].
    specialize (Htr eq_refl). lra.
  - apply (IH _ budget); [exact Hr | lra | exact Hlim].
Qed.

(** From the constructor state, the first three frames never report
    tracking, whatever they show. *)
Lemma no_tracking_within_three_frames
  (videos : list AREngine.Video)
  (frames : list (option WebXREngine.XRFrame)) :
  (length videos <= 3)%nat -> (length frames <= 3)%nat ->
  Forall (fun r => isTracking r = false)
         (AREngine.results videos AREngine.new)
  /\ Forall (fun r => isTracking r = false)
            (WebXREngine.results frames WebXREngine.started).
Proof.
  intros Hv Hf. apply le_INR in Hv, Hf.
  change (INR 3) with (1 + 1 + 1) in Hv, Hf.
  split.
  - apply (visual_results_early videos AREngine.new 0.5); cbn; lra.
  - apply (hitTest_results_early frames WebXREngine.started 0.5); cbn; lra.
Qed.

(** * Further properties of the code *)

(** ** Scalar Kalman filter and the pose bank *)

Module KalmanCalls.
Import KalmanFilter.





(** No call changes the noise parameters or the time step. *)
Lemma parameters_step (k : t) (c : call) :
  processNoise (step k c) = processNoise k
  /\ measurementNoise (step k c) = measurementNoise k
  /\ dt (step k c) = dt k.
Proof. destruct c; cbn; repeat split; reflexivity. Qed.

Lemma parameters_run (cs : list call) :
  forall k,
    processNoise (run cs k) = processNoise k
    /\ measurementNoise (run cs k) = measurementNoise k
    /\ dt (run cs k) = dt k.
Proof.
  induction cs as [|c cs IH]; intros k; [repeat split; reflexivity|].
  cbn [run fold_left]. fold (run cs (step k c)).
  destruct (IH (step k c)) as (Hq & Hr & Hd).
  destruct (parameters_step k c) as (Hq' & Hr' & Hd').
  repeat split; congruence.
Qed.

Lemma reset_run (q r : R) (cs : list call) :
  reset (run cs (new q r)) = new q r.
Proof.
  destruct (parameters_run cs (new q r)) as (Hq & Hr & Hd).
  unfold reset. rewrite Hq, Hr, Hd. reflexivity.
Qed.

End KalmanCalls.







Module PoseBankFacts.
Import PoseKalmanFilter.

(** The six filters of a bank are in the state some sequence of calls
    leaves behind the constructor. *)
Lemma filter_parameters (p : option Pose) (b : t) :
  let b' := fst (filter p b) in
  KalmanFilter.reset (posX b') = KalmanFilter.reset (posX b)
  /\ KalmanFilter.reset (posY b') = KalmanFilter.reset (posY b)
  /\ KalmanFilter.reset (posZ b') = KalmanFilter.reset (posZ b)
  /\ KalmanFilter.reset (rotX b') = KalmanFilter.reset (rotX b)
  /\ KalmanFilter.reset (rotY b') = KalmanFilter.reset (rotY b)
  /\ KalmanFilter.reset (rotZ b') = KalmanFilter.reset (rotZ b).
Proof.
  destruct p as [p|]; cbn; [|repeat split; reflexivity].
  unfold filter, KalmanFilter.filter, KalmanFilter.update,
    KalmanFilter.predict, KalmanFilter.reset; cbn.
  repeat split; reflexivity.
Qed.

Lemma reset_filter (p : option Pose) (b : t) :
  reset (fst (filter p b)) = reset b.
Proof.
  destruct (filter_parameters p b) as (H1 & H2 & H3 & H4 & H5 & H6).
  unfold reset. congruence.
Qed.

Lemma bank_reset_run (poses : list (option Pose)) :
  forall b, reset (run poses b) = reset b.
Proof.
  induction poses as [|p ps IH]; intros b; [reflexivity|].
  cbn [run fold_left]. fold (run ps (fst (filter p b))).
  rewrite IH. apply reset_filter.
Qed.

End PoseBankFacts.

(** X4.  [reset()] forgets the history: after any calls on a scalar filter
    and after any poses filtered by a pose bank, [reset()] puts the object
    back into the state the constructor built, with the noise parameters
    it was given. *)
Theorem kalman_reset_restores_constructor
  (q r : R) (cs : list KalmanFilter.call) (poses : list (option Pose)) :
  KalmanFilter.reset (KalmanFilter.run cs (KalmanFilter.new q r))
  = KalmanFilter.new q r
  /\ PoseKalmanFilter.reset
       (PoseKalmanFilter.run poses (PoseKalmanFilter.new q r))
     = PoseKalmanFilter.new q r.
Proof.
  split.
  - apply KalmanCalls.reset_run.
  - rewrite PoseBankFacts.bank_reset_run. reflexivity.
Qed.



(** ** Hit-test tracker: session end, reset, shape of a tracking result *)

Module HitTestCalls.
Import WebXREngine.

Lemma processFrame_inactive (frame : option XRFrame) (e : t) :
  isSessionActive e = false -> processFrame frame e = (e, emptyResult).
Proof. intros H. unfold processFrame. rewrite H. reflexivity. Qed.

Lemma run_inactive (frames : list (option XRFrame)) (e : t) :
  isSessionActive e = false ->
  run frames e = e
  /\ Forall (fun r => r = emptyResult) (results frames e).
Proof.
  intros H. induction frames as [|f fs IH]; [split; [reflexivity|constructor]|].
  unfold run in *. cbn [fold_left results].
  rewrite (processFrame_inactive f e H). cbn [fst snd].
  destruct IH as (IH1 & IH2). split; [exact IH1|].
  constructor; [reflexivity|exact IH2].
Qed.

Lemma live_reset (e : t) : live e -> live (reset e).
Proof. intros H; exact H. Qed.

Lemma live_run (frames : list (option XRFrame)) :
  forall e, live e -> live (run frames e).
Proof.
  induction frames as [|f fs IH]; intros e H; [exact H|].
  apply IH, HitTestDetection.live_processFrame, H.
Qed.

(** The shape of a tracking result. *)
Lemma processFrame_tracking
  (frame : option WebXREngine.XRFrame) (e : WebXREngine.t) :
  let r := snd (WebXREngine.processFrame frame e) in
  let e' := fst (WebXREngine.processFrame frame e) in
  isTracking r = true ->
  exists hitPose,
    hitTestResult r = Some hitPose
    /\ pose r = Some (WebXREngine.poseOfHit hitPose
                        (WebXREngine.planeConfidence e'))
    /\ WebXREngine.currentPose e' = pose r
    /\ WebXREngine.planeConfidence e'
       = JSMath.min 1.0 (WebXREngine.planeConfidence e + 0.15)
    /\ 0.5 < WebXREngine.planeConfidence e'
    /\ WebXREngine.isTrackingField e' = true
    /\ hasFeatures r = true
    /\ featureCount r = length (WebXREngine.hitTestResults e')
    /\ planeCount r = featureCount r
    /\ (1 <= featureCount r)%nat.
Proof.
  intros r e'. subst r e'. unfold WebXREngine.processFrame.
  destruct (WebXREngine.isSessionActive e); cbn [negb]; [|discriminate].
  destruct frame as [frame|]; [|discriminate].
  destruct (WebXREngine.getViewerPose frame) as [[vp|]|];
    try discriminate.
  cbn [WebXREngine.xrHitTestSource WebXREngine.set_viewerPose].
  destruct (WebXREngine.xrHitTestSource e).
  - unfold WebXREngine.hitTest.
    destruct (WebXREngine.getHitTestResults frame) as [[|hit hits]|];
      cbn [WebXREngine.finish snd fst isTracking emptyResult];
      try discriminate;
      try (unfold WebXREngine.storeViewerTransform;
           destruct (WebXREngine.views vp); discriminate).
    destruct (WebXREngine.getPose hit) as [[hitPose|]|];
      cbn [WebXREngine.finish snd fst isTracking emptyResult];
      try discriminate;
      try (unfold WebXREngine.storeViewerTransform;
           destruct (WebXREngine.views vp); discriminate).
    intros H. exists hitPose.
    assert (Hc : (JSMath.min 1.0 (WebXREngine.planeConfidence e + 0.15)
                  >? 0.5) = true).
    { revert H. unfold WebXREngine.storeViewerTransform.
      destruct (WebXREngine.views vp); cbn; auto. }
    apply gtb_true in Hc.
    unfold WebXREngine.storeViewerTransform.
    destruct (WebXREngine.views vp); cbn in *;
      repeat split; auto; try lia; apply gtb_true; exact Hc.
  - cbn [WebXREngine.finish snd fst].
    unfold WebXREngine.storeViewerTransform.
    destruct (WebXREngine.views vp); discriminate.
Qed.

End HitTestCalls.

(** X6.  The end of the session is final for the tracker: after
    [onSessionEnd()] the confidence is 0 and [isTracking] is false, and
    whatever frames still arrive, [processFrame] returns the empty result
    and changes nothing; the frame callback of the application returns at
    once, without rendering. *)
Theorem webxr_session_end_is_final
  (e : WebXREngine.t) (frames : list (option WebXREngine.XRFrame))
  (app : App.t) (frame : option WebXREngine.XRFrame) :
  let e0 := WebXREngine.onSessionEnd e in
  WebXREngine.planeConfidence e0 = 0
  /\ WebXREngine.isTrackingField e0 = false
  /\ WebXREngine.run frames e0 = e0
  /\ Forall (fun r => r = emptyResult) (WebXREngine.results frames e0)
  /\ App.startWebXRLoop app frame e0 = (e0, []).
Proof.
  intros e0.
  destruct (HitTestCalls.run_inactive frames e0 eq_refl) as (H1 & H2).
  repeat split; try assumption.
  unfold App.startWebXRLoop. cbn [WebXREngine.isSessionActive e0
    WebXREngine.onSessionEnd negb]. rewrite orb_true_r. reflexivity.
Qed.

(** X7.  What a tracking result of the hit-test tracker carries: the pose
    of the top hit, built from the hit's transform with the confidence
    just raised (above 0.5) and without a [planeCenter]; the same pose is
    stored as [currentPose]; [featureCount] and [planeCount] are both the
    number of hits, which is at least one; and the engine's own
    [isTracking] is set. *)
Theorem webxr_tracking_result_shape
  (frame : option WebXREngine.XRFrame) (e : WebXREngine.t) :
  let r := snd (WebXREngine.processFrame frame e) in
  let e' := fst (WebXREngine.processFrame frame e) in
  isTracking r = true ->
  exists hitPose,
    hitTestResult r = Some hitPose
    /\ pose r = Some (WebXREngine.poseOfHit hitPose
                        (WebXREngine.planeConfidence e'))
    /\ WebXREngine.currentPose e' = pose r
    /\ WebXREngine.planeConfidence e'
       = JSMath.min 1.0 (WebXREngine.planeConfidence e + 0.15)
    /\ 0.5 < WebXREngine.planeConfidence e'
    /\ WebXREngine.isTrackingField e' = true
    /\ hasFeatures r = true
    /\ featureCount r = length (WebXREngine.hitTestResults e')
    /\ planeCount r = featureCount r
    /\ (1 <= featureCount r)%nat.
Proof. exact (HitTestCalls.processFrame_tracking frame e). Qed.

Lemma webxr_tracking_result_shape_witness :
  let e := WebXREngine.set_planeConfidence 0.45 WebXREngine.started in
  let r := snd (WebXREngine.processFrame (Some WebXREngine.sampleHit) e) in
  isTracking r = true
  /\ exists hitPose,
       hitTestResult r = Some hitPose
       /\ hasFeatures r = true
       /\ (1 <= featureCount r)%nat.
Proof.
  intros e r.
  assert (H : isTracking r = true).
  { unfold r, e. cbn. apply gtb_true. eval_confidence. }
  split; [exact H|].
  destruct (webxr_tracking_result_shape (Some WebXREngine.sampleHit) e H)
    as (hitPose & H1 & _ & _ & _ & _ & _ & H7 & _ & _ & H10).
  exists hitPose. repeat split; assumption.
Defined.

(** X8.  [reset()] restarts the warm-up of the hit-test tracker: it
    clears the pose and the confidence, so none of the next three frames
    reports tracking, whatever they contain; with a running session and
    hits on four consecutive frames, the fourth one does. *)
Theorem webxr_reset_restarts_warm_up
  (e : WebXREngine.t) (frames : list (option WebXREngine.XRFrame))
  (f1 f2 f3 f4 : WebXREngine.XRFrame) :
  (length frames <= 3)%nat ->
  WebXREngine.live e ->
  WebXREngine.hitFrame f1 -> WebXREngine.hitFrame f2 ->
  WebXREngine.hitFrame f3 -> WebXREngine.hitFrame f4 ->
  WebXREngine.currentPose (WebXREngine.reset e) = None
  /\ WebXREngine.planeConfidence (WebXREngine.reset e) = 0
  /\ Forall (fun r => isTracking r = false)
            (WebXREngine.results frames (WebXREngine.reset e))
  /\ map isTracking
         (WebXREngine.results [Some f1; Some f2; Some f3; Some f4]
            (WebXREngine.reset e))
     = [false; false; false; true].
Proof.
  intros Hlen Hlive H1 H2 H3 H4.
  split; [reflexivity|]. split; [reflexivity|]. split.
  - apply (hitTest_results_early frames (WebXREngine.reset e) 0.45).
    + cbn. lra.
    + cbn [WebXREngine.planeConfidence WebXREngine.reset].
      assert (INR (length frames) <= 3)
        by (replace 3 with (INR 3) by (simpl; lra); apply le_INR; exact Hlen).
      lra.
    + lra.
  - set (e0 := WebXREngine.reset e).
    assert (L0 : WebXREngine.live e0) by exact Hlive.
    assert (C0 : WebXREngine.planeConfidence e0 = 0) by reflexivity.
    cbn [WebXREngine.results map].
    set (e1 := fst (WebXREngine.processFrame (Some f1) e0)).
    destruct (HitTestDetection.processFrame_hit f1 e0 L0 H1) as (C1 & T1).
    fold e1 in C1. rewrite C0 in C1, T1.
    assert (L1 : WebXREngine.live e1)
      by apply HitTestDetection.live_processFrame, L0.
    set (e2 := fst (WebXREngine.processFrame (Some f2) e1)).
    destruct (HitTestDetection.processFrame_hit f2 e1 L1 H2) as (C2 & T2).
    fold e2 in C2. rewrite C1 in C2, T2.
    assert (L2 : WebXREngine.live e2)
      by apply HitTestDetection.live_processFrame, L1.
    set (e3 := fst (WebXREngine.processFrame (Some f3) e2)).
    destruct (HitTestDetection.processFrame_hit f3 e2 L2 H3) as (C3 & T3).
    fold e3 in C3. rewrite C2 in C3, T3.
    assert (L3 : WebXREngine.live e3)
      by apply HitTestDetection.live_processFrame, L2.
    destruct (HitTestDetection.processFrame_hit f4 e3 L3 H4) as (_ & T4).
    rewrite C3 in T4.
    rewrite T1, T2, T3, T4.
    repeat f_equal.
    + apply gtb_false. eval_confidence.
    + apply gtb_false. eval_confidence.
    + apply gtb_false. eval_confidence.
    + apply gtb_true. eval_confidence.
Qed.

Lemma webxr_reset_restarts_warm_up_witness :
  let hit := WebXREngine.sampleHit in
  let e := WebXREngine.run [Some hit; Some hit; Some hit; Some hit; Some hit]
             WebXREngine.started in
  map isTracking
      (WebXREngine.results [Some hit; Some hit; Some hit; Some hit]
         (WebXREngine.reset e))
  = [false; false; false; true].
Proof.
  intros hit e.
  refine (proj2 (proj2 (proj2
    (webxr_reset_restarts_warm_up e [] hit hit hit hit _ _ _ _ _ _)))).
  - simpl; lia.
  - apply HitTestCalls.live_run. split; reflexivity.
  - apply hit_sampleHit.
  - apply hit_sampleHit.
  - apply hit_sampleHit.
  - apply hit_sampleHit.
Defined.

(** ** Visual tracker: reset, matching, detection, shape of a result *)

Module VisualCalls.
Import AREngine.

Lemma sameTracker_refl (e : t) : sameTracker e e.
Proof. unfold sameTracker, sameBuffers. repeat split; reflexivity. Qed.

Lemma sameTracker_reset (e : t) : sameTracker e (reset e).
Proof. unfold sameTracker, sameBuffers. repeat split; reflexivity. Qed.

Lemma trackFeatures_sim (video : Video) (e1 e2 : t) :
  sameTracker e1 e2 ->
  snd (trackFeatures video e2) = snd (trackFeatures video e1)
  /\ sameTracker (fst (trackFeatures video e1)) (fst (trackFeatures video e2))
  /\ (snd (trackFeatures video e1) = Returns true ->
      trackedPoints (fst (trackFeatures video e2))
      = trackedPoints (fst (trackFeatures video e1))).
Proof.
  same_tracker_intro e1 e2.
  unfold trackFeatures.
  cbn [frame prevGrayFrameRows keypoints descriptorsRows prevKeypoints
       prevDescriptorsRows settings].
  repeat break_match; cbn [fst snd];
    unfold sameTracker, sameBuffers; cbn;
    repeat split; try reflexivity; try discriminate.
Qed.

Lemma detectPlane_sim (video : Video) (e1 e2 : t) :
  sameTracker e1 e2 ->
  trackedPoints e2 = trackedPoints e1 ->
  snd (detectPlane video e2) = snd (detectPlane video e1)
  /\ sameTracker (fst (detectPlane video e1)) (fst (detectPlane video e2))
  /\ (snd (detectPlane video e1) = true ->
      groundPlane (fst (detectPlane video e2))
      = groundPlane (fst (detectPlane video e1))).
Proof.
  same_tracker_intro e1 e2.
  cbn [trackedPoints]. intros ->.
  unfold detectPlane, gain, decay, set_groundPlane, set_planeConfidence,
    calculatePlaneCenter.
  cbn [trackedPoints settings planeConfidence].
  repeat break_match; cbn [fst snd];
    unfold sameTracker, sameBuffers; cbn;
    repeat split; try reflexivity; try discriminate.
Qed.

Lemma estimatePose_sim (video : Video) (e1 e2 : t) :
  sameTracker e1 e2 ->
  groundPlane e2 = groundPlane e1 ->
  snd (estimatePose video e2) = snd (estimatePose video e1)
  /\ sameTracker (fst (estimatePose video e1)) (fst (estimatePose video e2)).
Proof.
  same_tracker_intro e1 e2.
  cbn [groundPlane]. intros ->.
  unfold estimatePose. cbn [groundPlane].
  repeat break_match; cbn [fst snd];
    unfold sameTracker, sameBuffers; cbn;
    repeat split; try reflexivity; try discriminate.
Qed.

(** What the two results of a tick agree on. *)
Lemma trackingBlock_sim (video : Video) (e1 e2 : t)
  (result1 result2 : TrackingResult) :
  sameTracker e1 e2 ->
  isTracking result1 = isTracking result2 ->
  let '(a1, r1, t1) := trackingBlock video e1 result1 in
  let '(a2, r2, t2) := trackingBlock video e2 result2 in
  t2 = t1 /\ isTracking r2 = isTracking r1 /\ sameTracker a1 a2.
Proof.
  intros Hs Hr. unfold trackingBlock.
  destruct (trackFeatures_sim video e1 e2 Hs) as (Ho & Hs1 & Hp).
  destruct (trackFeatures video e1) as [a1 o1].
  destruct (trackFeatures video e2) as [a2 o2].
  cbn [fst snd] in *. subst o2.
  destruct o1 as [[|]|]; [| cbn; split; [reflexivity | split; [congruence | assumption]] | cbn; split; [reflexivity | split; [congruence | assumption]]].
  specialize (Hp eq_refl).
  destruct (detectPlane_sim video a1 a2 Hs1 Hp) as (Hd & Hs2 & Hg).
  destruct (detectPlane video a1) as [b1 d1].
  destruct (detectPlane video a2) as [b2 d2].
  cbn [fst snd] in *. subst d2.
  destruct d1; [| cbn; split; [reflexivity | split; [congruence | assumption]]].
  specialize (Hg eq_refl).
  destruct (estimatePose_sim video b1 b2 Hs2 Hg) as (He & Hs3).
  destruct (estimatePose video b1) as [c1 p1].
  destruct (estimatePose video b2) as [c2 p2].
  cbn [fst snd] in *. subst p2.
  cbn; split; [reflexivity | split; [congruence | assumption]].
Qed.

Lemma sameTracker_planeConfidence (e1 e2 : t) :
  sameTracker e1 e2 -> planeConfidence e2 = planeConfidence e1.
Proof. intros (_ & H & _). exact H. Qed.

Lemma processFrame_sim (video : Video) (e1 e2 : t) :
  sameTracker e1 e2 ->
  isTracking (snd (processFrame video e2))
  = isTracking (snd (processFrame video e1))
  /\ sameTracker (fst (processFrame video e1)) (fst (processFrame video e2)).
Proof.
  intros Hs. unfold processFrame.
  destruct ((videoWidth video =? 0)%nat || (videoHeight video =? 0)%nat);
    [split; [reflexivity | exact Hs]|].
  assert (Hd : sameDimensions e2 video = sameDimensions e1 video).
  { unfold sameDimensions. destruct Hs as ((-> & _) & _). reflexivity. }
  rewrite Hd.
  set (i1 := if sameDimensions e1 video then e1 else _).
  set (i2 := if sameDimensions e1 video then e2 else _).
  assert (Hi : sameTracker i1 i2).
  { subst i1 i2. destruct (sameDimensions e1 video); [exact Hs|].
    revert Hs. clear. same_tracker_intro e1 e2.
    unfold sameTracker, sameBuffers; cbn. repeat split; reflexivity. }
  clearbody i1 i2. clear Hs Hd e1 e2.
  destruct (readFrame video).
  2:{ cbn [finish fst snd]. split; [reflexivity|].
      revert Hi. clear. same_tracker_intro i1 i2.
      unfold sameTracker, sameBuffers; cbn. repeat split; reflexivity. }
  destruct (detectAndCompute video) as [[kps rows]|].
  2:{ cbn [finish fst snd]. split; [reflexivity|].
      revert Hi. clear. same_tracker_intro i1 i2.
      unfold sameTracker, sameBuffers; cbn. repeat split; reflexivity. }
  set (j1 := set_buffers (frame i1) _ kps rows _ _ i1).
  set (j2 := set_buffers (frame i2) _ kps rows _ _ i2).
  assert (Hj : sameTracker j1 j2).
  { subst j1 j2. revert Hi. clear. same_tracker_intro i1 i2.
    unfold sameTracker, sameBuffers; cbn. repeat split; reflexivity. }
  assert (Hc : (0 <? prevGrayFrameRows j2)%nat
               && (0 <? length (prevKeypoints j2))%nat
               = (0 <? prevGrayFrameRows j1)%nat
                 && (0 <? length (prevKeypoints j1))%nat).
  { destruct Hj as ((_ & -> & _ & _ & -> & _) & _). reflexivity. }
  rewrite Hc. clearbody j1 j2. clear Hi Hc i1 i2.
  set (result := set_features (length kps) emptyResult).
  set (tb1 := if (0 <? prevGrayFrameRows j1)%nat
                 && (0 <? length (prevKeypoints j1))%nat
              then trackingBlock video j1 result else (j1, result, false)).
  set (tb2 := if (0 <? prevGrayFrameRows j1)%nat
                 && (0 <? length (prevKeypoints j1))%nat
              then trackingBlock video j2 result else (j2, result, false)).
  assert (Ht : let '(a1, r1, t1) := tb1 in
               let '(a2, r2, t2) := tb2 in
               t2 = t1 /\ isTracking r2 = isTracking r1 /\ sameTracker a1 a2).
  { subst tb1 tb2.
    destruct ((0 <? prevGrayFrameRows j1)%nat
              && (0 <? length (prevKeypoints j1))%nat).
    - apply trackingBlock_sim; [exact Hj | reflexivity].
    - split; [reflexivity | split; [reflexivity | exact Hj]]. }
  clearbody tb1 tb2.
  destruct tb1 as [[a1 r1] t1], tb2 as [[a2 r2] t2].
  destruct Ht as (-> & Hr & Ha).
  assert (Hfin : forall b, sameTracker (set_isTracking (isTracking r1) a1)
                             (set_isTracking b a2)).
  { intros b. revert Ha. clear. same_tracker_intro a1 a2.
    unfold sameTracker, sameBuffers; cbn. repeat split; reflexivity. }
  destruct t1; [cbn [finish fst snd]; split; [exact Hr | apply Hfin]|].
  destruct (copyToThrows video);
    [cbn [finish fst snd]; split; [exact Hr | apply Hfin]|].
  cbn [finish fst snd]. split; [exact Hr|].
  revert Ha. clear. same_tracker_intro a1 a2.
  unfold sameTracker, sameBuffers; cbn. repeat split; reflexivity.
Qed.

Lemma results_sim (videos : list Video) :
  forall e1 e2,
    sameTracker e1 e2 ->
    map isTracking (results videos e2) = map isTracking (results videos e1)
    /\ planeConfidence (run videos e2) = planeConfidence (run videos e1).
Proof.
  induction videos as [|v vs IH]; intros e1 e2 Hs.
  - split; [reflexivity | apply sameTracker_planeConfidence, Hs].
  - destruct (processFrame_sim v e1 e2 Hs) as (Hr & Hs').
    destruct (IH _ _ Hs') as (IH1 & IH2).
    cbn [results map]. unfold run in *. cbn [fold_left].
    rewrite Hr, IH1, IH2. split; reflexivity.
Qed.

End VisualCalls.

(** X9.  [reset()] of the visual tracker does not restart its warm-up:
    it clears the pose, the plane and the tracked points but keeps the
    plane confidence, so for the same OpenCV answers the frames that
    follow report tracking exactly as they would have without the reset,
    and leave the same confidence. *)
Theorem visual_reset_keeps_confidence
  (e : AREngine.t) (videos : list AREngine.Video) :
  AREngine.planeConfidence (AREngine.reset e) = AREngine.planeConfidence e
  /\ AREngine.currentPose (AREngine.reset e) = None
  /\ AREngine.groundPlane (AREngine.reset e) = None
  /\ map isTracking (AREngine.results videos (AREngine.reset e))
     = map isTracking (AREngine.results videos e)
  /\ AREngine.planeConfidence (AREngine.run videos (AREngine.reset e))
     = AREngine.planeConfidence (AREngine.run videos e).
Proof.
  split; [reflexivity|]. split; [reflexivity|]. split; [reflexivity|].
  apply VisualCalls.results_sim, VisualCalls.sameTracker_reset.
Qed.

Module VisualMatching.
Import AREngine.

Lemma minDist_Some (ms : list DMatch) :
  forall a d,
    minDist ms (Some a) = Some d ->
    d <= a
    /\ Forall (fun m => d <= distance m) ms
    /\ (d = a \/ Exists (fun m => distance m = d) ms).
Proof.
  induction ms as [|m ms IH]; intros a d H; cbn [minDist] in H.
  - injection H as <-. split; [lra|]. split; [constructor | now left].
  - destruct (distance m <? a) eqn:Hlt.
    + apply ltb_true in Hlt.
      destruct (IH _ _ H) as (H1 & H2 & H3).
      split; [lra|]. split; [constructor; assumption|].
      right. destruct H3 as [-> | H3];
        [apply Exists_cons_hd; reflexivity | apply Exists_cons_tl, H3].
    + apply ltb_false in Hlt.
      destruct (IH _ _ H) as (H1 & H2 & H3).
      split; [exact H1|]. split; [constructor; [lra | assumption]|].
      destruct H3 as [-> | H3]; [now left | right; apply Exists_cons_tl, H3].
Qed.

Lemma minDist_total (ms : list DMatch) (a : R) :
  exists d, minDist ms (Some a) = Some d.
Proof.
  revert a. induction ms as [|m ms IH]; intros a; cbn [minDist].
  - now exists a.
  - destruct (distance m <? a); apply IH.
Qed.

Lemma collect_spec (prevK currK : list Vector2) (minD : option R)
  (ms : list DMatch) :
  forall acc pts threw,
    collect prevK currK minD ms acc = (pts, threw) ->
    (length pts <= length acc + length ms)%nat
    /\ (Forall (fun pt => In (prev pt) prevK /\ In (curr pt) currK) acc ->
        Forall (fun pt => In (prev pt) prevK /\ In (curr pt) currK) pts).
Proof.
  induction ms as [|m ms IH]; intros acc pts threw H; cbn [collect] in H.
  - injection H as <- <-. split; [cbn; lia | auto].
  - destruct (belowThreshold (distance m) minD).
    + destruct (nth_error prevK (queryIdx m)) as [p|] eqn:Hp;
        [destruct (nth_error currK (trainIdx m)) as [c|] eqn:Hc|].
      * destruct (IH _ _ _ H) as (H1 & H2).
        rewrite length_app in H1. cbn [length] in *. split; [lia|].
        intros Hacc. apply H2. apply Forall_app. split; [exact Hacc|].
        constructor; [|constructor]. cbn [prev curr].
        split; eapply nth_error_In; eassumption.
      * injection H as <- <-. split; [cbn; lia | auto].
      * injection H as <- <-. split; [cbn; lia | auto].
    + destruct (IH _ _ _ H) as (H1 & H2). cbn [length]. split; [lia | auto].
Qed.

End VisualMatching.

(** X10.  The distance filter of [trackFeatures] never rejects the best
    match: for a non-empty list of matches, [minDist] is the smallest
    distance of the list, and a match passes
    [distance < Math.max(3 * minDist, 30)] whenever its distance is the
    smallest one or is below 30. *)
Theorem trackFeatures_keeps_closest_match (ms : list AREngine.DMatch) :
  ms <> [] ->
  exists d,
    AREngine.minDist ms None = Some d
    /\ Forall (fun m => d <= AREngine.distance m) ms
    /\ Exists (fun m => AREngine.distance m = d) ms
    /\ Forall (fun m =>
                 AREngine.distance m = d \/ AREngine.distance m < 30 ->
                 AREngine.belowThreshold (AREngine.distance m) (Some d)
                 = true) ms.
Proof.
  intros Hne. destruct ms as [|m ms]; [congruence|].
  cbn [AREngine.minDist].
  destruct (VisualMatching.minDist_total ms (AREngine.distance m)) as (d & Hd).
  exists d. split; [exact Hd|].
  destruct (VisualMatching.minDist_Some ms _ _ Hd) as (H1 & H2 & H3).
  split; [constructor; assumption|]. split.
  - destruct H3 as [-> | H3];
      [apply Exists_cons_hd; reflexivity | apply Exists_cons_tl, H3].
  - apply Forall_forall. intros m' _ H.
    unfold AREngine.belowThreshold. apply ltb_true.
    unfold JSMath.max, Rmax. destruct (Rle_dec (3 * d) 30); lra.
Qed.

Lemma trackFeatures_keeps_closest_match_witness :
  exists d,
    AREngine.minDist
      [AREngine.mkDMatch 40 0 0; AREngine.mkDMatch 35 1 1;
       AREngine.mkDMatch 120 2 2] None = Some d
    /\ AREngine.belowThreshold 35 (Some d) = true.
Proof.
  destruct (trackFeatures_keeps_closest_match
              [AREngine.mkDMatch 40 0 0; AREngine.mkDMatch 35 1 1;
               AREngine.mkDMatch 120 2 2])
    as (d & Hd & Hle & Hex & Hpass); [discriminate|].
  exists d. split; [exact Hd|].
  apply Forall_inv_tail, Forall_inv in Hle. cbn in Hle.
  apply Forall_inv_tail, Forall_inv in Hpass. cbn in Hpass.
  apply Hpass. left.
  apply Exists_cons in Hex. destruct Hex as [H|Hex]; [cbn in H; lra|].
  apply Exists_cons in Hex. destruct Hex as [H|Hex]; [exact H|].
  apply Exists_cons in Hex. destruct Hex as [H|Hex]; [cbn in H; lra|].
  inversion Hex.
Defined.

(** X11.  When [trackFeatures()] returns [true], it has stored at least
    [minInliers] pairs, no more pairs than the matcher returned matches,
    and every pair joins a keypoint of the previous frame with a keypoint
    of the current one; it has changed nothing but [trackedPoints]. *)
Theorem trackFeatures_true_pairs
  (video : AREngine.Video) (e e' : AREngine.t) :
  AREngine.trackFeatures video e = (e', Returns true) ->
  e' = AREngine.set_trackedPoints (AREngine.trackedPoints e') e
  /\ (AREngine.minInliers (AREngine.settings e)
      <= length (AREngine.trackedPoints e'))%nat
  /\ (length (AREngine.trackedPoints e')
      <= match AREngine.matcherMatch video with
         | Returns matches => length matches
         | Throws => 0
         end)%nat
  /\ Forall (fun pt => In (AREngine.prev pt) (AREngine.prevKeypoints e)
                       /\ In (AREngine.curr pt) (AREngine.keypoints e))
            (AREngine.trackedPoints e').
Proof.
  unfold AREngine.trackFeatures.
  destruct ((length (AREngine.prevKeypoints e) =? 0)%nat
            || (length (AREngine.keypoints e) =? 0)%nat); [discriminate|].
  set (ask := (0 <? AREngine.prevDescriptorsRows e)%nat
              && (0 <? AREngine.descriptorsRows e)%nat).
  assert (Hm : forall matches,
             (if ask then AREngine.matcherMatch video else Returns [])
             = Returns matches ->
             (length matches
              <= match AREngine.matcherMatch video with
                 | Returns matches => length matches
                 | Throws => 0
                 end)%nat).
  { intros matches. destruct ask.
    - intros ->. lia.
    - intros [= <-]. cbn. lia. }
  destruct (if ask then AREngine.matcherMatch video else Returns [])
    as [matches|]; [|discriminate].
  specialize (Hm matches eq_refl).
  destruct (length matches <? AREngine.minInliers (AREngine.settings e))%nat;
    [discriminate|].
  destruct (AREngine.collect (AREngine.prevKeypoints e)
              (AREngine.keypoints e) (AREngine.minDist matches None)
              matches []) as [pts threw] eqn:Hc.
  destruct threw; [discriminate|].
  intros [= <- Hle].
  destruct (VisualMatching.collect_spec _ _ _ _ _ _ _ Hc) as (H1 & H2).
  cbn [AREngine.trackedPoints AREngine.set_trackedPoints
       AREngine.settings] in *.
  change (length (@nil AREngine.TrackedPointPair)) with 0%nat in H1.
  split; [reflexivity|]. split; [apply Nat.leb_le, Hle|].
  split; [lia|]. apply H2. constructor.
Qed.

Lemma trackFeatures_true_pairs_witness :
  let e := AREngine.set_buffers (Some (480, 640)%nat) 480
             AREngine.sampleKeypoints 10 AREngine.sampleKeypoints 10
             (AREngine.sampleEngine 0) in
  (10 <= length (AREngine.trackedPoints
                   (fst (AREngine.trackFeatures AREngine.sampleVideo e))))%nat.
Proof.
  intros e.
  assert (H : AREngine.trackFeatures AREngine.sampleVideo e
              = (AREngine.set_trackedPoints AREngine.samplePairs e,
                 Returns true)).
  { apply (VisualSample.steady_trackFeatures AREngine.sampleVideo
             (AREngine.sampleEngine 0)).
    - apply VisualSample.steady_sampleEngine.
    - reflexivity. }
  rewrite H.
  exact (proj1 (proj2 (trackFeatures_true_pairs _ _ _ H))).
Defined.

(** X12.  What [detectPlane()] leaves behind.  When it returns [true]
    there were at least 8 tracked points, the fit had at least
    [minInliers] inliers and a non-empty homography, and that plane is
    stored as [groundPlane] and as the only entry of [detectedPlanes],
    with the mean of the tracked points as its center and the raised
    confidence, which is above 0.5.  When the detection fails, the plane
    stored by an earlier call stays. *)
Theorem detectPlane_outcome (video : AREngine.Video) (e : AREngine.t) :
  let e' := fst (AREngine.detectPlane video e) in
  (snd (AREngine.detectPlane video e) = true ->
   (8 <= length (AREngine.trackedPoints e))%nat
   /\ exists g,
        AREngine.groundPlane e' = Some g
        /\ AREngine.detectedPlanes e' = [g]
        /\ (AREngine.minInliers (AREngine.settings e)
            <= AREngine.inliers g)%nat
        /\ AREngine.empty (AREngine.homography g) = false
        /\ AREngine.center g = AREngine.calculatePlaneCenter e
        /\ AREngine.gpConfidence g = AREngine.planeConfidence e'
        /\ 0.5 < AREngine.planeConfidence e')
  /\ (AREngine.planeFound video e = false ->
      snd (AREngine.detectPlane video e) = false
      /\ AREngine.groundPlane e' = AREngine.groundPlane e
      /\ AREngine.detectedPlanes e' = AREngine.detectedPlanes e).
Proof.
  intros e'. subst e'. unfold AREngine.detectPlane, AREngine.planeFound.
  destruct (length (AREngine.trackedPoints e) <? 8)%nat eqn:H8.
  - apply Nat.ltb_lt in H8.
    replace (8 <=? length (AREngine.trackedPoints e))%nat with false
      by (symmetry; apply Nat.leb_gt; exact H8).
    cbn. split; [discriminate | auto].
  - apply Nat.ltb_ge in H8.
    replace (8 <=? length (AREngine.trackedPoints e))%nat with true
      by (symmetry; apply Nat.leb_le; exact H8).
    cbn [andb].
    destruct (AREngine.findHomography video) as [[H mask]|];
      [|cbn; split; [discriminate | auto]].
    destruct (AREngine.minInliers (AREngine.settings e)
              <=? AREngine.countInliers mask)%nat eqn:Hin;
      [|cbn; split; [discriminate | auto]].
    destruct (AREngine.empty H) eqn:HH;
      [cbn; split; [discriminate | auto]|].
    cbn [andb negb fst snd]. split; [|discriminate].
    intros Hc. apply gtb_true in Hc. split; [exact H8|].
    eexists. repeat split; try reflexivity.
    + cbn. apply Nat.leb_le, Hin.
    + cbn. exact HH.
    + exact Hc.
Qed.

Lemma detectPlane_outcome_witness :
  let e := AREngine.sampleTracked 0.45 in
  let e' := fst (AREngine.detectPlane AREngine.sampleVideo e) in
  snd (AREngine.detectPlane AREngine.sampleVideo e) = true
  /\ exists g,
       AREngine.groundPlane e' = Some g
       /\ AREngine.detectedPlanes e' = [g]
       /\ 0.5 < AREngine.planeConfidence e'.
Proof.
  intros e e'.
  assert (H : snd (AREngine.detectPlane AREngine.sampleVideo e) = true).
  { rewrite VisualFacts.detectPlane_result.
    apply andb_true_intro. split; [reflexivity|].
    apply gtb_true. cbn. eval_confidence. }
  split; [exact H|].
  destruct (proj1 (detectPlane_outcome AREngine.sampleVideo e) H)
    as (_ & g & H1 & H2 & _ & _ & _ & _ & H7).
  exists g. repeat split; assumption.
Defined.

Module PlaneCenter.
Import AREngine.

Lemma sum_bounds (f : TrackedPointPair -> R) (lo hi : R)
  (pts : list TrackedPointPair) :
  (forall pt, In pt pts -> lo <= f pt <= hi) ->
  forall a,
    a + lo * INR (length pts)
    <= fold_left (fun s pt => s + f pt) pts a
    <= a + hi * INR (length pts).
Proof.
  induction pts as [|pt pts IH]; intros Hf a.
  - cbn. lra.
  - cbn [fold_left].
    change (length (pt :: pts)) with (S (length pts)).
    rewrite S_INR.
    assert (Hpt : lo <= f pt <= hi) by (apply Hf; now left).
    assert (Hrest : forall q, In q pts -> lo <= f q <= hi)
      by (intros q Hq; apply Hf; now right).
    specialize (IH Hrest (a + f pt)). lra.
Qed.

Lemma mean_bounds (f : TrackedPointPair -> R) (lo hi : R)
  (pts : list TrackedPointPair) :
  pts <> [] ->
  (forall pt, In pt pts -> lo <= f pt <= hi) ->
  lo <= fold_left (fun s pt => s + f pt) pts 0 / INR (length pts) <= hi.
Proof.
  intros Hne Hf.
  assert (Hn : 0 < INR (length pts)).
  { apply lt_0_INR. destruct pts; [congruence | cbn; lia]. }
  pose proof (sum_bounds f lo hi pts Hf 0) as Hs.
  assert (Hinv : 0 < / INR (length pts)) by (apply Rinv_0_lt_compat, Hn).
  unfold Rdiv. split.
  - replace lo with (lo * INR (length pts) * / INR (length pts))
      by (field; lra).
    apply Rmult_le_compat_r; lra.
  - replace hi with (hi * INR (length pts) * / INR (length pts))
      by (field; lra).
    apply Rmult_le_compat_r; lra.
Qed.

End PlaneCenter.

(** X13.  The plane center that [calculatePlaneCenter()] returns is the
    mean of the current points, so it lies inside every axis-aligned box
    that contains them; with no tracked points it is (0, 0). *)
Theorem calculatePlaneCenter_in_box
  (e : AREngine.t) (x0 x1 y0 y1 : R) :
  AREngine.trackedPoints e <> [] ->
  (forall pt, In pt (AREngine.trackedPoints e) ->
              x0 <= v2x (AREngine.curr pt) <= x1
              /\ y0 <= v2y (AREngine.curr pt) <= y1) ->
  x0 <= v2x (AREngine.calculatePlaneCenter e) <= x1
  /\ y0 <= v2y (AREngine.calculatePlaneCenter e) <= y1
  /\ AREngine.calculatePlaneCenter (AREngine.set_trackedPoints [] e)
     = mkVector2 0 0.
Proof.
  intros Hne Hbox. unfold AREngine.calculatePlaneCenter.
  destruct (AREngine.trackedPoints e) as [|pt pts] eqn:Hpts; [congruence|].
  cbn [v2x v2y]. split; [|split; [|reflexivity]].
  - apply (PlaneCenter.mean_bounds (fun pt => v2x (AREngine.curr pt)));
      [discriminate|]. intros q Hq. apply Hbox, Hq.
  - apply (PlaneCenter.mean_bounds (fun pt => v2y (AREngine.curr pt)));
      [discriminate|]. intros q Hq. apply Hbox, Hq.
Qed.

Lemma calculatePlaneCenter_in_box_witness :
  let e := AREngine.set_trackedPoints
             [AREngine.mkPair (mkVector2 0 0) (mkVector2 100 40);
              AREngine.mkPair (mkVector2 0 0) (mkVector2 300 80);
              AREngine.mkPair (mkVector2 0 0) (mkVector2 200 60)]
             AREngine.new in
  100 <= v2x (AREngine.calculatePlaneCenter e) <= 300
  /\ 40 <= v2y (AREngine.calculatePlaneCenter e) <= 80.
Proof.
  intros e.
  destruct (calculatePlaneCenter_in_box e 100 300 40 80) as (Hx & Hy & _).
  - discriminate.
  - intros pt [<- | [<- | [<- | []]]]; cbn; lra.
  - split; assumption.
Defined.

Module VisualResult.
Import AREngine.

(** The pose [estimatePose] builds from the plane [g] on the engine [e]. *)
Lemma estimatePose_true (video : Video) (e e' : t) :
  estimatePose video e = (e', true) ->
  exists g,
    groundPlane e = Some g
    /\ groundPlane e' = Some g
    /\ detectedPlanes e' = detectedPlanes e
    /\ planeConfidence e' = planeConfidence e
    /\ cameraMatrix e' = cameraMatrix e
    /\ imuData e' = imuData e
    /\ currentPose e'
       = Some (mkPose
                 (mkVector3 (doubleAt (homography g) 0 2 / fx (cameraMatrix e))
                            (doubleAt (homography g) 1 2 / fy (cameraMatrix e))
                            3.0)
                 (mkVector3 (beta (imuData e) * (PI / 180))
                            (gamma (imuData e) * (PI / 180))
                            (alpha (imuData e) * (PI / 180)))
                 None (Some (center g)) (Some (planeConfidence e))
                 None None None).
Proof.
  unfold estimatePose.
  destruct (groundPlane e) as [g|] eqn:Hg; [|discriminate].
  destruct (empty (homography g)); [discriminate|].
  destruct (doubleAtThrows video); [discriminate|].
  intros [= <-]. exists g. cbn. rewrite Hg. repeat split; reflexivity.
Qed.

Lemma trackFeatures_true_sets (video : Video) (e e' : t) :
  trackFeatures video e = (e', Returns true) ->
  cameraMatrix e' = cameraMatrix e /\ imuData e' = imuData e.
Proof.
  unfold trackFeatures. intros H.
  repeat match type of H with
  | context [match ?c with _ => _ end] => destruct c
  | context [if ?c then _ else _] => destruct c
  end; try discriminate;
  injection H as <- _; split; reflexivity.
Qed.

(** What a successful [detectPlane] stores. *)
Lemma detectPlane_sets (video : Video) (e : t) :
  snd (detectPlane video e) = true ->
  let e' := fst (detectPlane video e) in
  (exists g, groundPlane e' = Some g
             /\ detectedPlanes e' = [g]
             /\ gpConfidence g = planeConfidence e')
  /\ 0.5 < planeConfidence e'
  /\ cameraMatrix e' = cameraMatrix e
  /\ imuData e' = imuData e.
Proof.
  unfold detectPlane.
  repeat break_match; cbn [fst snd]; try discriminate.
  intros Hc. apply gtb_true in Hc.
  split; [eexists; repeat split; reflexivity|].
  split; [exact Hc|]. split; reflexivity.
Qed.

Lemma trackingBlock_tracking (video : Video) (e a : t)
  (result r : TrackingResult) (threw : bool) :
  isTracking result = false ->
  trackingBlock video e result = (a, r, threw) ->
  isTracking r = true ->
  threw = false
  /\ planeCount r = 1%nat
  /\ hasFeatures r = hasFeatures result
  /\ featureCount r = featureCount result
  /\ pose r = currentPose a
  /\ 0.5 < planeConfidence a
  /\ exists g,
       groundPlane a = Some g
       /\ detectedPlanes a = [g]
       /\ gpConfidence g = planeConfidence a
       /\ currentPose a
          = Some (mkPose
                    (mkVector3
                       (doubleAt (homography g) 0 2 / fx (cameraMatrix a))
                       (doubleAt (homography g) 1 2 / fy (cameraMatrix a))
                       3.0)
                    (mkVector3 (beta (imuData a) * (PI / 180))
                               (gamma (imuData a) * (PI / 180))
                               (alpha (imuData a) * (PI / 180)))
                    None (Some (center g)) (Some (planeConfidence a))
                    None None None).
Proof.
  intros Hres. unfold trackingBlock.
  destruct (trackFeatures video e) as [e1 o] eqn:Ht.
  destruct o as [[|]|].
  2:{ intros [= <- <- <-] H. congruence. }
  2:{ intros [= <- <- <-] H. congruence. }
  destruct (trackFeatures_true_sets video e e1 Ht) as (Hcam & Himu).
  destruct (detectPlane video e1) as [e2 d] eqn:Hd.
  destruct d.
  2:{ intros [= <- <- <-] H. cbn in H. congruence. }
  destruct (estimatePose video e2) as [e3 p] eqn:He.
  intros [= <- <- <-] H. cbn in H. subst p.
  destruct (estimatePose_true video e2 e3 He)
    as (g & Hg2 & Hg3 & Hdp & Hc & Hcam3 & Himu3 & Hp).
  pose proof (detectPlane_sets video e1) as Hs. rewrite Hd in Hs.
  cbn [fst snd] in Hs.
  destruct (Hs eq_refl) as ((g' & Hg & Hdl & Hgc) & Hc2 & Hcam2 & Himu2).
  rewrite Hg2 in Hg. injection Hg as <-.
  cbn [planeCount hasFeatures featureCount pose set_tracking set_planeCount].
  rewrite Hdl. repeat split; try reflexivity.
  - rewrite Hc. exact Hc2.
  - exists g. rewrite Hdp, Hdl, Hc.
    repeat split; try assumption; try reflexivity.
    rewrite Hp, Hcam3, Himu3. reflexivity.
Qed.

(** The shape of a tracking result. *)
Lemma processFrame_tracking_pose
  (video : AREngine.Video) (e : AREngine.t) :
  let r := snd (AREngine.processFrame video e) in
  let e' := fst (AREngine.processFrame video e) in
  isTracking r = true ->
  exists g,
    AREngine.groundPlane e' = Some g
    /\ AREngine.detectedPlanes e' = [g]
    /\ pose r
       = Some (mkPose
                 (mkVector3
                    (AREngine.doubleAt (AREngine.homography g) 0 2
                     / AREngine.fx (AREngine.cameraMatrix e'))
                    (AREngine.doubleAt (AREngine.homography g) 1 2
                     / AREngine.fy (AREngine.cameraMatrix e'))
                    3.0)
                 (mkVector3
                    (beta (AREngine.imuData e') * (PI / 180))
                    (gamma (AREngine.imuData e') * (PI / 180))
                    (alpha (AREngine.imuData e') * (PI / 180)))
                 None (Some (AREngine.center g))
                 (Some (AREngine.planeConfidence e')) None None None)
    /\ AREngine.currentPose e' = pose r
    /\ AREngine.gpConfidence g = AREngine.planeConfidence e'
    /\ 0.5 < AREngine.planeConfidence e'
    /\ planeCount r = 1%nat
    /\ AREngine.isTrackingField e' = true.
Proof.
  intros r e'. subst r e'. unfold AREngine.processFrame.
  destruct ((AREngine.videoWidth video =? 0)%nat
            || (AREngine.videoHeight video =? 0)%nat); [discriminate|].
  set (i := if AREngine.sameDimensions e video then e else _).
  clearbody i.
  destruct (AREngine.readFrame video); [|discriminate].
  destruct (AREngine.detectAndCompute video) as [[kps rows]|];
    [|discriminate].
  set (j := AREngine.set_buffers (AREngine.frame i) _ kps rows _ _ i).
  clearbody j.
  set (result := AREngine.set_features (length kps) emptyResult).
  destruct ((0 <? AREngine.prevGrayFrameRows j)%nat
            && (0 <? length (AREngine.prevKeypoints j))%nat).
  2:{ destruct (AREngine.copyToThrows video); discriminate. }
  destruct (AREngine.trackingBlock video j result) as [[e1 r] threw] eqn:Hb.
  intros H.
  assert (Hr : isTracking r = true).
  { revert H. destruct threw; [auto|].
    destruct (AREngine.copyToThrows video); auto. }
  destruct (trackingBlock_tracking video j e1 result r threw
              eq_refl Hb Hr)
    as (-> & Hpc & _ & _ & Hpose & Hc & g & Hg & Hdl & Hgc & Hcur).
  exists g.
  destruct (AREngine.copyToThrows video);
    cbn [AREngine.finish fst snd AREngine.groundPlane AREngine.detectedPlanes
         AREngine.set_isTracking AREngine.set_buffers AREngine.cameraMatrix
         AREngine.imuData AREngine.planeConfidence AREngine.currentPose
         AREngine.isTrackingField];
    rewrite Hpose, Hcur; repeat split; assumption.
Qed.

End VisualResult.

(** X14.  What a tracking result of the visual tracker carries: the pose
    just estimated from the stored ground plane, placed 3 units ahead,
    with the translation taken from the homography and divided by the
    focal lengths, the rotation taken from the IMU angles, the plane's
    center as [planeCenter] and the plane confidence (above 0.5) as
    [confidence]; the same pose is stored as [currentPose];
    [planeCount] is 1 and the engine's own [isTracking] is set. *)
Theorem visual_tracking_result_shape
  (video : AREngine.Video) (e : AREngine.t) :
  let r := snd (AREngine.processFrame video e) in
  let e' := fst (AREngine.processFrame video e) in
  isTracking r = true ->
  exists g,
    AREngine.groundPlane e' = Some g
    /\ AREngine.detectedPlanes e' = [g]
    /\ pose r
       = Some (mkPose
                 (mkVector3
                    (AREngine.doubleAt (AREngine.homography g) 0 2
                     / AREngine.fx (AREngine.cameraMatrix e'))
                    (AREngine.doubleAt (AREngine.homography g) 1 2
                     / AREngine.fy (AREngine.cameraMatrix e'))
                    3.0)
                 (mkVector3
                    (beta (AREngine.imuData e') * (PI / 180))
                    (gamma (AREngine.imuData e') * (PI / 180))
                    (alpha (AREngine.imuData e') * (PI / 180)))
                 None (Some (AREngine.center g))
                 (Some (AREngine.planeConfidence e')) None None None)
    /\ AREngine.currentPose e' = pose r
    /\ AREngine.gpConfidence g = AREngine.planeConfidence e'
    /\ 0.5 < AREngine.planeConfidence e'
    /\ planeCount r = 1%nat
    /\ AREngine.isTrackingField e' = true.
Proof. exact (VisualResult.processFrame_tracking_pose video e). Qed.

Lemma visual_tracking_result_shape_witness :
  let r := snd (AREngine.processFrame AREngine.sampleVideo
                  (AREngine.sampleEngine 0.45)) in
  isTracking r = true
  /\ exists p, pose r = Some p /\ v3z (position p) = 3.0
               /\ confidence p = Some 0.6.
Proof.
  intros r.
  destruct (detect_from (AREngine.sampleEngine 0.45) 0.45
              (VisualSample.steady_sampleEngine 0.45) eq_refl)
    as (_ & Hc & Ht); [lra|].
  assert (H : isTracking r = true).
  { unfold r. rewrite Ht. apply gtb_true. lra. }
  split; [exact H|].
  destruct (visual_tracking_result_shape AREngine.sampleVideo
              (AREngine.sampleEngine 0.45) H)
    as (g & _ & _ & Hp & _ & _ & _ & _ & _).
  eexists. split; [exact Hp|]. split; [reflexivity|].
  cbn [confidence]. rewrite Hc. f_equal. lra.
Defined.

(** X15.  A first frame, or a frame whose size differs from the previous
    one, never reports tracking: it reallocates the frame buffer,
    recomputes the camera matrix from the new size and skips the tracking
    step, so the plane confidence is left as it was; the next frame of
    that size is compared against it.  A frame of width or height 0 is
    ignored altogether. *)
Theorem visual_resize_restarts_tracking
  (video : AREngine.Video) (e : AREngine.t) :
  let r := snd (AREngine.processFrame video e) in
  let e' := fst (AREngine.processFrame video e) in
  (AREngine.videoWidth video = 0%nat \/ AREngine.videoHeight video = 0%nat ->
   AREngine.processFrame video e = (e, emptyResult))
  /\ (AREngine.videoWidth video <> 0%nat ->
      AREngine.videoHeight video <> 0%nat ->
      AREngine.sameDimensions e video = false ->
      isTracking r = false
      /\ pose r = None
      /\ planeCount r = 0%nat
      /\ AREngine.planeConfidence e' = AREngine.planeConfidence e
      /\ AREngine.cameraMatrix e'
         = AREngine.initCameraMatrix (AREngine.videoWidth video)
             (AREngine.videoHeight video)
      /\ AREngine.sameDimensions e' video = true).
Proof.
  intros r e'. subst r e'. unfold AREngine.processFrame. split.
  - intros [-> | ->]; cbn [Nat.eqb orb]; [reflexivity|].
    rewrite orb_true_r. reflexivity.
  - intros Hw Hh Hd.
    apply Nat.eqb_neq in Hw. apply Nat.eqb_neq in Hh.
    rewrite Hw, Hh, Hd. cbn [orb].
    assert (Hs : forall b kp dr pk pd,
              AREngine.sameDimensions
                (AREngine.set_isTracking b
                   (AREngine.set_buffers
                      (Some (AREngine.videoHeight video,
                             AREngine.videoWidth video))
                      0 kp dr pk pd e)) video = true).
    { intros. unfold AREngine.sameDimensions. cbn.
      rewrite !Nat.eqb_refl. reflexivity. }
    destruct (AREngine.readFrame video);
      [|cbn; repeat split; try reflexivity;
        unfold AREngine.sameDimensions; cbn; rewrite !Nat.eqb_refl;
        reflexivity].
    destruct (AREngine.detectAndCompute video) as [[kps rows]|];
      [|cbn; repeat split; try reflexivity;
        unfold AREngine.sameDimensions; cbn; rewrite !Nat.eqb_refl;
        reflexivity].
    cbn [AREngine.set_buffers AREngine.set_cameraMatrix
         AREngine.prevGrayFrameRows Nat.ltb Nat.leb andb].
    destruct (AREngine.copyToThrows video);
      cbn; repeat split; try reflexivity;
      unfold AREngine.sameDimensions; cbn; rewrite !Nat.eqb_refl;
      reflexivity.
Qed.

Lemma visual_resize_restarts_tracking_witness :
  let e := AREngine.sampleEngine 0.9 in
  let video := AREngine.mkVideo 1280 720 (Returns tt)
                 (Returns (AREngine.sampleKeypoints, 10%nat))
                 (Returns AREngine.sampleMatches)
                 (Returns (AREngine.sampleHomography, repeat 1%nat 10))
                 false false in
  let r := snd (AREngine.processFrame video e) in
  let e' := fst (AREngine.processFrame video e) in
  isTracking r = false
  /\ AREngine.planeConfidence e' = 0.9
  /\ AREngine.cameraMatrix e' = AREngine.initCameraMatrix 1280 720.
Proof.
  intros e video r e'.
  destruct (proj2 (visual_resize_restarts_tracking video e))
    as (H1 & _ & _ & H4 & H5 & _).
  - discriminate.
  - discriminate.
  - reflexivity.
  - repeat split; assumption.
Defined.

(** ** Geodetic tracker: distance and bearing *)

Module GeodesyMore.
Import ARLocationEngine.

Lemma haversine_sym (lat1 lon1 lat2 lon2 : R) :
  haversine lat2 lon2 lat1 lon1 = haversine lat1 lon1 lat2 lon2.
Proof.
  unfold haversine.
  replace ((lat1 - lat2) * PI / 180 / 2)
    with (- ((lat2 - lat1) * PI / 180 / 2)) by lra.
  replace ((lon1 - lon2) * PI / 180 / 2)
    with (- ((lon2 - lon1) * PI / 180 / 2)) by lra.
  rewrite !sin_neg. ring.
Qed.

(** The central angle for a haversine term [sin h * sin h] with [h] up to
    a quarter turn. *)
Lemma central_angle_closed (a h : R) :
  0 <= h <= PI / 2 -> a = sin h * sin h ->
  2 * JSMath.atan2 (sqrt a) (sqrt (1 - a)) = 2 * h.
Proof.
  intros [H0 H1] Ha. destruct (Rle_lt_or_eq_dec _ _ H1) as [Hlt | Heq].
  - apply Geodesy.central_angle; [lra | exact Ha].
  - subst a. rewrite Heq, sin_PI2.
    replace (1 - 1 * 1) with 0 by ring. rewrite sqrt_0.
    replace (1 * 1) with 1 by ring. rewrite sqrt_1.
    unfold JSMath.atan2.
    destruct (Rlt_dec 0 0); [lra|]. destruct (Rlt_dec 0 1); lra.
Qed.

(** ... and for any [x] within half a turn of 0, folded back at a quarter
    turn. *)
Lemma central_angle_folded (a x : R) :
  0 <= x <= PI -> a = sin x * sin x ->
  2 * JSMath.atan2 (sqrt a) (sqrt (1 - a)) = 2 * Rmin x (PI - x).
Proof.
  intros [H0 H1] Ha. unfold Rmin. destruct (Rle_dec x (PI - x)).
  - apply central_angle_closed; [lra | exact Ha].
  - apply central_angle_closed; [lra|].
    rewrite Ha. replace (PI - x) with (- x + PI) by ring.
    rewrite neg_sin, sin_neg. ring.
Qed.

Lemma distance_meridian (lat1 lat2 lon : R) :
  -90 <= lat1 <= 90 -> -90 <= lat2 <= 90 ->
  calculateDistance lat1 lon lat2 lon
  = 6371e3 * (Rabs (lat2 - lat1) * PI / 180).
Proof.
  intros H1 H2. unfold calculateDistance. pose proof PI_RGT_0 as Hpi.
  rewrite (central_angle_closed _ (Rabs (lat2 - lat1) * PI / 360)).
  - lra.
  - assert (0 <= Rabs (lat2 - lat1) <= 180)
      by (split; [apply Rabs_pos | apply Rabs_le; lra]).
    split; nra.
  - unfold haversine.
    replace ((lon - lon) * PI / 180 / 2) with 0 by lra.
    rewrite sin_0.
    unfold Rabs. destruct (Rcase_abs (lat2 - lat1)).
    + replace (- (lat2 - lat1) * PI / 360)
        with (- ((lat2 - lat1) * PI / 180 / 2)) by lra.
      rewrite sin_neg. ring.
    + replace ((lat2 - lat1) * PI / 360)
        with ((lat2 - lat1) * PI / 180 / 2) by lra.
      ring.
Qed.

Lemma distance_equator (lon1 lon2 : R) :
  -180 <= lon1 <= 180 -> -180 <= lon2 <= 180 ->
  calculateDistance 0 lon1 0 lon2
  = 6371e3 * (Rmin (Rabs (lon2 - lon1)) (360 - Rabs (lon2 - lon1))
              * PI / 180).
Proof.
  intros H1 H2. unfold calculateDistance. pose proof PI_RGT_0 as Hpi.
  assert (Habs : 0 <= Rabs (lon2 - lon1) <= 360)
    by (split; [apply Rabs_pos | apply Rabs_le; lra]).
  rewrite (central_angle_folded _ (Rabs (lon2 - lon1) * PI / 360)).
  - unfold Rmin.
    destruct (Rle_dec (Rabs (lon2 - lon1) * PI / 360)
                (PI - Rabs (lon2 - lon1) * PI / 360));
      destruct (Rle_dec (Rabs (lon2 - lon1)) (360 - Rabs (lon2 - lon1)));
      try lra; nra.
  - split; nra.
  - unfold haversine.
    replace ((0 - 0) * PI / 180 / 2) with 0 by lra.
    replace (0 * PI / 180) with 0 by lra.
    rewrite sin_0, cos_0.
    unfold Rabs. destruct (Rcase_abs (lon2 - lon1)).
    + replace (- (lon2 - lon1) * PI / 360)
        with (- ((lon2 - lon1) * PI / 180 / 2)) by lra.
      rewrite sin_neg. ring.
    + replace ((lon2 - lon1) * PI / 360)
        with ((lon2 - lon1) * PI / 180 / 2) by lra.
      ring.
Qed.

End GeodesyMore.

(** X16.  Read over the reals, the distance does not depend on the
    direction of travel: from the second point to the first it is what it
    is from the first to the second. *)
Theorem calculateDistance_symmetric (lat1 lon1 lat2 lon2 : R) :
  ARLocationEngine.calculateDistance lat2 lon2 lat1 lon1
  = ARLocationEngine.calculateDistance lat1 lon1 lat2 lon2.
Proof.
  unfold ARLocationEngine.calculateDistance.
  rewrite GeodesyMore.haversine_sym. reflexivity.
Qed.

(** X17.  Along a meridian and along the equator the distance is the arc
    length on a sphere of radius 6371000 m: between two points of the same
    longitude it is the latitude difference in radians times the radius;
    between two points of the equator it is the longitude difference
    times the radius, taken the short way round across the antimeridian
    when that is nearer. *)
Theorem calculateDistance_arc_length (lat1 lon1 lat2 lon2 : R) :
  ARLocationEngine.validCoordinates lat1 lon1 ->
  ARLocationEngine.validCoordinates lat2 lon2 ->
  ARLocationEngine.calculateDistance lat1 lon1 lat2 lon1
  = 6371e3 * (Rabs (lat2 - lat1) * PI / 180)
  /\ ARLocationEngine.calculateDistance 0 lon1 0 lon2
     = 6371e3 * (Rmin (Rabs (lon2 - lon1)) (360 - Rabs (lon2 - lon1))
                 * PI / 180).
Proof.
  intros [Hlat1 Hlon1] [Hlat2 Hlon2]. split.
  - apply GeodesyMore.distance_meridian; assumption.
  - apply GeodesyMore.distance_equator; assumption.
Qed.

Lemma calculateDistance_arc_length_witness :
  ARLocationEngine.calculateDistance 10 179 (-20) 179
  = 6371e3 * (Rabs (-20 - 10) * PI / 180)
  /\ ARLocationEngine.calculateDistance 0 179 0 (-179)
     = 6371e3 * (Rmin (Rabs (-179 - 179)) (360 - Rabs (-179 - 179))
                 * PI / 180).
Proof.
  apply (calculateDistance_arc_length 10 179 (-20) (-179));
    unfold ARLocationEngine.validCoordinates; lra.
Defined.

Module BearingMore.
Import ARLocationEngine.

Lemma bearing_of_origin :
  JSMath.rem (JSMath.atan2 0 0 * 180 / PI + 360) 360 = 0.
Proof.
  unfold JSMath.atan2. destruct (Rlt_dec 0 0); [lra|].
  replace (0 * 180 / PI + 360) with 360
    by (field; apply Rgt_not_eq, PI_RGT_0).
  rewrite (Geodesy.rem_quotient 360 360 1); lra.
Qed.



(** The two arguments of [Math.atan2] for two points of one meridian. *)
Lemma meridian_arguments (lat1 lat2 lon : R) :
  sin ((lon - lon) * PI / 180) * cos (lat2 * PI / 180) = 0
  /\ cos (lat1 * PI / 180) * sin (lat2 * PI / 180)
     - sin (lat1 * PI / 180) * cos (lat2 * PI / 180)
       * cos ((lon - lon) * PI / 180)
     = sin ((lat2 - lat1) * PI / 180).
Proof.
  replace ((lon - lon) * PI / 180) with 0 by lra.
  rewrite sin_0, cos_0. split; [ring|].
  replace ((lat2 - lat1) * PI / 180)
    with (lat2 * PI / 180 - lat1 * PI / 180) by lra.
  rewrite sin_minus. ring.
Qed.


Lemma bearing_same (lat lon : R) : calculateBearing lat lon lat lon = 0.
Proof.
  unfold calculateBearing.
  destruct (meridian_arguments lat lat lon) as (Hy & Hx).
  rewrite Hy, Hx.
  replace ((lat - lat) * PI / 180) with 0 by lra. rewrite sin_0.
  apply bearing_of_origin.
Qed.

End BearingMore.



(** ** Geodetic tracker: pose and tracking state *)

Module LocationCalls.
Import ARLocationEngine.

Lemma setTargetLocation_target (lat lon alt : R) (e : t) :
  targetLocation (setTargetLocation lat lon alt e)
  = Some (mkTargetLocation lat lon alt).
Proof.
  unfold setTargetLocation, updateTracking.
  cbn [currentLocation targetLocation].
  destruct (currentLocation e); [|reflexivity].
  cbn [isTrackingField]. break_match; [unfold updatePose; cbn|]; reflexivity.
Qed.

(** An update that ends without tracking leaves the stored pose alone. *)
Lemma updateTracking_lost (e : t) :
  isTrackingField (updateTracking e) = false ->
  currentPose (updateTracking e) = currentPose e.
Proof.
  unfold updateTracking.
  destruct (currentLocation e) as [cur|]; [|reflexivity].
  destruct (targetLocation e) as [tgt|]; [|reflexivity].
  cbn [isTrackingField].
  destruct ((accuracy cur <=? gpsAccuracyThreshold e) && _) eqn:Hc.
  - unfold updatePose. cbn. discriminate.
  - reflexivity.
Qed.

Lemma idle_reset (e : t) : idle (reset e).
Proof. unfold idle, reset; cbn. repeat split; reflexivity. Qed.

Lemma idle_step (e : t) (c : call) :
  setsTarget c = false -> idle e -> idle (step e c).
Proof.
  intros Hc (Ht & Htr & Hp & Hd & Hb).
  destruct c; cbn [setsTarget] in Hc; try discriminate; cbn [step].
  - unfold updateLocation, updateTracking.
    cbn [currentLocation targetLocation]. rewrite Ht.
    unfold idle; cbn. repeat split; assumption.
  - unfold idle, onDeviceOrientation; cbn. repeat split; assumption.
  - apply idle_reset.
Qed.

Lemma idle_run (cs : list call) :
  forallb (fun c => negb (setsTarget c)) cs = true ->
  forall e, idle e -> idle (run cs e).
Proof.
  induction cs as [|c cs IH]; intros Hcs e He; [exact He|].
  cbn [forallb] in Hcs. apply andb_true_iff in Hcs. destruct Hcs as (Hc & Hcs).
  apply negb_true_iff in Hc.
  apply (IH Hcs), idle_step; assumption.
Qed.

End LocationCalls.

(** X19.  The pose the geodetic tracker builds when an update ends in
    tracking: the target is put at its horizontal distance from the
    device, [x * x + z * z = distance * distance], at the height
    difference between the target altitude and the device altitude (0 when
    the fix has none); the rotation is the device orientation in radians;
    distance, bearing and accuracy are copied; there is no [planeCenter].
    When the compass heading equals the bearing, the target is straight
    ahead: [x = 0] and [z = - distance]. *)
Theorem location_pose_geometry
  (e : ARLocationEngine.t) (cur : LocationFix) (tgt : TargetLocation) :
  ARLocationEngine.currentLocation e = Some cur ->
  ARLocationEngine.targetLocation e = Some tgt ->
  let e' := ARLocationEngine.updateTracking e in
  let d := ARLocationEngine.calculateDistance (latitude cur) (longitude cur)
             (targetLatitude tgt) (targetLongitude tgt) in
  let b := ARLocationEngine.calculateBearing (latitude cur) (longitude cur)
             (targetLatitude tgt) (targetLongitude tgt) in
  let o := ARLocationEngine.deviceOrientation e in
  ARLocationEngine.isTrackingField e' = true ->
  exists p,
    ARLocationEngine.currentPose e' = Some p
    /\ v3x (position p) * v3x (position p)
       + v3z (position p) * v3z (position p) = d * d
    /\ v3y (position p)
       = targetAltitude tgt
         - match altitude cur with Some h => h | None => 0 end
    /\ rotation p = mkVector3 (beta o * (PI / 180)) (alpha o * (PI / 180))
                              (gamma o * (PI / 180))
    /\ gpsDistance p = Some d
    /\ gpsBearing p = Some b
    /\ gpsAccuracy p = Some (accuracy cur)
    /\ planeCenter p = None
    /\ (alpha o = b -> v3x (position p) = 0 /\ v3z (position p) = - d).
Proof.
  intros Hcur Htgt e' d b o. subst e'.
  unfold ARLocationEngine.updateTracking. rewrite Hcur, Htgt.
  fold d b. cbn [ARLocationEngine.isTrackingField].
  destruct ((accuracy cur <=? ARLocationEngine.gpsAccuracyThreshold e)
            && ((d >=? ARLocationEngine.minDistance e)
                && (d <=? ARLocationEngine.maxDistance e)));
    [|cbn; rewrite ?Hcur, ?Htgt; discriminate].
  intros _. unfold ARLocationEngine.updatePose.
  cbn [ARLocationEngine.currentLocation ARLocationEngine.targetLocation
       ARLocationEngine.distanceField ARLocationEngine.bearingField
       ARLocationEngine.deviceOrientation ARLocationEngine.currentPose].
  fold o. eexists. split; [reflexivity|].
  cbn [position rotation v3x v3y v3z gpsDistance gpsBearing gpsAccuracy
       planeCenter].
  repeat split; try reflexivity.
  - set (h := JSMath.rem (b - alpha o + 360) 360 * PI / 180).
    pose proof (sin2_cos2 h) as Hsc. unfold Rsqr in Hsc.
    replace (d * sin h * (d * sin h) + - d * cos h * (- d * cos h))
      with (d * d * (sin h * sin h + cos h * cos h)) by ring.
    rewrite Hsc. ring.
  - rewrite H. replace (b - b + 360) with 360 by ring.
    rewrite (Geodesy.rem_quotient 360 360 1) by lra.
    replace ((360 - 360 * 1) * PI / 180) with 0 by lra.
    rewrite sin_0. ring.
  - rewrite H. replace (b - b + 360) with 360 by ring.
    rewrite (Geodesy.rem_quotient 360 360 1) by lra.
    replace ((360 - 360 * 1) * PI / 180) with 0 by lra.
    rewrite cos_0. ring.
Qed.

Lemma location_pose_geometry_witness :
  let cur := mkLocationFix 37.0 (-122.0) None 5 0 in
  let tgt := mkTargetLocation 37.001 (-122.0) 12 in
  let e := ARLocationEngine.mk true true false (Some cur) (Some tgt)
             (mkOrientation 0 0 0) None None None 50 5 1000 in
  exists p,
    ARLocationEngine.currentPose (ARLocationEngine.updateTracking e) = Some p
    /\ v3y (position p) = 12 - 0
    /\ v3x (position p) = 0.
Proof.
  intros cur tgt e.
  assert (Hd : ARLocationEngine.calculateDistance 37.0 (-122.0) 37.001
                 (-122.0) = 6371e3 * (0.001 * PI / 180))
    by apply GeodeticTracking.scenario_distance.
  assert (Hb : ARLocationEngine.calculateBearing 37.0 (-122.0) 37.001
                 (-122.0) = 0)
    by apply GeodeticTracking.scenario_bearing.
  assert (Ht : ARLocationEngine.isTrackingField
                 (ARLocationEngine.updateTracking e) = true).
  { destruct (GeodeticTracking.updateTracking_fields e cur tgt eq_refl eq_refl)
      as (-> & _).
    cbn [latitude longitude targetLatitude targetLongitude cur tgt accuracy
         ARLocationEngine.gpsAccuracyThreshold ARLocationEngine.minDistance
         ARLocationEngine.maxDistance e].
    rewrite Hd. pose proof Geodesy.PI_bounds as HPI.
    apply andb_true_intro. split; [apply leb_true; lra|].
    apply andb_true_intro. split; [apply geb_true | apply leb_true]; lra. }
  destruct (location_pose_geometry e cur tgt eq_refl eq_refl Ht)
    as (p & Hp & _ & Hy & _ & _ & _ & _ & _ & Hahead).
  exists p. split; [exact Hp|]. split; [exact Hy|].
  apply Hahead. cbn [latitude longitude targetLatitude targetLongitude cur tgt
                     e ARLocationEngine.deviceOrientation alpha].
  symmetry. exact Hb.
Defined.

(** X20.  The stored pose outlives the tracking that produced it: a
    location fix or a new target that ends without tracking, and every
    orientation event, leaves [currentPose] as it was; [processFrame]
    then reports [isTracking = false] and [featureCount = 0] together
    with that pose, and the location loop still passes it to
    [updateCameraPose], a call that throws and ends the loop. *)
Theorem location_pose_outlives_tracking
  (e : ARLocationEngine.t) (c : ARLocationEngine.call) (app : App.t) :
  c <> ARLocationEngine.Reset ->
  ARLocationEngine.isTrackingField (ARLocationEngine.step e c) = false ->
  let e' := ARLocationEngine.step e c in
  let r := ARLocationEngine.processFrame e' in
  ARLocationEngine.currentPose e' = ARLocationEngine.currentPose e
  /\ isTracking r = false
  /\ featureCount r = 0%nat
  /\ pose r = ARLocationEngine.currentPose e
  /\ (forall o, ARLocationEngine.currentPose
                  (ARLocationEngine.onDeviceOrientation o e)
                = ARLocationEngine.currentPose e)
  /\ (App.isInitialized app = true ->
      forall p, ARLocationEngine.currentPose e = Some p ->
                App.startLocationLoop app e'
                = [App.UpdateCameraPose (Some p); App.Uncaught]).
Proof.
  intros Hc Ht e' r.
  assert (Hp : ARLocationEngine.currentPose e'
               = ARLocationEngine.currentPose e).
  { subst e'. destruct c; cbn [ARLocationEngine.step] in *.
    - unfold ARLocationEngine.updateLocation in *.
      rewrite (LocationCalls.updateTracking_lost _ Ht). reflexivity.
    - unfold ARLocationEngine.setTargetLocation in *.
      rewrite (LocationCalls.updateTracking_lost _ Ht). reflexivity.
    - reflexivity.
    - congruence. }
  subst r. unfold ARLocationEngine.processFrame.
  cbn [isTracking featureCount pose]. fold e'.
  change (ARLocationEngine.isTrackingField e') with
    (ARLocationEngine.isTrackingField (ARLocationEngine.step e c)).
  rewrite Ht, Hp. repeat split; try reflexivity.
  intros Hi p Hpose.
  apply LoopFacts.startLocationLoop_pose; [exact Hi|].
  rewrite Hp. exact Hpose.
Qed.

Lemma location_pose_outlives_tracking_witness :
  let e := ARLocationEngine.run
             [ARLocationEngine.UpdateLocation
                (mkLocationFix 37.0 (-122.0) None 5 0);
              ARLocationEngine.SetTargetLocation 37.001 (-122.0) 0]
             ARLocationEngine.new in
  let e' := ARLocationEngine.step e
              (ARLocationEngine.UpdateLocation
                 (mkLocationFix 37.0 (-122.0) None 80 1)) in
  ARLocationEngine.isTrackingField e' = false
  /\ ARLocationEngine.currentPose e' = ARLocationEngine.currentPose e.
Proof.
  intros e e'.
  assert (Ht : ARLocationEngine.isTrackingField e' = false).
  { unfold e', ARLocationEngine.step, ARLocationEngine.updateLocation.
    destruct (GeodeticTracking.updateTracking_fields
                (ARLocationEngine.mk
                   (ARLocationEngine.isSupported e)
                   (ARLocationEngine.isInitialized e)
                   (ARLocationEngine.isTrackingField e)
                   (Some (mkLocationFix 37.0 (-122.0) None 80 1))
                   (ARLocationEngine.targetLocation e)
                   (ARLocationEngine.deviceOrientation e)
                   (ARLocationEngine.currentPose e)
                   (ARLocationEngine.distanceField e)
                   (ARLocationEngine.bearingField e)
                   (ARLocationEngine.gpsAccuracyThreshold e)
                   (ARLocationEngine.minDistance e)
                   (ARLocationEngine.maxDistance e))
                (mkLocationFix 37.0 (-122.0) None 80 1)
                (mkTargetLocation 37.001 (-122.0) 0) eq_refl)
      as (-> & _).
    - unfold e, ARLocationEngine.run. cbn [fold_left ARLocationEngine.step].
      apply LocationCalls.setTargetLocation_target.
    - apply andb_false_intro1.
      cbn [accuracy ARLocationEngine.gpsAccuracyThreshold].
      replace (ARLocationEngine.gpsAccuracyThreshold e) with 50.
      + unfold JSMath.leb. destruct (Rle_dec 80 50); [lra | reflexivity].
      + symmetry.
        apply (LocationFacts.run_invariant
                 [ARLocationEngine.UpdateLocation
                    (mkLocationFix 37.0 (-122.0) None 5 0);
                  ARLocationEngine.SetTargetLocation 37.001 (-122.0) 0]).
        * repeat constructor. cbn. lra.
        * split; [reflexivity | discriminate].
        * exact I. }
  split; [exact Ht|].
  apply (location_pose_outlives_tracking e _ (App.mk true true false));
    [discriminate | exact Ht].
Defined.

(** X21.  After [reset()] the geodetic tracker stays idle until a target
    is set: whatever location fixes, orientation events and further
    resets arrive, it has no target, no pose, no distance and does not
    track, and in location mode the status stays "searching" with the
    place button disabled. *)
Theorem location_reset_idle_until_target
  (e : ARLocationEngine.t) (cs : list ARLocationEngine.call) :
  forallb (fun c => negb (ARLocationEngine.setsTarget c)) cs = true ->
  let e' := ARLocationEngine.run cs (ARLocationEngine.reset e) in
  let r := ARLocationEngine.processFrame e' in
  ARLocationEngine.targetLocation e' = None
  /\ isTracking r = false
  /\ pose r = None
  /\ (exists g, gpsData r = Some g /\ distance g = None /\ bearing g = None)
  /\ App.updateTrackingStatus (Some App.Location) r
     = (App.StatusSearching, true).
Proof.
  intros Hcs e' r.
  destruct (LocationCalls.idle_run cs Hcs _ (LocationCalls.idle_reset e))
    as (Ht & Htr & Hp & Hd & Hb).
  fold e' in Ht, Htr, Hp, Hd, Hb.
  subst r. unfold ARLocationEngine.processFrame, App.updateTrackingStatus.
  cbn [isTracking pose gpsData distance bearing].
  rewrite Ht, Htr, Hp, Hd, Hb. repeat split; try reflexivity.
  eexists. repeat split; reflexivity.
Qed.

Lemma location_reset_idle_until_target_witness :
  let e := ARLocationEngine.run
             [ARLocationEngine.UpdateLocation
                (mkLocationFix 37.0 (-122.0) None 5 0);
              ARLocationEngine.SetTargetLocation 37.001 (-122.0) 0]
             ARLocationEngine.new in
  let e' := ARLocationEngine.run
              [ARLocationEngine.UpdateLocation
                 (mkLocationFix 37.0005 (-122.0) None 5 1);
               ARLocationEngine.DeviceOrientation (mkOrientation 90 0 0)]
              (ARLocationEngine.reset e) in
  isTracking (ARLocationEngine.processFrame e') = false
  /\ pose (ARLocationEngine.processFrame e') = None.
Proof.
  intros e e'.
  destruct (location_reset_idle_until_target e
              [ARLocationEngine.UpdateLocation
                 (mkLocationFix 37.0005 (-122.0) None 5 1);
               ARLocationEngine.DeviceOrientation (mkOrientation 90 0 0)]
              eq_refl) as (_ & H1 & H2 & _).
  split; assumption.
Defined.

(** ** Settings panel, GPS overlay and gestures *)

Module UIFacts.
Import String.StringSyntax.
Local Open Scope string_scope.
Import UIController.

Lemma geb_false (a b : R) : (a >=? b) = false <-> a < b.
Proof.
  unfold JSMath.geb; destruct (Rle_dec b a); split; intros; try easy; lra.
Qed.

(** The direction named for a bearing in a given range. *)
Lemma direction_of (b : R) :
  getDirectionText (Some b)
  = if (b >=? 337.5) && (b <? 360) then "North"
    else if (b >=? 0) && (b <? 22.5) then "North"
    else if (b >=? 22.5) && (b <? 67.5) then "Northeast"
    else if (b >=? 67.5) && (b <? 112.5) then "East"
    else if (b >=? 112.5) && (b <? 157.5) then "Southeast"
    else if (b >=? 157.5) && (b <? 202.5) then "South"
    else if (b >=? 202.5) && (b <? 247.5) then "Southwest"
    else if (b >=? 247.5) && (b <? 292.5) then "West"
    else if (b >=? 292.5) && (b <? 337.5) then "Northwest"
    else "away".
Proof.
  unfold getDirectionText, directions. cbn [find].
  repeat (destruct (_ && _); [reflexivity|]). reflexivity.
Qed.

Lemma direction_in_range (b : R) :
  0 <= b < 360 -> getDirectionText (Some b) <> "away".
Proof.
  intros Hb. rewrite direction_of. decide_ranges; discriminate.
Qed.

End UIFacts.

Section CompassText.
Import String.StringSyntax.
Local Open Scope string_scope.

(** X22.  [getDirectionText] names a compass direction for every bearing
    in [0, 360), the eight sectors being 45 degrees wide and centred on
    the cardinal and intercardinal directions, and answers ['away'] for a
    missing bearing and for any number outside that range.  It therefore
    never answers ['away'] for a bearing computed by
    [calculateBearing]. *)
Theorem getDirectionText_compass (b : R) :
  UIController.getDirectionText None = "away"
  /\ (b < 0 \/ 360 <= b -> UIController.getDirectionText (Some b) = "away")
  /\ (337.5 <= b < 360 \/ 0 <= b < 22.5 ->
      UIController.getDirectionText (Some b) = "North")
  /\ (22.5 <= b < 67.5 ->
      UIController.getDirectionText (Some b) = "Northeast")
  /\ (67.5 <= b < 112.5 ->
      UIController.getDirectionText (Some b) = "East")
  /\ (112.5 <= b < 157.5 ->
      UIController.getDirectionText (Some b) = "Southeast")
  /\ (157.5 <= b < 202.5 ->
      UIController.getDirectionText (Some b) = "South")
  /\ (202.5 <= b < 247.5 ->
      UIController.getDirectionText (Some b) = "Southwest")
  /\ (247.5 <= b < 292.5 ->
      UIController.getDirectionText (Some b) = "West")
  /\ (292.5 <= b < 337.5 ->
      UIController.getDirectionText (Some b) = "Northwest")
  /\ (forall lat1 lon1 lat2 lon2,
        UIController.getDirectionText
          (Some (ARLocationEngine.calculateBearing lat1 lon1 lat2 lon2))
        <> "away").
Proof.
  split; [reflexivity|].
  repeat split; try (intros H; rewrite UIFacts.direction_of;
                     decide_ranges; reflexivity).
  intros lat1 lon1 lat2 lon2.
  apply UIFacts.direction_in_range, Bearing.calculateBearing_range.
Qed.

End CompassText.

Module TargetFacts.
Import UIController.

Lemma range_checks (lat lon : R) :
  ((lat <? -90) || (lat >? 90) = false
   /\ (lon <? -180) || (lon >? 180) = false)
  <-> ARLocationEngine.validCoordinates lat lon.
Proof.
  unfold ARLocationEngine.validCoordinates.
  rewrite !orb_false_iff, !ltb_false, !gtb_false. tauto.
Qed.

End TargetFacts.

(** X23.  [onSetGPSTarget] sets a target exactly when both coordinates
    parse, the latitude is in [-90, 90], the longitude in [-180, 180] and
    the application is in location mode; the target then carries those
    coordinates and the parsed altitude, 0 when it does not parse.  Every
    other click leaves the tracker untouched, so a target set through the
    panel always has coordinates in range. *)
Theorem onSetGPSTarget_accepts_valid_only
  (latInput lonInput altInput : option R) (arMode : option App.ARMode)
  (arEngine : ARLocationEngine.t) :
  let r := UIController.onSetGPSTarget latInput lonInput altInput arMode
             arEngine in
  let altitude := match altInput with Some a => a | None => 0 end in
  (forall lat lon,
     latInput = Some lat -> lonInput = Some lon ->
     ARLocationEngine.validCoordinates lat lon ->
     arMode = Some App.Location ->
     r = (ARLocationEngine.setTargetLocation lat lon altitude arEngine,
          UIController.TargetSet lat lon))
  /\ (forall lat lon,
        snd r = UIController.TargetSet lat lon ->
        latInput = Some lat /\ lonInput = Some lon
        /\ ARLocationEngine.validCoordinates lat lon
        /\ arMode = Some App.Location
        /\ ARLocationEngine.targetLocation (fst r)
           = Some (mkTargetLocation lat lon altitude))
  /\ ((forall lat lon, snd r <> UIController.TargetSet lat lon) ->
      fst r = arEngine).
Proof.
  intros r altitude. subst r. unfold UIController.onSetGPSTarget.
  fold altitude. split; [|split].
  - intros lat lon -> -> Hv ->.
    apply TargetFacts.range_checks in Hv. destruct Hv as (-> & ->).
    reflexivity.
  - intros lat lon.
    destruct latInput as [lat'|]; [|discriminate].
    destruct lonInput as [lon'|]; [|discriminate].
    destruct ((lat' <? -90) || (lat' >? 90)) eqn:Hlat; [discriminate|].
    destruct ((lon' <? -180) || (lon' >? 180)) eqn:Hlon; [discriminate|].
    destruct arMode as [[| |]|]; try discriminate.
    cbn [fst snd]. intros [= <- <-].
    repeat split; try reflexivity;
      try (apply (TargetFacts.range_checks lat' lon'); split; assumption).
    apply LocationCalls.setTargetLocation_target.
  - intros Hno.
    destruct latInput as [lat'|]; [|reflexivity].
    destruct lonInput as [lon'|]; [|reflexivity].
    destruct ((lat' <? -90) || (lat' >? 90)); [reflexivity|].
    destruct ((lon' <? -180) || (lon' >? 180)); [reflexivity|].
    destruct arMode as [[| |]|]; try reflexivity.
    exfalso. apply (Hno lat' lon'). reflexivity.
Qed.

(** X24.  "Use my location" sets a target the tracker cannot track: the
    target is the current fix, so the distance and the bearing are 0,
    which is below any positive [minDistance]; [isTracking] becomes false
    and the stored pose is left as it was.  Outside location mode, and
    before the first fix, the handler changes nothing. *)
Theorem onUseMyLocation_too_close
  (arMode : option App.ARMode) (arEngine : ARLocationEngine.t)
  (loc : LocationFix) :
  ARLocationEngine.currentLocation arEngine = Some loc ->
  0 < ARLocationEngine.minDistance arEngine ->
  let e' := fst (UIController.onUseMyLocation (Some App.Location) arEngine) in
  ARLocationEngine.targetLocation e'
  = Some (mkTargetLocation (latitude loc) (longitude loc)
            (match altitude loc with Some h => h | None => 0 end))
  /\ ARLocationEngine.distanceField e' = Some 0
  /\ ARLocationEngine.bearingField e' = Some 0
  /\ ARLocationEngine.isTrackingField e' = false
  /\ ARLocationEngine.currentPose e' = ARLocationEngine.currentPose arEngine
  /\ (arMode <> Some App.Location ->
      UIController.onUseMyLocation arMode arEngine
      = (arEngine, UIController.ModeNotActive)).
Proof.
  intros Hloc Hmin e'. subst e'. unfold UIController.onUseMyLocation.
  rewrite Hloc. cbn [fst].
  set (alt := match altitude loc with Some h => h | None => 0 end).
  unfold ARLocationEngine.setTargetLocation.
  set (e1 := ARLocationEngine.mk _ _ _ _ _ _ _ _ _ _ _ _).
  destruct (GeodeticTracking.updateTracking_fields e1 loc
              (mkTargetLocation (latitude loc) (longitude loc) alt)
              Hloc eq_refl) as (Ht & Hd & Hb & _ & Htgt).
  cbn [targetLatitude targetLongitude] in Ht, Hd, Hb.
  rewrite Geodesy.calculateDistance_same in Ht, Hd.
  rewrite BearingMore.bearing_same in Hb.
  assert (Hlost : ARLocationEngine.isTrackingField
                    (ARLocationEngine.updateTracking e1) = false).
  { rewrite Ht. cbn [ARLocationEngine.minDistance e1].
    replace (0 >=? ARLocationEngine.minDistance arEngine) with false.
    - cbn [andb]. apply andb_false_r.
    - symmetry. unfold JSMath.geb.
      destruct (Rle_dec (ARLocationEngine.minDistance arEngine) 0);
        [lra | reflexivity]. }
  split; [exact Htgt|]. split; [exact Hd|]. split; [exact Hb|].
  split; [exact Hlost|]. split.
  - rewrite (LocationCalls.updateTracking_lost e1 Hlost). reflexivity.
  - destruct arMode as [[| |]|]; intros Hm; try reflexivity. congruence.
Qed.

Lemma onUseMyLocation_too_close_witness :
  let e := ARLocationEngine.updateLocation
             (mkLocationFix 37.0 (-122.0) (Some 14) 5 0)
             ARLocationEngine.new in
  let e' := fst (UIController.onUseMyLocation (Some App.Location) e) in
  ARLocationEngine.distanceField e' = Some 0
  /\ ARLocationEngine.isTrackingField e' = false.
Proof.
  intros e e'.
  destruct (onUseMyLocation_too_close (Some App.Location) e
              (mkLocationFix 37.0 (-122.0) (Some 14) 5 0))
    as (_ & Hd & _ & Ht & _).
  - reflexivity.
  - cbn. lra.
  - split; assumption.
Defined.

Module OverlayFacts.
Import ARLocationEngine.

Lemma updateTracking_maxDistance (e : t) :
  maxDistance (updateTracking e) = maxDistance e.
Proof.
  unfold updateTracking.
  destruct (currentLocation e); [|reflexivity].
  destruct (targetLocation e); [|reflexivity].
  cbn [isTrackingField]. break_match; [unfold updatePose; cbn|]; reflexivity.
Qed.


End OverlayFacts.

Section GPSOverlay.
Import String.StringSyntax.
Local Open Scope string_scope.



End GPSOverlay.

(** ** Scene manager and application: placing, anchoring, resetting *)

Module SceneFacts.

Section Scene.

Variable Camera : Type.
Variable Model : Type.
Variable setFromCamera : Vector2 -> Camera -> SceneManager.Ray.
Variable intersectPlane
  : SceneManager.Ray -> SceneManager.Plane -> option Vector3.

Lemma set_visible_twice (b : bool) (o : SceneManager.Object3D) :
  SceneManager.set_visible b (SceneManager.set_visible b o)
  = SceneManager.set_visible b o.
Proof. reflexivity. Qed.

Lemma placeModel_again (s : SceneManager.t Camera Model)
  (pose pose' : option Pose) :
  SceneManager.placeModel setFromCamera intersectPlane pose'
    (fst (SceneManager.placeModel setFromCamera intersectPlane pose s))
  = SceneManager.placeModel setFromCamera intersectPlane pose s.
Proof.
  unfold SceneManager.placeModel.
  destruct (SceneManager.model s) eqn:Hm; cbn [fst].
  - cbn. reflexivity.
  - rewrite Hm. reflexivity.
Qed.

Lemma placeModel_after_reset (s : SceneManager.t Camera Model)
  (pose : option Pose) :
  SceneManager.model s <> None ->
  SceneManager.placeModel setFromCamera intersectPlane pose
    (SceneManager.resetModel s)
  = SceneManager.placeModel setFromCamera intersectPlane pose s.
Proof.
  intros Hm. unfold SceneManager.placeModel, SceneManager.resetModel.
  cbn. destruct (SceneManager.model s); [reflexivity | congruence].
Qed.

(** Once a model is placed, [updateModelPose] writes [lastPose] only. *)
Lemma updateModelPose_placed (s : SceneManager.t Camera Model)
  (pose : option Pose) :
  SceneManager.isModelPlaced s = true ->
  exists lp,
    fst (SceneManager.updateModelPose setFromCamera intersectPlane pose s)
    = SceneManager.set_lastPose Camera Model lp s.
Proof.
  intros Hp. unfold SceneManager.updateModelPose.
  destruct pose as [p|].
  - exists (Some p).
    destruct (planeCenter p); [|reflexivity].
    destruct (intersectPlane _ _); [|reflexivity].
    cbn [SceneManager.isModelPlaced SceneManager.set_lastPose].
    rewrite Hp. reflexivity.
  - exists (SceneManager.lastPose s). destruct s; reflexivity.
Qed.

Lemma updateModelPoses_placed (poses : list (option Pose)) :
  forall s : SceneManager.t Camera Model,
    SceneManager.isModelPlaced s = true ->
    exists lp,
      SceneManager.updateModelPoses setFromCamera intersectPlane poses s
      = SceneManager.set_lastPose Camera Model lp s.
Proof.
  induction poses as [|p ps IH]; intros s Hp.
  - exists (SceneManager.lastPose s). destruct s; reflexivity.
  - unfold SceneManager.updateModelPoses in *. cbn [fold_left].
    destruct (updateModelPose_placed s p Hp) as (lp & ->).
    destruct (IH (SceneManager.set_lastPose Camera Model lp s) Hp)
      as (lp' & ->).
    exists lp'. reflexivity.
Qed.

(** [updateModelPose] on a pose without [planeCenter]. *)
Lemma updateModelPose_no_center (s : SceneManager.t Camera Model) (p : Pose) :
  planeCenter p = None ->
  SceneManager.updateModelPose setFromCamera intersectPlane (Some p) s
  = (SceneManager.set_lastPose Camera Model (Some p) s, Throws).
Proof.
  intros H. unfold SceneManager.updateModelPose. rewrite H. reflexivity.
Qed.

(** [updateModelPose] on a pose with a [planeCenter]. *)
Lemma updateModelPose_center (s : SceneManager.t Camera Model) (p : Pose) :
  planeCenter p <> None ->
  snd (SceneManager.updateModelPose setFromCamera intersectPlane (Some p) s)
  = Returns tt.
Proof.
  intros H. unfold SceneManager.updateModelPose.
  destruct (planeCenter p); [|congruence].
  destruct (intersectPlane _ _); [|reflexivity].
  destruct (negb _); reflexivity.
Qed.

End Scene.

End SceneFacts.

(** X26.  Where [placeModel] puts the model does not depend on earlier
    placements or resets: placing twice is the same as placing once, and
    with a model loaded, placing after [resetModel()] gives the scene that
    placing without the reset gives. *)
Theorem placeModel_forgets_history
  (Camera Model : Type)
  (setFromCamera : Vector2 -> Camera -> SceneManager.Ray)
  (intersectPlane : SceneManager.Ray -> SceneManager.Plane -> option Vector3)
  (s : SceneManager.t Camera Model) (pose pose' : option Pose) :
  let place := SceneManager.placeModel setFromCamera intersectPlane in
  place pose' (fst (place pose s)) = place pose s
  /\ (SceneManager.model s <> None ->
      place pose' (SceneManager.resetModel s) = place pose s
      /\ place pose' (SceneManager.resetModel (fst (place pose s)))
         = place pose s).
Proof.
  intros place. subst place. split.
  - apply SceneFacts.placeModel_again.
  - intros Hm.
    assert (E : forall p, SceneManager.placeModel setFromCamera intersectPlane
                            p s
                          = SceneManager.placeModel setFromCamera
                              intersectPlane pose s).
    { intros p. unfold SceneManager.placeModel.
      destruct (SceneManager.model s); reflexivity. }
    split.
    + rewrite SceneFacts.placeModel_after_reset by exact Hm. apply E.
    + rewrite SceneFacts.placeModel_after_reset.
      * apply SceneFacts.placeModel_again.
      * unfold SceneManager.placeModel.
        destruct (SceneManager.model s) eqn:Hs; [cbn; congruence|congruence].
Qed.

(** X27.  A placed model stays where it was put: after a successful
    [placeModel], no sequence of [updateModelPose] calls moves or hides
    the model or its shadow, changes the placed position, or shows the
    ground indicator or the grid again; only [lastPose] is written. *)
Theorem placed_model_stays_anchored
  (Camera Model : Type)
  (setFromCamera : Vector2 -> Camera -> SceneManager.Ray)
  (intersectPlane : SceneManager.Ray -> SceneManager.Plane -> option Vector3)
  (s : SceneManager.t Camera Model) (pose : option Pose)
  (poses : list (option Pose)) :
  SceneManager.model s <> None ->
  let s1 := fst (SceneManager.placeModel setFromCamera intersectPlane pose s) in
  let s2 := SceneManager.updateModelPoses setFromCamera intersectPlane
              poses s1 in
  (exists lp, s2 = SceneManager.set_lastPose Camera Model lp s1)
  /\ SceneManager.isModelPlaced s2 = true
  /\ SceneManager.modelGroup s2 = SceneManager.modelGroup s1
  /\ SceneManager.visible (SceneManager.modelGroup s2) = true
  /\ SceneManager.placedPosition s2 = SceneManager.placedPosition s1
  /\ SceneManager.shadowPlane s2 = SceneManager.shadowPlane s1
  /\ SceneManager.visible (SceneManager.groundIndicator s2) = false
  /\ SceneManager.visible (SceneManager.gridHelper s2) = false.
Proof.
  intros Hm s1 s2.
  assert (Hp : SceneManager.isModelPlaced s1 = true
               /\ SceneManager.visible (SceneManager.modelGroup s1) = true
               /\ SceneManager.visible (SceneManager.groundIndicator s1)
                  = false
               /\ SceneManager.visible (SceneManager.gridHelper s1) = false).
  { subst s1. unfold SceneManager.placeModel.
    destruct (SceneManager.model s); [|congruence].
    cbn. repeat split; reflexivity. }
  destruct Hp as (Hp & Hv & Hi & Hg).
  destruct (SceneFacts.updateModelPoses_placed Camera Model setFromCamera
              intersectPlane poses s1 Hp) as (lp & E).
  fold s2 in E. split; [exists lp; exact E|].
  rewrite E. cbn. repeat split; assumption.
Qed.

Lemma placed_model_stays_anchored_witness :
  let s := SceneManager.sampleScene (mkVector3 0 0 (-3)) 45 in
  let p := mkPose (mkVector3 0 0 3) (mkVector3 0 0 0) None
                  (Some (mkVector2 100 700)) (Some 0.8) None None None in
  let s1 := fst (SceneManager.placeModel SceneManager.centerRay
                   SceneManager.sampleIntersectPlane None s) in
  let s2 := SceneManager.updateModelPoses SceneManager.centerRay
              SceneManager.sampleIntersectPlane [Some p; None; Some p] s1 in
  SceneManager.modelGroup s2 = SceneManager.modelGroup s1
  /\ SceneManager.visible (SceneManager.groundIndicator s2) = false.
Proof.
  intros s p s1 s2.
  destruct (placed_model_stays_anchored SceneManager.LookAtCamera unit
              SceneManager.centerRay SceneManager.sampleIntersectPlane
              s None [Some p; None; Some p])
    as (_ & _ & H1 & _ & _ & _ & H2 & _).
  - discriminate.
  - split; assumption.
Defined.

Module PlacementFacts.

Lemma updateTracking_pose (e : ARLocationEngine.t) :
  ARLocationEngine.isTrackingField (ARLocationEngine.updateTracking e) = true ->
  exists p,
    ARLocationEngine.currentPose (ARLocationEngine.updateTracking e) = Some p
    /\ planeCenter p = None.
Proof.
  unfold ARLocationEngine.updateTracking.
  destruct (ARLocationEngine.currentLocation e) as [cur|] eqn:Hcur;
    [|discriminate].
  destruct (ARLocationEngine.targetLocation e) as [tgt|] eqn:Htgt;
    [|discriminate].
  cbn [ARLocationEngine.isTrackingField].
  destruct (_ && _); [|cbn; discriminate].
  intros _. unfold ARLocationEngine.updatePose. cbn.
  eexists. split; reflexivity.
Qed.

End PlacementFacts.

(** X28.  [updateModelPose] reads [pose.planeCenter], which only the
    visual tracker provides.  On a tracking result of the visual tracker
    it returns normally; on a pose without [planeCenter] it throws after
    storing the pose as [lastPose] and changes nothing else, and this is
    the case for every pose the hit-test loop hands to it and for every
    pose of the geodetic tracker.  A missing pose is ignored. *)
Theorem updateModelPose_needs_planeCenter
  (Camera Model : Type)
  (setFromCamera : Vector2 -> Camera -> SceneManager.Ray)
  (intersectPlane : SceneManager.Ray -> SceneManager.Plane -> option Vector3)
  (s : SceneManager.t Camera Model)
  (video : AREngine.Video) (ev : AREngine.t)
  (app : App.t) (frame : option WebXREngine.XRFrame) (ex : WebXREngine.t)
  (eg : ARLocationEngine.t) :
  let update := SceneManager.updateModelPose setFromCamera intersectPlane in
  update None s = (s, Returns tt)
  /\ (forall p, planeCenter p = None ->
                update (Some p) s
                = (SceneManager.set_lastPose Camera Model (Some p) s, Throws))
  /\ (isTracking (snd (AREngine.processFrame video ev)) = true ->
      snd (update (pose (snd (AREngine.processFrame video ev))) s)
      = Returns tt)
  /\ (forall p, In (App.UpdateModelPose p)
                   (snd (App.startWebXRLoop app frame ex)) ->
                snd (update p s) = Throws)
  /\ (ARLocationEngine.isTrackingField (ARLocationEngine.updateTracking eg)
      = true ->
      snd (update (ARLocationEngine.currentPose
                     (ARLocationEngine.updateTracking eg)) s) = Throws).
Proof.
  intros update. subst update.
  split; [reflexivity|]. split; [|split; [|split]].
  - intros p. apply SceneFacts.updateModelPose_no_center.
  - intros Ht.
    destruct (VisualResult.processFrame_tracking_pose video ev Ht)
      as (g & _ & _ & -> & _).
    apply SceneFacts.updateModelPose_center. discriminate.
  - intros p Hin. unfold App.startWebXRLoop in Hin.
    destruct (negb (App.isInitialized app)
              || negb (WebXREngine.isSessionActive ex)); [destruct Hin|].
    destruct frame as [f|]; [|destruct Hin as [H|[]]; discriminate].
    set (frame := Some f) in *.
    destruct (WebXREngine.processFrame frame ex) as [ex' r] eqn:Hr.
    assert (Hrx : r = snd (WebXREngine.processFrame frame ex))
      by (rewrite Hr; reflexivity).
    destruct (App.attempt _) as [done threw] eqn:Hdone. cbn [snd] in Hin.
    destruct Hin as [H|Hin]; [discriminate|].
    apply in_app_or in Hin. destruct Hin as [Hin | Hin].
    2:{ destruct threw; [destruct Hin as [H|[]]; discriminate
                        | destruct Hin]. }
    assert (Hd : done = fst (App.attempt
                   ((match viewerTransform r with
                     | Some transform => [App.SetCamera transform]
                     | None => []
                     end)
                    ++ (if isTracking r && App.currentModel app
                           && negb (App.isModelPlaced app)
                        then [App.UpdateModelPose (pose r)] else [])
                    ++ [App.Render])))
      by (rewrite Hdone; reflexivity).
    rewrite Hd in Hin. apply LoopFacts.attempt_incl in Hin.
    apply in_app_or in Hin. destruct Hin as [Hin | Hin].
    { destruct (viewerTransform r); [destruct Hin as [H|[]]; discriminate
                                    | destruct Hin]. }
    apply in_app_or in Hin. destruct Hin as [Hin | Hin].
    2:{ destruct Hin as [H|[]]; discriminate. }
    destruct (isTracking r && App.currentModel app
              && negb (App.isModelPlaced app)) eqn:Hc; [|destruct Hin].
    apply andb_true_iff in Hc. destruct Hc as (Hc & _).
    apply andb_true_iff in Hc. destruct Hc as (Ht & _).
    destruct Hin as [[= <-]|[]].
    rewrite Hrx in Ht.
    destruct (HitTestCalls.processFrame_tracking frame ex Ht)
      as (hitPose & _ & Hp & _).
    rewrite Hrx, Hp.
    rewrite SceneFacts.updateModelPose_no_center; reflexivity.
  - intros Ht.
    destruct (PlacementFacts.updateTracking_pose eg Ht) as (p & -> & Hc).
    rewrite SceneFacts.updateModelPose_no_center; [reflexivity | exact Hc].
Qed.

(** X29.  The place button and what pressing it does.  With a model
    loaded, indoors the button is enabled exactly on a tracking result,
    and a tracking result of the visual or of the hit-test tracker leaves
    a pose for which [placeModel()] succeeds.  In location mode the
    button is enabled as soon as a distance is known, tracking or not;
    while the tracker has not produced a pose, [placeModel()] returns
    [false] and changes nothing. *)
Theorem place_button_and_placement
  (Camera Model : Type)
  (setFromCamera : Vector2 -> Camera -> SceneManager.Ray)
  (intersectPlane : SceneManager.Ray -> SceneManager.Plane -> option Vector3)
  (s : SceneManager.t Camera Model) (app : App.t)
  (video : AREngine.Video) (ev : AREngine.t)
  (frame : option WebXREngine.XRFrame) (ex : WebXREngine.t)
  (eg : ARLocationEngine.t) (cur : LocationFix) (tgt : TargetLocation) :
  App.currentModel app = true ->
  SceneManager.model s <> None ->
  ARLocationEngine.currentLocation eg = Some cur ->
  ARLocationEngine.targetLocation eg = Some tgt ->
  let place := App.placeModel setFromCamera intersectPlane app in
  let rv := AREngine.processFrame video ev in
  let rx := WebXREngine.processFrame frame ex in
  let eg' := ARLocationEngine.updateTracking eg in
  (snd (App.updateTrackingStatus (Some App.OpenCV) (snd rv)) = false ->
   snd (place (AREngine.currentPose (fst rv)) s) = true)
  /\ (snd (App.updateTrackingStatus (Some App.WebXR) (snd rx)) = false ->
      snd (place (WebXREngine.currentPose (fst rx)) s) = true)
  /\ snd (App.updateTrackingStatus (Some App.Location)
            (ARLocationEngine.processFrame eg')) = false
  /\ (ARLocationEngine.currentPose eg' = None ->
      place (ARLocationEngine.currentPose eg') s = (s, false)).
Proof.
  intros Hcm Hm Hcur Htgt place rv rx eg'. subst place rv rx.
  assert (Hplace : forall p,
             snd (App.placeModel setFromCamera intersectPlane app (Some p) s)
             = true).
  { intros p. unfold App.placeModel, SceneManager.placeModel. rewrite Hcm.
    destruct (SceneManager.model s); [reflexivity | congruence]. }
  assert (Hbtn : forall mode r,
             mode <> App.Location ->
             snd (App.updateTrackingStatus (Some mode) r) = false ->
             isTracking r = true).
  { intros mode r Hmode. unfold App.updateTrackingStatus.
    destruct mode; try congruence;
      destruct (isTracking r); auto; destruct (hasFeatures r); discriminate. }
  split; [|split; [|split]].
  - intros Hb. apply Hbtn in Hb; [|discriminate].
    destruct (VisualResult.processFrame_tracking_pose video ev Hb)
      as (g & _ & _ & Hp & Hc & _).
    rewrite Hc, Hp. apply Hplace.
  - intros Hb. apply Hbtn in Hb; [|discriminate].
    destruct (HitTestCalls.processFrame_tracking frame ex Hb)
      as (hitPose & _ & Hp & Hc & _).
    rewrite Hc, Hp. apply Hplace.
  - destruct (GeodeticTracking.updateTracking_fields eg cur tgt Hcur Htgt)
      as (_ & Hd & _).
    unfold App.updateTrackingStatus, ARLocationEngine.processFrame.
    cbn [gpsData distance]. fold eg'. fold eg' in Hd. rewrite Hd. reflexivity.
  - intros ->. unfold App.placeModel. rewrite Hcm. reflexivity.
Qed.

Lemma place_button_and_placement_witness :
  let s := SceneManager.sampleScene (mkVector3 0 0 (-3)) 0 in
  let app := App.mk true true false in
  let cur := mkLocationFix 37.0 (-122.0) None 5 0 in
  let tgt := mkTargetLocation 37.5 (-122.0) 0 in
  let eg := ARLocationEngine.mk true true false (Some cur) (Some tgt)
              (mkOrientation 0 0 0) None None None 50 5 1000 in
  snd (App.updateTrackingStatus (Some App.Location)
         (ARLocationEngine.processFrame
            (ARLocationEngine.updateTracking eg))) = false.
Proof.
  intros s app cur tgt eg.
  refine (proj1 (proj2 (proj2
    (place_button_and_placement SceneManager.LookAtCamera unit
       SceneManager.centerRay SceneManager.sampleIntersectPlane
       s app AREngine.sampleVideo AREngine.new
       None WebXREngine.started eg cur tgt _ _ _ _))));
    try reflexivity.
  discriminate.
Defined.

(** X30.  Reset, then place: [resetModel()] of the application hides the
    model, puts it back at the origin, keeps it loaded, and clears the
    pose of whichever tracker is in use, so a [placeModel()] that follows
    at once returns [false] and leaves the scene as the reset left it. *)
Theorem place_after_reset_fails
  (Camera Model : Type)
  (setFromCamera : Vector2 -> Camera -> SceneManager.Ray)
  (intersectPlane : SceneManager.Ray -> SceneManager.Plane -> option Vector3)
  (s : SceneManager.t Camera Model) (app : App.t)
  (ev : AREngine.t) (ex : WebXREngine.t) (eg : ARLocationEngine.t) :
  let place := App.placeModel setFromCamera intersectPlane app in
  let sv := App.resetModel AREngine.reset s ev in
  let sx := App.resetModel WebXREngine.reset s ex in
  let sg := App.resetModel ARLocationEngine.reset s eg in
  let s' := SceneManager.resetModel s in
  fst sv = s' /\ fst sx = s' /\ fst sg = s'
  /\ SceneManager.model s' = SceneManager.model s
  /\ SceneManager.isModelPlaced s' = false
  /\ SceneManager.visible (SceneManager.modelGroup s') = false
  /\ SceneManager.objPosition (SceneManager.modelGroup s') = mkVector3 0 0 0
  /\ SceneManager.modelRotation s' = SceneManager.modelRotation s
  /\ place (AREngine.currentPose (snd sv)) (fst sv) = (s', false)
  /\ place (WebXREngine.currentPose (snd sx)) (fst sx) = (s', false)
  /\ place (ARLocationEngine.currentPose (snd sg)) (fst sg) = (s', false).
Proof.
  intros place sv sx sg s'. subst place sv sx sg s'.
  unfold App.resetModel, App.placeModel. cbn [fst snd].
  repeat split; try reflexivity;
    cbn [AREngine.currentPose AREngine.reset WebXREngine.currentPose
         WebXREngine.reset ARLocationEngine.currentPose
         ARLocationEngine.reset];
    destruct (App.currentModel app); reflexivity.
Qed.
